(** * telegram-sports-bot: the aggregation engine of [bot_menu_gratuit_plus.py]

    A shallow embedding of the bot's fetch pipelines, enrichment fetchers,
    menu renderers and button handler, followed by the properties of the
    specification that were checked against it.

    Conventions.
    - A decoded JSON payload is a [json] value.  JSON numbers are the
      integers ([JInt]); a payload holding a fractional number is outside
      the model.
    - A Python [str] is a [string] holding its UTF-8 bytes.  Byte-wise
      lexical order of UTF-8 is code-point order, which is how Python
      compares [str] values.
    - Python exceptions are values of [exn]; every one of them derives from
      [Exception], so a bare [except Exception] handles them all.
    - Code that awaits the network or touches the shared cache lives in the
      [IO] monad over a [World]; the button handler lives in [Handler],
      over a [Ctx] that adds the user's [user_data] and the messages sent
      so far.  State written before an exception is raised stays written. *)

From Stdlib Require Import List String Ascii ZArith QArith Lia Lqa Bool.
From Stdlib Require Import Sorted Permutation DecimalString.
Import ListNotations.

Local Open Scope string_scope.
Local Open Scope Z_scope.

Set Warnings "-register-all".

(* ================================================================== *)
(** ** Python values as decoded from JSON *)
(* ================================================================== *)

Inductive json : Type :=
| JNull
| JBool (b : bool)
| JInt (z : Z)
| JStr (s : string)
| JArr (items : list json)
| JObj (fields : list (string * json)).

Inductive exn : Type :=
| AttributeError
| TypeError
| KeyError
| IndexError
| ValueError
| HTTPError (message : string).

Inductive result (A : Type) : Type :=
| Ok (a : A)
| Raise (e : exn).
Arguments Ok {A} a.
Arguments Raise {A} e.

Definition rbind {A B} (r : result A) (k : A -> result B) : result B :=
  match r with
  | Ok a => k a
  | Raise e => Raise e
  end.

Declare Scope result_scope.
Delimit Scope result_scope with result.
Notation "x <- c ;; k" := (rbind c (fun x => k))
  (at level 61, c at next level, right associativity) : result_scope.
Notation "' p <- c ;; k" := (rbind c (fun x => let p := x in k))
  (at level 61, p pattern, c at next level, right associativity) : result_scope.

(** [bool(v)]: [None], [False], [0], the empty string, list and dict are
    false. *)
Definition truthy (v : json) : bool :=
  match v with
  | JNull => false
  | JBool b => b
  | JInt z => negb (z =? 0)
  | JStr s => negb (s =? "")%string
  | JArr l => match l with [] => false | _ => true end
  | JObj l => match l with [] => false | _ => true end
  end.

(** [a or b]. *)
Definition py_or (a b : json) : json := if truthy a then a else b.

Fixpoint assoc (k : string) (fields : list (string * json)) : option json :=
  match fields with
  | [] => None
  | (k', v) :: rest => if (k =? k')%string then Some v else assoc k rest
  end.

(** [d.get(k, default)]: only a dict has the method. *)
Definition get_default (d : json) (k : string) (default : json) : result json :=
  match d with
  | JObj fields =>
      Ok (match assoc k fields with Some v => v | None => default end)
  | _ => Raise AttributeError
  end.

(** [d.get(k)]. *)
Definition get (d : json) (k : string) : result json := get_default d k JNull.

(** The code points of a UTF-8 string: a byte [10xxxxxx] continues the
    code point before it. *)
Definition is_continuation (c : ascii) : bool :=
  let n := N_of_ascii c in ((128 <=? n) && (n <? 192))%N.

Fixpoint codepoints (s : string) : list string :=
  match s with
  | EmptyString => []
  | String c rest =>
      match codepoints rest with
      | [] => [String c EmptyString]
      | cp :: cps =>
          match cp with
          | String c' _ =>
              if is_continuation c' then String c cp :: cps
              else String c EmptyString :: cp :: cps
          | EmptyString => String c EmptyString :: cps
          end
      end
  end.

(** [for x in v]: the items of a list, the characters of a str, the keys
    of a dict; anything else is not iterable. *)
Definition py_iter (v : json) : result (list json) :=
  match v with
  | JArr l => Ok l
  | JStr s => Ok (map JStr (codepoints s))
  | JObj fields => Ok (map (fun kv => JStr (fst kv)) fields)
  | _ => Raise TypeError
  end.

(** [len(v)]. *)
Definition py_len (v : json) : result Z :=
  match v with
  | JArr l => Ok (Z.of_nat (List.length l))
  | JStr s => Ok (Z.of_nat (List.length (codepoints s)))
  | JObj fields => Ok (Z.of_nat (List.length fields))
  | _ => Raise TypeError
  end.

(** [v[i]] for a literal index [i >= 0].  A dict decoded from JSON has str
    keys only, so an int subscript is a [KeyError]. *)
Definition py_index (v : json) (i : nat) : result json :=
  match v with
  | JArr l => match nth_error l i with Some x => Ok x | None => Raise IndexError end
  | JStr s =>
      match nth_error (codepoints s) i with
      | Some c => Ok (JStr c)
      | None => Raise IndexError
      end
  | JObj _ => Raise KeyError
  | _ => Raise TypeError
  end.

Definition string_of_Z (z : Z) : string := NilZero.string_of_int (Z.to_int z).

Definition Z_of_bool (b : bool) : Z := if b then 1 else 0.

(** [a == b] on decoded JSON: [True == 1], lists item by item, dicts as
    maps.  It never raises. *)
Fixpoint py_eq (a b : json) : bool :=
  match a, b with
  | JNull, JNull => true
  | JBool x, JBool y => Bool.eqb x y
  | JBool x, JInt y => Z_of_bool x =? y
  | JInt x, JBool y => x =? Z_of_bool y
  | JInt x, JInt y => x =? y
  | JStr x, JStr y => (x =? y)%string
  | JArr l, JArr m =>
      (fix items (l m : list json) : bool :=
         match l, m with
         | [], [] => true
         | x :: l', y :: m' => py_eq x y && items l' m'
         | _, _ => false
         end) l m
  | JObj l, JObj m =>
      (List.length l =? List.length m)%nat &&
      (fix fields (l : list (string * json)) : bool :=
         match l with
         | [] => true
         | (k, v) :: l' =>
             match assoc k m with
             | Some v' => py_eq v v' && fields l'
             | None => false
             end
         end) l
  | _, _ => false
  end.

(** [a < b]: numbers with numbers, str with str (code-point order), list
    with list (the first differing pair decides, else the shorter list is
    smaller); every other pairing is a [TypeError]. *)
Fixpoint py_lt (a b : json) : result bool :=
  match a, b with
  | JBool x, JBool y => Ok (Z_of_bool x <? Z_of_bool y)
  | JBool x, JInt y => Ok (Z_of_bool x <? y)
  | JInt x, JBool y => Ok (x <? Z_of_bool y)
  | JInt x, JInt y => Ok (x <? y)
  | JStr x, JStr y => Ok (String.ltb x y)
  | JArr l, JArr m =>
      (fix items (l m : list json) : result bool :=
         match l, m with
         | [], [] => Ok false
         | [], _ :: _ => Ok true
         | _ :: _, [] => Ok false
         | x :: l', y :: m' => if py_eq x y then items l' m' else py_lt x y
         end) l m
  | _, _ => Raise TypeError
  end.

(* ================================================================== *)
(** ** Interpreter and platform functions *)
(* ================================================================== *)

(** What the program takes from the Python runtime and the host without
    defining it: the [repr] of a list or dict, the parsing of a str by
    [int], the date arithmetic of [datetime].  They are parameters of the
    model: the general properties hold whatever they compute. *)
Class Builtins : Type := {
  (** [repr(v)] of a list or a dict. *)
  repr_container : json -> string;
  (** [int(s)] of a str; [None] is [ValueError]. *)
  int_of_str : string -> option Z;
  (** [datetime.fromisoformat(s.replace("Z", "+00:00")).astimezone()
      .strftime("%d/%m %H:%M")], in the host's time zone; [None] when one
      of the calls raises. *)
  isoformat_to_local : string -> option string;
  (** [dt.strftime("%Y%m%d")] of the UTC day numbered [d]. *)
  strftime_Ymd : Z -> string
}.

Section Program.
Context {B : Builtins}.

(** [str(v)], which is also what an f-string field [{v}] inserts. *)
Definition py_str (v : json) : string :=
  match v with
  | JNull => "None"
  | JBool true => "True"
  | JBool false => "False"
  | JInt z => string_of_Z z
  | JStr s => s
  | JArr _ | JObj _ => repr_container v
  end.

(** [int(v)]. *)
Definition py_int (v : json) : result Z :=
  match v with
  | JInt z => Ok z
  | JBool b => Ok (Z_of_bool b)
  | JStr s => match int_of_str s with Some z => Ok z | None => Raise ValueError end
  | JNull | JArr _ | JObj _ => Raise TypeError
  end.

(** [l.sort(key=key)].  A stable sort by [<] on the keys; an exception of
    a comparison leaves the sort.  The comparisons are made in insertion
    order; on keys that [<] orders totally, as it does strings and
    numbers, the list is the one CPython's sort gives. *)
Fixpoint insert_by {A} (key : A -> json) (x : A) (sorted : list A)
  : result (list A) :=
  match sorted with
  | [] => Ok [x]
  | y :: ys =>
      (b <- py_lt (key x) (key y) ;;
       if b then Ok (x :: y :: ys)
       else zs <- insert_by key x ys ;; Ok (y :: zs))%result
  end.

Fixpoint sort_into {A} (key : A -> json) (l sorted : list A)
  : result (list A) :=
  match l with
  | [] => Ok sorted
  | x :: rest =>
      (sorted' <- insert_by key x sorted ;; sort_into key rest sorted')%result
  end.

Definition py_sort {A} (key : A -> json) (l : list A) : result (list A) :=
  sort_into key l [].

(** <<
def fmt_dt(iso_str: str) -> str:
    try:
        dt = datetime.fromisoformat(iso_str.replace("Z", "+00:00"))
        return dt.astimezone().strftime("%d/%m %H:%M")
    except Exception:
        return iso_str or "??"
>>
    Only a str has [replace]; for any other value the handler runs. *)
Definition fmt_dt (iso_str : json) : json :=
  match iso_str with
  | JStr s =>
      match isoformat_to_local s with
      | Some formatted => JStr formatted
      | None => py_or iso_str (JStr "??")
      end
  | _ => py_or iso_str (JStr "??")
  end.

(** <<
def yyyymmdd(dt: datetime) -> str:
    return dt.strftime("%Y%m%d")
>>
    A [datetime] is kept as its UTC day number. *)
Definition yyyymmdd (dt : Z) : string := strftime_Ymd dt.

(** <<
def markets_for(sport: str) -> List[str]:
>> *)
Definition markets_for (sport : string) : list string :=
  if (sport =? "soccer")%string then
    ["1X2"; "Double chance (1X/12/X2)"; "Over/Under 2.5"; "BTTS";
     "Handicap (indicatif)"]
  else if (sport =? "basketball")%string then
    ["Moneyline"; "Spread (indicatif)"; "Total points (O/U)"; "Mi-temps";
     "Team totals"]
  else if (sport =? "tennis")%string then
    ["Vainqueur"; "Nombre de sets"; "O/U jeux"; "Handicap jeux";
     "Vainqueur 1er set"]
  else if (sport =? "nhl")%string then
    ["Moneyline"; "Puck line"; "Total buts (O/U)"; "1er tiers"; "Team totals"]
  else if (sport =? "nfl")%string then
    ["Moneyline"; "Spread"; "Total points (O/U)"; "Team totals"; "Mi-temps"]
  else if (sport =? "mlb")%string then
    ["Moneyline"; "Run line"; "Total runs (O/U)"; "1st 5 innings";
     "Team totals"]
  else [].

(* ================================================================== *)
(** ** The response cache *)
(* ================================================================== *)

(** Modelled from the spec: the class [TTLCache] that line 18 instantiates
    comes from the package cachetools and is not part of the repository.
    Its model follows sections 3 and 4.1 of the specification: [get]
    answers a value or a miss, [put] stores one; an entry expires [ttl]
    seconds after it was put; a [put] that would exceed the capacity
    evicts least-recently-used entries first.  The list holds the
    entries from the least to the most recently used; expired entries
    are dropped at the next [put]. *)
Record Entry : Type := {
  entry_key : string;
  entry_value : json;
  entry_expires : Q
}.

Definition TTLCache : Type := list Entry.

(** <<
CACHE = TTLCache(maxsize=2048, ttl=60)
>> *)
Definition maxsize : nat := 2048.
Definition ttl : Q := 60.
Definition CACHE : TTLCache := [].

Definition live (now : Q) (e : Entry) : bool :=
  negb (Qle_bool (entry_expires e) now).

Definition has_key (k : string) (e : Entry) : bool :=
  (entry_key e =? k)%string.

Definition cache_find (k : string) (c : TTLCache) : option Entry :=
  find (has_key k) c.

Definition cache_remove (k : string) (c : TTLCache) : TTLCache :=
  filter (fun e => negb (has_key k e)) c.

(** [key in cache]. *)
Definition cache_contains (now : Q) (k : string) (c : TTLCache) : bool :=
  match cache_find k c with
  | Some e => live now e
  | None => false
  end.

(** [cache[key]]: a hit makes the entry the most recently used one. *)
Definition cache_getitem (now : Q) (k : string) (c : TTLCache)
  : result json * TTLCache :=
  match cache_find k c with
  | Some e =>
      if live now e then (Ok (entry_value e), (cache_remove k c ++ [e])%list)
      else (Raise KeyError, c)
  | None => (Raise KeyError, c)
  end.

Definition cache_expire (now : Q) (c : TTLCache) : TTLCache :=
  filter (live now) c.

(** Makes room for one more entry, least recently used first. *)
Definition cache_evict (c : TTLCache) : TTLCache :=
  skipn (List.length c + 1 - maxsize) c.

(** [cache[key] = value]. *)
Definition cache_setitem (now : Q) (k : string) (v : json) (c : TTLCache)
  : TTLCache :=
  (cache_evict (cache_remove k (cache_expire now c))
   ++ [{| entry_key := k; entry_value := v;
          entry_expires := (now + ttl)%Q |}])%list.

(* ================================================================== *)
(** ** The world and the [IO] monad *)
(* ================================================================== *)

(** What the process shares and what surrounds it.  [tick] counts the
    interactions made so far; the surroundings answer the [n]-th one with
    the monotonic clock [clock n], the UTC day [utc_day n], or the outcome
    [net n url params] of a GET ([raise_for_status] and the decoding of
    the body included). *)
Record World : Type := {
  tick : nat;
  clock : nat -> Q;
  utc_day : nat -> Z;
  net : nat -> string -> list (string * json) -> result json;
  cache : TTLCache
}.

Definition step (w : World) (c : TTLCache) : World :=
  {| tick := S (tick w); clock := clock w; utc_day := utc_day w;
     net := net w; cache := c |}.

Definition IO (A : Type) : Type := World -> result A * World.

Definition ret {A} (a : A) : IO A := fun w => (Ok a, w).

Definition raise {A} (e : exn) : IO A := fun w => (Raise e, w).

Definition bind {A C} (m : IO A) (k : A -> IO C) : IO C :=
  fun w =>
    match m w with
    | (Ok a, w') => k a w'
    | (Raise e, w') => (Raise e, w')
    end.

(** [try: body / except Exception: handler]. *)
Definition try_except {A} (body handler : IO A) : IO A :=
  fun w =>
    match body w with
    | (Ok a, w') => (Ok a, w')
    | (Raise _, w') => handler w'
    end.

(** A computation that touches nothing of the world. *)
Definition pure_result {A} (r : result A) : IO A := fun w => (r, w).

Declare Scope io_scope.
Delimit Scope io_scope with io.
Notation "x <- c ;; k" := (bind c (fun x => k))
  (at level 61, c at next level, right associativity) : io_scope.
Notation "' p <- c ;; k" := (bind c (fun x => let p := x in k))
  (at level 61, p pattern, c at next level, right associativity) : io_scope.

(** [for x in xs: acc = body(x, acc)]. *)
Fixpoint for_each {A S} (xs : list A) (body : A -> S -> IO S) (acc : S)
  : IO S :=
  match xs with
  | [] => ret acc
  | x :: rest => (acc' <- body x acc ;; for_each rest body acc')%io
  end.

Definition cache_has (key : string) : IO bool :=
  fun w => (Ok (cache_contains (clock w (tick w)) key (cache w)),
            step w (cache w)).

Definition cache_get (key : string) : IO json :=
  fun w =>
    let (r, c) := cache_getitem (clock w (tick w)) key (cache w) in
    (r, step w c).

Definition cache_put (key : string) (data : json) : IO unit :=
  fun w => (Ok tt, step w (cache_setitem (clock w (tick w)) key data (cache w))).

Definition client_get (url : string) (params : list (string * json)) : IO json :=
  fun w => (net w (tick w) url params, step w (cache w)).

Definition datetime_now_utc : IO Z :=
  fun w => (Ok (utc_day w (tick w)), step w (cache w)).

(** <<
async def http_get_json(url, params=None):
    key = url + "|" + str(params or {})
    if key in CACHE:
        return CACHE[key]
    async with httpx.AsyncClient(timeout=25) as client:
        r = await client.get(url, params=params, headers={...})
        r.raise_for_status()
        data = r.json()
        CACHE[key] = data
        return data
>>
    [params=None] is the empty list. *)
Definition http_get_json (url : string) (params : list (string * json))
  : IO json :=
  let key := url ++ "|" ++ py_str (JObj params) in
  (hit <- cache_has key ;;
   if hit then cache_get key
   else
     data <- client_get url params ;;
     _ <- cache_put key data ;;
     ret data)%io.

Definition ESPN_BASE : string := "https://site.api.espn.com/apis/site/v2".

(** <<
async def espn_scoreboard(sport_path, league, dt):
    url = f"{ESPN_BASE}/sports/{sport_path}/{league}/scoreboard"
    return await http_get_json(url, params={"dates": yyyymmdd(dt), "limit": 300})
>> *)
Definition espn_scoreboard (sport_path league : string) (dt : Z) : IO json :=
  let url := ESPN_BASE ++ "/sports/" ++ sport_path ++ "/" ++ league
             ++ "/scoreboard" in
  http_get_json url [("dates", JStr (yyyymmdd dt)); ("limit", JInt 300)].

(* ================================================================== *)
(** ** Recent form of a team *)
(* ================================================================== *)

Definition nl : string := String (ascii_of_nat 10) EmptyString.

Definition FORM_UNAVAILABLE : string := "📈 Forme: indisponible".

Definition empty_list : json := JArr [].
Definition empty_dict : json := JObj [].

(** The name shown for a competitor of a schedule event:
    <<
((c.get("team") or {}).get("abbreviation")
 or (c.get("team") or {}).get("displayName") or placeholder)
>> *)
Definition form_name (c : json) (placeholder : string) : result json :=
  (t <- get c "team" ;;
   abbreviation <- get (py_or t empty_dict) "abbreviation" ;;
   if truthy abbreviation then Ok abbreviation
   else
     t' <- get c "team" ;;
     displayName <- get (py_or t' empty_dict) "displayName" ;;
     Ok (py_or displayName (JStr placeholder)))%result.

(** ["W" if mine > theirs else ("L" if mine < theirs else "D")]. *)
Definition win_loss (mine theirs : Z) : string :=
  if theirs <? mine then "W" else if mine <? theirs then "L" else "D".

(** One turn of the loop of [team_form_espn]: [None] is [continue], a
    line is what [results.append] receives. *)
Definition form_line (ev : json) (team_id : string) : result (option string) :=
  (cs <- get_default ev "competitions" empty_list ;;
   let competitions := py_or cs empty_list in
   if negb (truthy competitions) then Ok None
   else
     comp <- py_index competitions 0 ;;
     st <- get_default comp "status" empty_dict ;;
     ty <- get_default (py_or st empty_dict) "type" empty_dict ;;
     let status := py_or ty empty_dict in
     completed <- get status "completed" ;;
     if negb (truthy completed) then Ok None
     else
       cps <- get_default comp "competitors" empty_list ;;
       let comps := py_or cps empty_list in
       n <- py_len comps ;;
       if n <? 2 then Ok None
       else
         c1 <- py_index comps 0 ;;
         c2 <- py_index comps 1 ;;
         score1 <- get c1 "score" ;;
         s1 <- py_int (py_or score1 (JStr "0")) ;;
         score2 <- get c2 "score" ;;
         s2 <- py_int (py_or score2 (JStr "0")) ;;
         n1 <- form_name c1 "T1" ;;
         n2 <- form_name c2 "T2" ;;
         ev_date <- get_default ev "date" (JStr "") ;;
         comp_date <- get_default comp "date" ev_date ;;
         let date := fmt_dt comp_date in
         t1 <- get c1 "team" ;;
         id1 <- get_default (py_or t1 empty_dict) "id" (JStr "") ;;
         let team1_id := py_str id1 in
         t2 <- get c2 "team" ;;
         id2 <- get_default (py_or t2 empty_dict) "id" (JStr "") ;;
         let team2_id := py_str id2 in
         let line wl :=
           wl ++ " " ++ py_str n1 ++ " " ++ string_of_Z s1 ++ "-"
           ++ string_of_Z s2 ++ " " ++ py_str n2 ++ " (" ++ py_str date ++ ")" in
         if (team1_id =? team_id)%string then Ok (Some (line (win_loss s1 s2)))
         else if (team2_id =? team_id)%string then
           Ok (Some (line (win_loss s2 s1)))
         else Ok None)%result.

(** The loop over the events: it stops at the fifth result. *)
Fixpoint form_results (events : list json) (team_id : string)
         (results : list string) : result (list string) :=
  match events with
  | [] => Ok results
  | ev :: rest =>
      (r <- form_line ev team_id ;;
       match r with
       | None => form_results rest team_id results
       | Some line =>
           let results' := (results ++ [line])%list in
           if (5 <=? List.length results')%nat then Ok results'
           else form_results rest team_id results'
       end)%result
  end.

(** The body of the [try] of [team_form_espn], after the fetch. *)
Definition form_text (data : json) (team_id : string) : result string :=
  (evs <- get_default data "events" empty_list ;;
   events <- py_iter (py_or evs empty_list) ;;
   results <- form_results events team_id [] ;;
   match results with
   | [] => Ok FORM_UNAVAILABLE
   | _ :: _ =>
       Ok ("📈 Forme (5 derniers):" ++ nl ++ "- "
           ++ String.concat (nl ++ "- ") results)
   end)%result.

(** <<
async def team_form_espn(sport_path: str, league: str, team_id: str) -> str:
    try:
        url = f"{ESPN_BASE}/sports/{sport_path}/{league}/teams/{team_id}/schedule"
        data = await http_get_json(url, params={"limit": 25})
        ...
    except Exception:
        return "📈 Forme: indisponible"
>> *)
Definition team_form_attempt (sport_path league team_id : string) : IO string :=
  (let url := ESPN_BASE ++ "/sports/" ++ sport_path ++ "/" ++ league
              ++ "/teams/" ++ team_id ++ "/schedule" in
   data <- http_get_json url [("limit", JInt 25)] ;;
   pure_result (form_text data team_id))%io.

Definition team_form_espn (sport_path league team_id : string) : IO string :=
  try_except (team_form_attempt sport_path league team_id)
             (ret FORM_UNAVAILABLE).

(* ================================================================== *)
(** ** The match list *)
(* ================================================================== *)

(** The dict that [parse_espn_events_to_matches] builds: its nine keys
    are always present.  [start_time], [home] and [away] hold what the
    payload held, which need not be a str. *)
Record Match : Type := {
  match_sport : string;
  match_league : string;
  match_league_name : string;
  match_id : string;
  match_start_time : json;
  match_home : json;
  match_away : json;
  match_home_id : string;
  match_away_id : string
}.

(** [next((c for c in comps if c.get("homeAway") == role), default)]:
    the scan stops at the first competitor tagged [role]. *)
Fixpoint find_role (role : string) (comps : list json) (default : json)
  : result json :=
  match comps with
  | [] => Ok default
  | c :: rest =>
      (tag <- get c "homeAway" ;;
       if py_eq tag (JStr role) then Ok c else find_role role rest default)%result
  end.

(** [team.get("displayName") or team.get("shortDisplayName") or placeholder]. *)
Definition display_name (team : json) (placeholder : string) : result json :=
  (long <- get team "displayName" ;;
   if truthy long then Ok long
   else
     short <- get team "shortDisplayName" ;;
     Ok (py_or short (JStr placeholder)))%result.

(** One turn of the loop of [parse_espn_events_to_matches]: [None] is
    [continue], a match is what [matches.append] receives. *)
Definition event_to_match (sport_key : string) (ev : json)
           (league_code league_name : string) : result (option Match) :=
  (cs <- get_default ev "competitions" empty_list ;;
   let competitions := py_or cs empty_list in
   if negb (truthy competitions) then Ok None
   else
     comp <- py_index competitions 0 ;;
     cps <- get_default comp "competitors" empty_list ;;
     let comps := py_or cps empty_list in
     n <- py_len comps ;;
     if n <? 2 then Ok None
     else
       items <- py_iter comps ;;
       first <- py_index comps 0 ;;
       home_obj <- find_role "home" items first ;;
       second <- py_index comps 1 ;;
       away_obj <- find_role "away" items second ;;
       ht <- get home_obj "team" ;;
       let home_team := py_or ht empty_dict in
       awt <- get away_obj "team" ;;
       let away_team := py_or awt empty_dict in
       ev_id <- get ev "id" ;;
       ev_date <- get_default ev "date" (JStr "") ;;
       start_time <- get_default comp "date" ev_date ;;
       home <- display_name home_team "HOME" ;;
       away <- display_name away_team "AWAY" ;;
       home_id <- get_default home_team "id" (JStr "") ;;
       away_id <- get_default away_team "id" (JStr "") ;;
       Ok (Some {| match_sport := sport_key;
                   match_league := league_code;
                   match_league_name := league_name;
                   match_id := py_str ev_id;
                   match_start_time := start_time;
                   match_home := home;
                   match_away := away;
                   match_home_id := py_str home_id;
                   match_away_id := py_str away_id |}))%result.

Fixpoint parse_events (sport_key : string) (events : list json)
         (league_code league_name : string) (matches : list Match)
  : result (list Match) :=
  match events with
  | [] => Ok matches
  | ev :: rest =>
      (r <- event_to_match sport_key ev league_code league_name ;;
       match r with
       | None => parse_events sport_key rest league_code league_name matches
       | Some m =>
           parse_events sport_key rest league_code league_name
                        (matches ++ [m])%list
       end)%result
  end.

(** <<
def parse_espn_events_to_matches(sport_key, scoreboard, league_code, league_name):
    matches = []
    for ev in (scoreboard.get("events", []) or []):
        ...
    return matches
>> *)
Definition parse_espn_events_to_matches (sport_key : string) (scoreboard : json)
           (league_code league_name : string) : result (list Match) :=
  (evs <- get_default scoreboard "events" empty_list ;;
   events <- py_iter (py_or evs empty_list) ;;
   parse_events sport_key events league_code league_name [])%result.

Definition SOCCER_LEAGUES : list (string * string) :=
  [("eng.1", "Premier League");
   ("esp.1", "LaLiga");
   ("ita.1", "Serie A");
   ("fra.1", "Ligue 1");
   ("ger.1", "Bundesliga");
   ("uefa.champions", "UEFA Champions League");
   ("uefa.europa", "UEFA Europa League");
   ("uefa.europa.conf", "UEFA Conference League");
   ("fifa.world", "International (FIFA)")].

Definition BASKET_LEAGUES : list (string * string) :=
  [("nba", "NBA");
   ("euroleague", "EuroLeague");
   ("france-lnb", "Betclic ÉLITE (si dispo)")].

Definition TENNIS_LEAGUES : list (string * string) :=
  [("atp", "ATP"); ("wta", "WTA")].

(** The body of the loops of [fetch_soccer_matches] and
    [fetch_tennis_matches]:
    <<
        try:
            sb = await espn_scoreboard(sport, code, dt)
            out.extend(parse_espn_events_to_matches(sport, sb, code, name))
        except Exception:
            continue
>> *)
Definition fetch_league (sport : string) (dt : Z) (league : string * string)
           (out : list Match) : IO (list Match) :=
  let (code, name) := league in
  try_except
    (sb <- espn_scoreboard sport code dt ;;
     ms <- pure_result (parse_espn_events_to_matches sport sb code name) ;;
     ret (out ++ ms)%list)%io
    (ret out).

(** <<
async def fetch_soccer_matches(dt):
    out = []
    for code, name in SOCCER_LEAGUES:
        ...
    return out
>> *)
Definition fetch_soccer_matches (dt : Z) : IO (list Match) :=
  for_each SOCCER_LEAGUES (fetch_league "soccer" dt) [].

(** <<
async def fetch_basket_matches(dt, league_code, league_name):
    try:
        sb = await espn_scoreboard("basketball", league_code, dt)
        return parse_espn_events_to_matches("basketball", sb, league_code, league_name)
    except Exception:
        return []
>> *)
Definition fetch_basket_matches (dt : Z) (league_code league_name : string)
  : IO (list Match) :=
  try_except
    (sb <- espn_scoreboard "basketball" league_code dt ;;
     pure_result
       (parse_espn_events_to_matches "basketball" sb league_code league_name))%io
    (ret []).

(** <<
async def fetch_nfl_matches(dt):
    sb = await espn_scoreboard("football", "nfl", dt)
    return parse_espn_events_to_matches("nfl", sb, "nfl", "NFL")
>> *)
Definition fetch_nfl_matches (dt : Z) : IO (list Match) :=
  (sb <- espn_scoreboard "football" "nfl" dt ;;
   pure_result (parse_espn_events_to_matches "nfl" sb "nfl" "NFL"))%io.

(** <<
async def fetch_nhl_matches_espn(dt):
    sb = await espn_scoreboard("hockey", "nhl", dt)
    return parse_espn_events_to_matches("nhl", sb, "nhl", "NHL")
>> *)
Definition fetch_nhl_matches_espn (dt : Z) : IO (list Match) :=
  (sb <- espn_scoreboard "hockey" "nhl" dt ;;
   pure_result (parse_espn_events_to_matches "nhl" sb "nhl" "NHL"))%io.

(** <<
async def fetch_mlb_matches_espn(dt):
    sb = await espn_scoreboard("baseball", "mlb", dt)
    return parse_espn_events_to_matches("mlb", sb, "mlb", "MLB")
>> *)
Definition fetch_mlb_matches_espn (dt : Z) : IO (list Match) :=
  (sb <- espn_scoreboard "baseball" "mlb" dt ;;
   pure_result (parse_espn_events_to_matches "mlb" sb "mlb" "MLB"))%io.

(** <<
async def fetch_tennis_matches(dt):
    out = []
    for league_code, league_name in [("atp", "ATP"), ("wta", "WTA")]:
        ...
    return out
>> *)
Definition fetch_tennis_matches (dt : Z) : IO (list Match) :=
  for_each TENNIS_LEAGUES (fetch_league "tennis" dt) [].

(* ================================================================== *)
(** ** Probable starters *)
(* ================================================================== *)

Definition GOALIES_UNAVAILABLE : string := "🧤 Gardiens probables: indisponible".
Definition PITCHERS_UNAVAILABLE : string := "⚾ Lanceurs probables: indisponible".

(** The end shared by the two fetchers:
    <<
        if not (h or a):
            return unavailable
        lines = [header]
        if a: lines.append(f"- Extérieur: {a}")
        if h: lines.append(f"- Domicile: {h}")
        return "\n".join(lines)
>> *)
Definition starters_text (header unavailable : string) (h a : json) : string :=
  if negb (truthy (py_or h a)) then unavailable
  else
    let away_line := "- Extérieur: " ++ py_str a in
    let home_line := "- Domicile: " ++ py_str h in
    String.concat nl
      ([header]
       ++ (if truthy a then [away_line] else [])
       ++ (if truthy h then [home_line] else []))%list.

(** The body of the [try] of [nhl_goalies], after the fetch. *)
Definition goalies_text (landing : json) : result string :=
  (matchup <- get_default landing "matchup" empty_dict ;;
   gs <- get_default (py_or matchup empty_dict) "goalies" empty_dict ;;
   let goalies := py_or gs empty_dict in
   home <- get_default goalies "home" empty_dict ;;
   h <- get (py_or home empty_dict) "playerName" ;;
   away <- get_default goalies "away" empty_dict ;;
   a <- get (py_or away empty_dict) "playerName" ;;
   Ok (starters_text "🧤 Gardiens probables (si dispo):" GOALIES_UNAVAILABLE h a))%result.

(** <<
async def nhl_goalies(game_id: str) -> str:
    try:
        landing = await http_get_json(
            f"https://api-web.nhle.com/v1/gamecenter/{game_id}/landing")
        ...
    except Exception:
        return "🧤 Gardiens probables: indisponible"
>> *)
Definition nhl_goalies_attempt (game_id : string) : IO string :=
  (landing <- http_get_json
                ("https://api-web.nhle.com/v1/gamecenter/" ++ game_id
                 ++ "/landing") [] ;;
   pure_result (goalies_text landing))%io.

Definition nhl_goalies (game_id : string) : IO string :=
  try_except (nhl_goalies_attempt game_id) (ret GOALIES_UNAVAILABLE).

(** The body of the [try] of [mlb_pitchers], after the fetch. *)
Definition pitchers_text (data : json) : result string :=
  (g <- get_default data "gameData" empty_dict ;;
   let gd := py_or g empty_dict in
   p <- get_default gd "probablePitchers" empty_dict ;;
   let pp := py_or p empty_dict in
   home <- get_default pp "home" empty_dict ;;
   hp <- get (py_or home empty_dict) "fullName" ;;
   away <- get_default pp "away" empty_dict ;;
   ap <- get (py_or away empty_dict) "fullName" ;;
   Ok (starters_text "⚾ Lanceurs probables (si dispo):" PITCHERS_UNAVAILABLE hp ap))%result.

(** <<
async def mlb_pitchers(game_pk: str) -> str:
    try:
        data = await http_get_json(
            f"https://statsapi.mlb.com/api/v1.1/game/{game_pk}/feed/live")
        ...
    except Exception:
        return "⚾ Lanceurs probables: indisponible"
>> *)
Definition mlb_pitchers_attempt (game_pk : string) : IO string :=
  (data <- http_get_json
             ("https://statsapi.mlb.com/api/v1.1/game/" ++ game_pk
              ++ "/feed/live") [] ;;
   pure_result (pitchers_text data))%io.

Definition mlb_pitchers (game_pk : string) : IO string :=
  try_except (mlb_pitchers_attempt game_pk) (ret PITCHERS_UNAVAILABLE).

(* ================================================================== *)
(** ** Menus *)
(* ================================================================== *)

Inductive Button : Type :=
| InlineKeyboardButton (text callback_data : string).

Definition InlineKeyboardMarkup : Type := list (list Button).

Definition button_data (b : Button) : string :=
  match b with InlineKeyboardButton _ callback_data => callback_data end.

Definition SPORT_LABELS : list (string * string) :=
  [("soccer", "⚽ Foot");
   ("basketball", "🏀 Basket");
   ("tennis", "🎾 Tennis");
   ("nhl", "🏒 NHL");
   ("nfl", "🏈 NFL");
   ("mlb", "⚾ MLB")].

Fixpoint lookup (k : string) (table : list (string * string)) : option string :=
  match table with
  | [] => None
  | (k', v) :: rest => if (k' =? k)%string then Some v else lookup k rest
  end.

Definition close_row : list Button := [InlineKeyboardButton "❌ Fermer" "close|x"].
Definition back_sports_row : list Button :=
  [InlineKeyboardButton "⬅️ Retour sports" "back|sports"].
Definition menu_sports_row : list Button :=
  [InlineKeyboardButton "🏠 Menu sports" "back|sports"].

(** [for i in range(0, len(items), 2): ... items[i:i+2] ...]. *)
Fixpoint sport_rows (items : list (string * string)) : list (list Button) :=
  match items with
  | [] => []
  | [(k, label)] => [[InlineKeyboardButton label ("sport|" ++ k)]]
  | (k1, label1) :: (k2, label2) :: rest =>
      [InlineKeyboardButton label1 ("sport|" ++ k1);
       InlineKeyboardButton label2 ("sport|" ++ k2)] :: sport_rows rest
  end.

Definition kb_sports : InlineKeyboardMarkup :=
  (sport_rows SPORT_LABELS ++ [close_row])%list.

Definition kb_dates : InlineKeyboardMarkup :=
  [[InlineKeyboardButton "📅 Aujourd’hui" "date|today";
    InlineKeyboardButton "📅 Demain" "date|tomorrow"];
   back_sports_row;
   close_row].

Definition kb_basket_leagues : InlineKeyboardMarkup :=
  (map (fun cn : string * string =>
          [InlineKeyboardButton ("🏀 " ++ snd cn) ("bleague|" ++ fst cn)])
       BASKET_LEAGUES
   ++ [back_sports_row; close_row])%list.

(** A slice bound as [list.__getitem__] reads it: a negative bound counts
    from the end, and both are clipped to the list. *)
Definition slice_bound (len i : Z) : Z :=
  if i <? 0 then Z.max 0 (i + len) else Z.min i len.

(** [l[start:stop]]. *)
Definition py_slice {A} (l : list A) (start stop : Z) : list A :=
  let len := Z.of_nat (List.length l) in
  let a := slice_bound len start in
  let b := slice_bound len stop in
  firstn (Z.to_nat (b - a)) (skipn (Z.to_nat a) l).

(** The two rows [kb_matches] adds for one match. *)
Definition match_rows (m : Match) : list (list Button) :=
  let comp :=
    if negb (match_league_name m =? "")%string then match_league_name m
    else match_league m in
  let label :=
    py_str (fmt_dt (match_start_time m)) ++ " — " ++ py_str (match_away m)
    ++ " @ " ++ py_str (match_home m) in
  [[InlineKeyboardButton label ("match|" ++ match_id m)];
   [InlineKeyboardButton ("🏆 " ++ comp) "noop|x"]].

Definition prev_button (page : Z) : Button :=
  InlineKeyboardButton "⬅️ Précédent" ("page|" ++ string_of_Z (page - 1)).

Definition next_button (page : Z) : Button :=
  InlineKeyboardButton "➡️ Suivant" ("page|" ++ string_of_Z (page + 1)).

(** The navigation row of a page: [nav] in [kb_matches]. *)
Definition nav_row (n_matches page page_size : Z) : list Button :=
  ((if 0 <? page then [prev_button page] else [])
   ++ (if page * page_size + page_size <? n_matches then [next_button page]
       else []))%list.

(** The window of a page: [chunk] in [kb_matches]. *)
Definition page_chunk (matches : list Match) (page page_size : Z) : list Match :=
  let start := page * page_size in
  py_slice matches start (start + page_size).

(** <<
def kb_matches(matches, page=0, page_size=10):
    start = page * page_size
    end = start + page_size
    chunk = matches[start:end]
    rows = []
    for m in chunk: ...
    nav = []
    if page > 0: nav.append(...)
    if end < len(matches): nav.append(...)
    if nav: rows.append(nav)
    rows.append(...) ; rows.append(...) ; rows.append(...)
    return InlineKeyboardMarkup(rows)
>> *)
Definition kb_matches_sized (matches : list Match) (page page_size : Z)
  : InlineKeyboardMarkup :=
  let nav := nav_row (Z.of_nat (List.length matches)) page page_size in
  (flat_map match_rows (page_chunk matches page page_size)
   ++ (match nav with [] => [] | _ :: _ => [nav] end)
   ++ [[InlineKeyboardButton "⬅️ Retour" "back|dates"];
       menu_sports_row;
       close_row])%list.

Definition kb_matches (matches : list Match) (page : Z) : InlineKeyboardMarkup :=
  kb_matches_sized matches page 10.

(* ================================================================== *)
(** ** The button handler *)
(* ================================================================== *)

(** [context.user_data]: the dict of one user, with the keys the program
    writes.  [None] is an absent key. *)
Record UserData : Type := {
  ud_sport : option string;
  ud_page : option Z;
  ud_basket_league : option (string * string);
  ud_date_choice : option string;
  ud_matches : option (list Match)
}.

(** [context.user_data.clear()]. *)
Definition cleared : UserData :=
  {| ud_sport := None; ud_page := None; ud_basket_league := None;
     ud_date_choice := None; ud_matches := None |}.

(** What the handler asked of the chat transport. *)
Inductive Sent : Type :=
| Answer
| EditMessageText (text : string) (reply_markup : option InlineKeyboardMarkup).

Record Ctx : Type := {
  user_data : UserData;
  world : World;
  sent : list Sent
}.

Definition Handler (A : Type) : Type := Ctx -> result A * Ctx.

Definition hret {A} (a : A) : Handler A := fun c => (Ok a, c).

Definition hbind {A C} (m : Handler A) (k : A -> Handler C) : Handler C :=
  fun c =>
    match m c with
    | (Ok a, c') => k a c'
    | (Raise e, c') => (Raise e, c')
    end.

Declare Scope handler_scope.
Delimit Scope handler_scope with handler.
Notation "x <- c ;; k" := (hbind c (fun x => k))
  (at level 61, c at next level, right associativity) : handler_scope.
Notation "' p <- c ;; k" := (hbind c (fun x => let p := x in k))
  (at level 61, p pattern, c at next level, right associativity) : handler_scope.

(** [await] of a fetcher. *)
Definition await {A} (m : IO A) : Handler A :=
  fun c =>
    let (r, w) := m (world c) in
    (r, {| user_data := user_data c; world := w; sent := sent c |}).

Definition now_or_raise {A} (r : result A) : Handler A := fun c => (r, c).

Definition read_user_data : Handler UserData := fun c => (Ok (user_data c), c).

Definition write_user_data (f : UserData -> UserData) : Handler unit :=
  fun c => (Ok tt, {| user_data := f (user_data c); world := world c;
                      sent := sent c |}).

Definition send (m : Sent) : Handler unit :=
  fun c => (Ok tt, {| user_data := user_data c; world := world c;
                      sent := (sent c ++ [m])%list |}).

Definition edit_message_text (text : string)
           (reply_markup : option InlineKeyboardMarkup) : Handler unit :=
  send (EditMessageText text reply_markup).

Definition set_sport (v : string) (u : UserData) : UserData :=
  {| ud_sport := Some v; ud_page := ud_page u;
     ud_basket_league := ud_basket_league u;
     ud_date_choice := ud_date_choice u; ud_matches := ud_matches u |}.

Definition set_page (v : Z) (u : UserData) : UserData :=
  {| ud_sport := ud_sport u; ud_page := Some v;
     ud_basket_league := ud_basket_league u;
     ud_date_choice := ud_date_choice u; ud_matches := ud_matches u |}.

Definition set_basket_league (v : string * string) (u : UserData) : UserData :=
  {| ud_sport := ud_sport u; ud_page := ud_page u;
     ud_basket_league := Some v;
     ud_date_choice := ud_date_choice u; ud_matches := ud_matches u |}.

Definition set_date_choice (v : string) (u : UserData) : UserData :=
  {| ud_sport := ud_sport u; ud_page := ud_page u;
     ud_basket_league := ud_basket_league u;
     ud_date_choice := Some v; ud_matches := ud_matches u |}.

Definition set_matches (v : list Match) (u : UserData) : UserData :=
  {| ud_sport := ud_sport u; ud_page := ud_page u;
     ud_basket_league := ud_basket_league u;
     ud_date_choice := ud_date_choice u; ud_matches := Some v |}.

(** [s.split(sep)] for a one-character separator: at least one part. *)
Fixpoint split_on (sep : ascii) (s : string) : list string :=
  match s with
  | EmptyString => [EmptyString]
  | String c rest =>
      if Ascii.eqb c sep then EmptyString :: split_on sep rest
      else
        match split_on sep rest with
        | [] => [String c EmptyString]
        | p :: ps => String c p :: ps
        end
  end.

(** [parts[1]]. *)
Definition second_part (parts : list string) : result string :=
  match nth_error parts 1 with
  | Some p => Ok p
  | None => Raise IndexError
  end.

(** [not sport] for what [user_data.get("sport")] gave. *)
Definition no_sport (sport : option string) : bool :=
  match sport with
  | None => true
  | Some s => (s =? "")%string
  end.

(** [f"{SPORT_LABELS.get(sport, sport)}"]. *)
Definition sport_label (sport : option string) : string :=
  match sport with
  | None => "None"
  | Some s => match lookup s SPORT_LABELS with Some l => l | None => s end
  end.

Definition day_label (choice : option string) : string :=
  match choice with
  | Some "tomorrow" => "Demain"
  | _ => "Aujourd’hui"
  end.

Definition list_title (sport choice : option string) : string :=
  "Matchs " ++ sport_label sport ++ " — " ++ day_label choice.

Definition SPORTS_PROMPT : string := "Choisis un sport 👇".
Definition DATES_PROMPT : string := "Choisis aujourd’hui ou demain 👇".
Definition NOT_FOUND : string :=
  "Erreur: match introuvable dans la liste. Reviens au menu.".

(** The pipeline the [date] action runs for a sport. *)
Definition fetch_matches (sport : string) (basket_league : option (string * string))
           (dt : Z) : IO (list Match) :=
  if (sport =? "soccer")%string then fetch_soccer_matches dt
  else if (sport =? "basketball")%string then
    let (code, name) :=
      match basket_league with Some cn => cn | None => ("nba", "NBA") end in
    fetch_basket_matches dt code name
  else if (sport =? "tennis")%string then fetch_tennis_matches dt
  else if (sport =? "nhl")%string then fetch_nhl_matches_espn dt
  else if (sport =? "nfl")%string then fetch_nfl_matches dt
  else if (sport =? "mlb")%string then fetch_mlb_matches_espn dt
  else ret [].

(** [if action == "date":] of [on_button]. *)
Definition on_date (parts : list string) : Handler unit :=
  (u <- read_user_data ;;
   if no_sport (ud_sport u) then edit_message_text SPORTS_PROMPT (Some kb_sports)
   else
     let sport := match ud_sport u with Some s => s | None => "" end in
     choice <- now_or_raise (second_part parts) ;;
     today <- await datetime_now_utc ;;
     let dt := today + (if (choice =? "tomorrow")%string then 1 else 0) in
     _ <- write_user_data (set_date_choice choice) ;;
     _ <- write_user_data (set_page 0) ;;
     _ <- edit_message_text "🔎 Je récupère les matchs…" None ;;
     fetched <- await (fetch_matches sport (ud_basket_league u) dt) ;;
     matches <- now_or_raise (py_sort match_start_time fetched) ;;
     _ <- write_user_data (set_matches matches) ;;
     match matches with
     | [] =>
         edit_message_text "Aucun match trouvé." (Some [menu_sports_row])
     | _ :: _ =>
         edit_message_text (list_title (Some sport) (Some choice))
                           (Some (kb_matches matches 0))
     end)%handler.

(** [context.user_data.get("matches", []) or []]. *)
Definition stored_matches (u : UserData) : list Match :=
  match ud_matches u with Some l => l | None => [] end.

(** [if action == "page":] of [on_button]. *)
Definition on_page (parts : list string) : Handler unit :=
  (p <- now_or_raise (second_part parts) ;;
   page <- now_or_raise (py_int (JStr p)) ;;
   u <- read_user_data ;;
   let matches := stored_matches u in
   _ <- write_user_data (set_page page) ;;
   edit_message_text (list_title (ud_sport u) (ud_date_choice u))
                     (Some (kb_matches matches page)))%handler.

(** Both form fetches of a team sport, home first. *)
Definition both_forms (sport_path league : string) (picked : Match)
  : IO (string * string) :=
  (form_home <- team_form_espn sport_path league (match_home_id picked) ;;
   form_away <- team_form_espn sport_path league (match_away_id picked) ;;
   ret (form_home, form_away))%io.

(** The form lines of the detail page: the chain
    [if sport == "soccer": ... elif ... elif sport == "tennis": pass],
    entered with both lines set to the placeholder. *)
Definition detail_forms (sport : string) (picked : Match) : IO (string * string) :=
  if (sport =? "soccer")%string then both_forms "soccer" (match_league picked) picked
  else if (sport =? "basketball")%string then
    both_forms "basketball" (match_league picked) picked
  else if (sport =? "nfl")%string then both_forms "football" "nfl" picked
  else if (sport =? "nhl")%string then both_forms "hockey" "nhl" picked
  else if (sport =? "mlb")%string then both_forms "baseball" "mlb" picked
  else ret (FORM_UNAVAILABLE, FORM_UNAVAILABLE).

Definition MLB_CAVEAT : string :=
  "⚠️ Pitchers MLB: dispo si ID correspond à StatsAPI (sinon ignore).".

(** [extra_lines] of the detail page. *)
Definition detail_extras (sport game_id : string) : IO (list string) :=
  (goalies <- (if (sport =? "nhl")%string
               then g <- nhl_goalies game_id ;; ret [g]
               else ret []) ;;
   pitchers <- (if (sport =? "mlb")%string
                then p <- mlb_pitchers game_id ;; ret [MLB_CAVEAT; p]
                else ret []) ;;
   ret (goalies ++ pitchers)%list)%io.

(** The lines of the detail page, before ["\n".join(text)]. *)
Definition detail_lines (sport : string) (picked : Match)
           (form_home form_away : string) (extra_lines : list string)
  : list string :=
  let home := py_str (match_home picked) in
  let away := py_str (match_away picked) in
  let head_line :=
    py_str (fmt_dt (match_start_time picked)) ++ " — " ++ away ++ " @ " ++ home in
  let league_line := "🏆 " ++ match_league_name picked in
  let home_form := "🏠 " ++ home ++ nl ++ form_home in
  let away_form := "🚌 " ++ away ++ nl ++ form_away in
  let title_line := "✅ " ++ sport_label (Some sport) in
  ([title_line; head_line]
   ++ (if negb (match_league_name picked =? "")%string then [league_line] else [])
   ++ [""; "— Forme —"; home_form; ""; away_form]
   ++ (match extra_lines with [] => [] | _ :: _ => "" :: extra_lines end)
   ++ [""; "🎯 Possibilités de paris :"]
   ++ map (fun m => String.append "- " m) (markets_for sport)
   ++ [""; "⚠️ Info & analyse = aide à la décision, pas une garantie de gains."])%list.

Definition detail_markup (page : option Z) : InlineKeyboardMarkup :=
  [[InlineKeyboardButton "⬅️ Retour liste"
      ("page|" ++ string_of_Z (match page with Some p => p | None => 0 end))];
   menu_sports_row].

(** [next((m for m in matches if m.get("id") == match_id), None)]. *)
Definition pick (matches : list Match) (wanted : string) : option Match :=
  find (fun m => (match_id m =? wanted)%string) matches.

(** [if action == "match":] of [on_button]. *)
Definition on_match (parts : list string) : Handler unit :=
  (u <- read_user_data ;;
   wanted <- now_or_raise (second_part parts) ;;
   let matches := stored_matches u in
   match no_sport (ud_sport u), ud_sport u, pick matches wanted with
   | false, Some sport, Some picked =>
       _ <- edit_message_text "📄 Je prépare la fiche…" None ;;
       forms <- await (detail_forms sport picked) ;;
       extra_lines <- await (detail_extras sport wanted) ;;
       edit_message_text
         (String.concat nl
            (detail_lines sport picked (fst forms) (snd forms) extra_lines))
         (Some (detail_markup (ud_page u)))
   | _, _, _ => edit_message_text NOT_FOUND (Some kb_sports)
   end)%handler.

(** [if action == "back":] of [on_button]; [false] when neither
    destination matched and the handler goes on to the tests below. *)
Definition on_back (parts : list string) : Handler bool :=
  (dest <- now_or_raise (second_part parts) ;;
   if (dest =? "sports")%string then
     _ <- write_user_data (fun _ => cleared) ;;
     _ <- edit_message_text SPORTS_PROMPT (Some kb_sports) ;;
     hret true
   else if (dest =? "dates")%string then
     _ <- edit_message_text DATES_PROMPT (Some kb_dates) ;;
     hret true
   else hret false)%handler.

(** [if action == "sport":] of [on_button]. *)
Definition on_sport (parts : list string) : Handler unit :=
  (sport <- now_or_raise (second_part parts) ;;
   _ <- write_user_data (fun _ => cleared) ;;
   _ <- write_user_data (set_sport sport) ;;
   _ <- write_user_data (set_page 0) ;;
   if (sport =? "basketball")%string then
     edit_message_text "Choisis la compétition basket 👇" (Some kb_basket_leagues)
   else edit_message_text DATES_PROMPT (Some kb_dates))%handler.

(** [if action == "bleague":] of [on_button]. *)
Definition on_bleague (parts : list string) : Handler unit :=
  (code <- now_or_raise (second_part parts) ;;
   let name := match lookup code BASKET_LEAGUES with Some n => n | None => code end in
   _ <- write_user_data (set_basket_league (code, name)) ;;
   edit_message_text ("Basket: " ++ name ++ nl ++ nl ++ DATES_PROMPT)
                     (Some kb_dates))%handler.

Definition UNKNOWN_COMMAND : string := "Commande inconnue. Tape /menu".

(** [(q.data or "").split("|")] and its first part. *)
Definition callback_parts (data : option string) : list string :=
  split_on "|" (match data with Some d => d | None => "" end).

Definition callback_action (data : option string) : string :=
  hd "" (callback_parts data).

(** <<
async def on_button(update, context):
    q = update.callback_query
    await q.answer()
    parts = (q.data or "").split("|")
    action = parts[0]
    ...
    await q.edit_message_text("Commande inconnue. Tape /menu")
>>
    [data] is [q.data]. *)
Definition on_button (data : option string) : Handler unit :=
  (_ <- send Answer ;;
   let parts := callback_parts data in
   let action := callback_action data in
   if (action =? "noop")%string then hret tt
   else if (action =? "close")%string then edit_message_text "Menu fermé ✅" None
   else if (action =? "back")%string then
     done <- on_back parts ;;
     if done then hret tt else edit_message_text UNKNOWN_COMMAND None
   else if (action =? "sport")%string then on_sport parts
   else if (action =? "bleague")%string then on_bleague parts
   else if (action =? "date")%string then on_date parts
   else if (action =? "page")%string then on_page parts
   else if (action =? "match")%string then on_match parts
   else edit_message_text UNKNOWN_COMMAND None)%handler.

End Program.

(* ================================================================== *)
(** ** A host to run the model on *)
(* ================================================================== *)

(** The examples below run on a host that works in UTC and sees ASCII
    payloads: [repr] quotes a str with single quotes and escapes nothing,
    [int] reads an optional sign and decimal digits, a time stamp has the
    shape [YYYY-MM-DDTHH:MM...], a day is numbered from 1970-01-01. *)
Fixpoint ascii_repr (v : json) : string :=
  match v with
  | JNull => "None"
  | JBool true => "True"
  | JBool false => "False"
  | JInt z => string_of_Z z
  | JStr s => "'" ++ s ++ "'"
  | JArr l => "[" ++ String.concat ", " (map ascii_repr l) ++ "]"
  | JObj l =>
      "{" ++ String.concat ", "
               (map (fun kv => match kv with
                               | (k, x) => "'" ++ k ++ "': " ++ ascii_repr x
                               end) l) ++ "}"
  end.

Definition digit_of (c : ascii) : option Z :=
  let n := Z.of_N (N_of_ascii c) in
  if (48 <=? n) && (n <=? 57) then Some (n - 48) else None.

Fixpoint digits_value (s : string) (acc : Z) : option Z :=
  match s with
  | EmptyString => Some acc
  | String c rest =>
      match digit_of c with
      | Some d => digits_value rest (10 * acc + d)
      | None => None
      end
  end.

Definition ascii_int (s : string) : option Z :=
  match s with
  | EmptyString => None
  | String "-" (String c rest) => option_map Z.opp (digits_value (String c rest) 0)
  | String "+" (String c rest) => digits_value (String c rest) 0
  | _ => digits_value s 0
  end.

Definition all_digits (s : string) : bool :=
  match digits_value s 0 with Some _ => true | None => false end.

Definition utc_stamp (s : string) : option string :=
  let day := substring 8 2 s in
  let month := substring 5 2 s in
  let hour := substring 11 2 s in
  let minute := substring 14 2 s in
  if (16 <=? String.length s)%nat
     && all_digits (substring 0 4 s) && all_digits month && all_digits day
     && all_digits hour && all_digits minute
     && (substring 4 1 s =? "-")%string && (substring 7 1 s =? "-")%string
     && (substring 10 1 s =? "T")%string && (substring 13 1 s =? ":")%string
  then Some (day ++ "/" ++ month ++ " " ++ hour ++ ":" ++ minute)
  else None.

Definition two_digits (n : Z) : string :=
  if n <? 10 then "0" ++ string_of_Z n else string_of_Z n.

(** The civil date of a day number, in the proleptic Gregorian calendar. *)
Definition civil_Ymd (days : Z) : string :=
  let z := days + 719468 in
  let era := z / 146097 in
  let doe := z - era * 146097 in
  let yoe := (doe - doe / 1460 + doe / 36524 - doe / 146096) / 365 in
  let doy := doe - (365 * yoe + yoe / 4 - yoe / 100) in
  let mp := (5 * doy + 2) / 153 in
  let d := doy - (153 * mp + 2) / 5 + 1 in
  let m := if mp <? 10 then mp + 3 else mp - 9 in
  let y := yoe + era * 400 + (if m <=? 2 then 1 else 0) in
  string_of_Z y ++ two_digits m ++ two_digits d.

Definition utc_host : Builtins :=
  {| repr_container := ascii_repr;
     int_of_str := ascii_int;
     isoformat_to_local := utc_stamp;
     strftime_Ymd := civil_Ymd |}.

(* ================================================================== *)
(** ** Vocabulary of the properties *)
(* ================================================================== *)

Section Vocabulary.
Context {B : Builtins}.

(** The one league of a single-league pipeline fails with [e]: its
    scoreboard fetch raises [e], or the fetch answers and the
    normalization of the payload raises [e]. *)
Definition league_fails (sport_path sport_key code name : string) (dt : Z)
           (w : World) (e : exn) (w' : World) : Prop :=
  espn_scoreboard sport_path code dt w = (Raise e, w')
  \/ exists sb,
       espn_scoreboard sport_path code dt w = (Ok sb, w')
       /\ parse_espn_events_to_matches sport_key sb code name = Raise e.

(** The scoreboard fetches of a multi-league pipeline, one per league and
    in order, each issued in the world the one before it left: [outcomes]
    lists what each fetch gave. *)
Inductive league_fetches (sport : string) (dt : Z)
  : list (string * string) -> World -> list (result json) -> World -> Prop :=
| fetches_done w : league_fetches sport dt [] w [] w
| fetches_next code name rest w r w1 outcomes w2 :
    espn_scoreboard sport code dt w = (r, w1) ->
    league_fetches sport dt rest w1 outcomes w2 ->
    league_fetches sport dt ((code, name) :: rest) w (r :: outcomes) w2.

(** What one league adds to the result: its normalized matches when its
    fetch succeeded, nothing when the fetch failed (or when the payload
    could not be normalized at all). *)
Definition league_matches (sport : string) (league : string * string)
           (outcome : result json) : list Match :=
  match outcome with
  | Ok sb =>
      match parse_espn_events_to_matches sport sb (fst league) (snd league) with
      | Ok ms => ms
      | Raise _ => []
      end
  | Raise _ => []
  end.

Fixpoint union_of (sport : string) (leagues : list (string * string))
         (outcomes : list (result json)) : list Match :=
  match leagues, outcomes with
  | league :: leagues', outcome :: outcomes' =>
      (league_matches sport league outcome ++ union_of sport leagues' outcomes')%list
  | _, _ => []
  end.

(** [m1] starts no later than [m2]: their time stamps, as strings, are in
    lexical order. *)
Definition start_le (m1 m2 : Match) : Prop :=
  forall a b,
    match_start_time m1 = JStr a -> match_start_time m2 = JStr b ->
    String.leb a b = true.

Definition sorted_by_start_time (l : list Match) : Prop :=
  StronglySorted start_le l.

(** The list a user's state holds, if it holds one, is sorted. *)
Definition stored_sorted (u : UserData) : Prop :=
  match ud_matches u with
  | Some l => sorted_by_start_time l
  | None => True
  end.

(** The context once [q.answer()] was awaited. *)
Definition answered (c : Ctx) : Ctx :=
  {| user_data := user_data c; world := world c;
     sent := (sent c ++ [Answer])%list |}.

(** The context after the handler sent [messages] and changed nothing
    else. *)
Definition replied (c : Ctx) (messages : list Sent) : Ctx :=
  {| user_data := user_data c; world := world c;
     sent := (sent c ++ messages)%list |}.

(** How a raw scoreboard event reads, for an event that has the shape
    the provider documents. *)
Definition is_dict (v : json) : bool :=
  match v with JObj _ => true | _ => false end.

Definition field (k : string) (v : json) : json :=
  match v with
  | JObj fields => match assoc k fields with Some x => x | None => JNull end
  | _ => JNull
  end.

(** The event is a dict with no competitions entry (or a null or empty
    one). *)
Definition no_competitions (ev : json) : bool :=
  is_dict ev && negb (truthy (field "competitions" ev)).

(** The competitor entries of the first competition of the event. *)
Definition competitors_of (ev : json) : option (list json) :=
  match field "competitions" ev with
  | JArr (JObj cfields :: _) =>
      match assoc "competitors" cfields with
      | Some (JArr comps) => Some comps
      | Some v => if truthy v then None else Some []
      | None => Some []
      end
  | _ => None
  end.

(** The competitor carries the role tag [role]. *)
Definition tagged (role : string) (c : json) : bool :=
  py_eq (field "homeAway" c) (JStr role).

(** The competitor of a role: the first one tagged with it, else the one
    at the role's position. *)
Definition by_role (role : string) (comps : list json) (positional : json) : json :=
  match find (tagged role) comps with
  | Some c => c
  | None => positional
  end.

Definition team_of (c : json) : json := py_or (field "team" c) empty_dict.

(** Long name, else short name, else the placeholder. *)
Definition shown_name (team : json) (placeholder : string) : json :=
  if truthy (field "displayName" team) then field "displayName" team
  else if truthy (field "shortDisplayName" team) then field "shortDisplayName" team
  else JStr placeholder.

(** A competitor entry is a dict whose team, when it has one, is a
    dict. *)
Definition competitor_entry (c : json) : bool :=
  is_dict c && is_dict (team_of c).

(** Cache traffic: the operations the program performs on [CACHE], each
    at the time it is performed. *)
Inductive cache_op : Type :=
| Contains (k : string)
| GetItem (k : string)
| SetItem (k : string) (v : json).

Definition apply_op (now : Q) (op : cache_op) (c : TTLCache) : TTLCache :=
  match op with
  | Contains _ => c
  | GetItem k => snd (cache_getitem now k c)
  | SetItem k v => cache_setitem now k v c
  end.

Fixpoint run_ops (ops : list (Q * cache_op)) (c : TTLCache) : TTLCache :=
  match ops with
  | [] => c
  | (now, op) :: rest => run_ops rest (apply_op now op c)
  end.

Definition puts_key (k : string) (op : cache_op) : bool :=
  match op with
  | SetItem k' _ => (k' =? k)%string
  | _ => false
  end.

(** Every entry the cache holds for [k] expires at [t]. *)
Definition expires_at (k : string) (t : Q) (c : TTLCache) : Prop :=
  Forall (fun e => has_key k e = true -> entry_expires e = t) c.

(** The three rows that close every page of the match list. *)
Definition fixed_rows : list (list Button) :=
  [[InlineKeyboardButton "⬅️ Retour" "back|dates"]; menu_sports_row; close_row].

End Vocabulary.

(** A world with an empty cache whose every request fails. *)
Definition offline : World :=
  {| tick := 0;
     clock := fun _ => 0%Q;
     utc_day := fun _ => 19723;
     net := fun _ _ _ => Raise (HTTPError "503 Service Unavailable");
     cache := CACHE |}.

(** A world with an empty cache where every request is answered with
    [payload]; its clock advances one second per interaction. *)
Definition answering (payload : json) : World :=
  {| tick := 0;
     clock := fun n => inject_Z (Z.of_nat n);
     utc_day := fun _ => 19723;
     net := fun _ _ _ => Ok payload;
     cache := CACHE |}.

(** A schedule event of team 10 (ARS) at home against team 20 (CHE). *)
Definition schedule_event (date : string) (completed : bool)
           (home_score away_score : string) : json :=
  JObj [("date", JStr date);
        ("competitions",
         JArr [JObj [("status",
                      JObj [("type", JObj [("completed", JBool completed)])]);
                     ("competitors",
                      JArr [JObj [("score", JStr home_score);
                                  ("team", JObj [("id", JStr "10");
                                                 ("abbreviation", JStr "ARS")])];
                            JObj [("score", JStr away_score);
                                  ("team", JObj [("id", JStr "20");
                                                 ("abbreviation", JStr "CHE")])]])]])].

(** Six completed events of team 10, oldest first. *)
Definition six_results : json :=
  JObj [("events",
         JArr [schedule_event "2024-01-01T15:00Z" true "1" "0";
               schedule_event "2024-01-02T15:00Z" true "2" "0";
               schedule_event "2024-01-03T15:00Z" true "3" "0";
               schedule_event "2024-01-04T15:00Z" true "4" "0";
               schedule_event "2024-01-05T15:00Z" true "5" "0";
               schedule_event "2024-01-06T15:00Z" true "6" "0"])].

(** A scoreboard event between two named teams. *)
Definition scoreboard_event (id date home away : string) : json :=
  JObj [("id", JStr id);
        ("date", JStr date);
        ("competitions",
         JArr [JObj [("competitors",
                      JArr [JObj [("homeAway", JStr "away");
                                  ("team", JObj [("id", JStr "2");
                                                 ("displayName", JStr away)])];
                            JObj [("homeAway", JStr "home");
                                  ("team", JObj [("id", JStr "1");
                                                 ("shortDisplayName", JStr home)])]])]])].

(** A scoreboard of two events, the later one first. *)
Definition two_games : json :=
  JObj [("events",
         JArr [scoreboard_event "402" "2024-01-01T21:00Z" "Bruins" "Rangers";
               scoreboard_event "401" "2024-01-01T18:00Z" "Oilers" "Flames"])].

(** An event with a single competitor. *)
Definition lone_competitor : json :=
  JObj [("id", JStr "403");
        ("competitions",
         JArr [JObj [("competitors",
                      JArr [JObj [("team", JObj [("id", JStr "1")])]])]])].

(** An event whose two competitors carry neither tag nor name. *)
Definition nameless_pair : json :=
  JObj [("id", JStr "404");
        ("competitions",
         JArr [JObj [("competitors",
                      JArr [JObj [("team", JObj [("id", JStr "1")])];
                            JObj []])]])].

(** A user who chose a sport and holds [matches]. *)
Definition session (sport : string) (matches : option (list Match)) (w : World)
  : Ctx :=
  {| user_data := {| ud_sport := Some sport; ud_page := Some 0;
                     ud_basket_league := None; ud_date_choice := None;
                     ud_matches := matches |};
     world := w;
     sent := [] |}.

Definition sample_match (id : string) : Match :=
  {| match_sport := "tennis"; match_league := "atp"; match_league_name := "ATP";
     match_id := id; match_start_time := JStr "2024-01-01T18:00Z";
     match_home := JStr "Sinner"; match_away := JStr "Alcaraz";
     match_home_id := "1"; match_away_id := "2" |}.

(** A cache filled to its capacity with live entries. *)
Definition full_cache : TTLCache :=
  map (fun n => {| entry_key := string_of_Z (Z.of_nat n);
                   entry_value := JNull;
                   entry_expires := 60%Q |})
      (seq 0 maxsize).

(** The least recently used entry of [full_cache]. *)
Definition oldest_entry : Entry :=
  {| entry_key := "0"; entry_value := JNull; entry_expires := 60%Q |}.

(** Twenty-three matches, numbered from 0. *)
Definition twenty_three : list Match :=
  map (fun n => sample_match (string_of_Z (Z.of_nat n))) (seq 0 23).

(** Cache traffic that never puts the key [k]. *)
Definition later_traffic : list (Q * cache_op) :=
  [(10%Q, Contains "k"); (20%Q, SetItem "other" JNull); (30%Q, GetItem "k")].

(** The offline world after one failed request. *)
Definition offline_after_request : World := step (step offline CACHE) CACHE.

Definition service_unavailable : exn := HTTPError "503 Service Unavailable".

(* ================================================================== *)
(** ** Commands, sessions and what the handlers keep *)
(* ================================================================== *)

Section Sessions.
Context {B : Builtins}.

(** A match carries the sport key and the league the normalizer was
    called with. *)
Definition tagged_with (sport code name : string) (m : Match) : Prop :=
  match_sport m = sport /\ match_league m = code /\ match_league_name m = name.

(** The leagues the [date] action queries for a sport: the [if]/[elif]
    chain of lines 389-401, [basket_league] being
    [context.user_data.get("basket_league", ("nba", "NBA"))]. *)
Definition leagues_of (sport : string) (basket_league : option (string * string))
  : list (string * string) :=
  if (sport =? "soccer")%string then SOCCER_LEAGUES
  else if (sport =? "basketball")%string then
    [match basket_league with Some cn => cn | None => ("nba", "NBA") end]
  else if (sport =? "tennis")%string then TENNIS_LEAGUES
  else if (sport =? "nhl")%string then [("nhl", "NHL")]
  else if (sport =? "nfl")%string then [("nfl", "NFL")]
  else if (sport =? "mlb")%string then [("mlb", "MLB")]
  else [].

Definition of_sport (sport : string) (leagues : list (string * string))
           (m : Match) : Prop :=
  match_sport m = sport /\ In (match_league m, match_league_name m) leagues.

(** The stored list, when there is one, holds matches of the sport the
    user chose. *)
Definition stored_of_sport (u : UserData) : Prop :=
  match ud_matches u with
  | Some l => exists s, ud_sport u = Some s /\ Forall (fun m => match_sport m = s) l
  | None => True
  end.

Definition session_invariant (u : UserData) : Prop :=
  stored_sorted u /\ stored_of_sport u.

(** [update.message.reply_text(text, reply_markup=...)]. *)
Inductive Reply : Type :=
| ReplyText (text : string) (reply_markup : option InlineKeyboardMarkup).

(** <<
async def start_cmd(update, context):
    await update.message.reply_text("✅ Bot menu gratuit prêt.\nTape /menu")
>> *)
Definition start_cmd : Reply :=
  ReplyText ("✅ Bot menu gratuit prêt." ++ nl ++ "Tape /menu") None.

(** <<
async def menu_cmd(update, context):
    context.user_data.clear()
    await update.message.reply_text("Choisis un sport 👇", reply_markup=kb_sports())
>> *)
Definition menu_cmd (u : UserData) : UserData * Reply :=
  (cleared, ReplyText SPORTS_PROMPT (Some kb_sports)).

(** What the application dispatches to the three handlers it registers:
    [/start], [/menu] and a pressed button. *)
Inductive Update : Type :=
| StartCommand
| MenuCommand
| CallbackQuery (data : option string).

(** One update handled.  The [user_data] a handler wrote stays written
    when the handler raises. *)
Definition handle (up : Update) (state : Ctx * list Reply) : Ctx * list Reply :=
  let (c, replies) := state in
  match up with
  | StartCommand => (c, (replies ++ [start_cmd])%list)
  | MenuCommand =>
      let (u, reply) := menu_cmd (user_data c) in
      ({| user_data := u; world := world c; sent := sent c |},
       (replies ++ [reply])%list)
  | CallbackQuery data => (snd (on_button data c), replies)
  end.

Fixpoint run_session (ups : list Update) (state : Ctx * list Reply)
  : Ctx * list Reply :=
  match ups with
  | [] => state
  | up :: rest => run_session rest (handle up state)
  end.

(** [sep in s]. *)
Fixpoint has_sep (sep : ascii) (s : string) : bool :=
  match s with
  | EmptyString => false
  | String c rest => Ascii.eqb c sep || has_sep sep rest
  end.

Definition unknown_reply : Sent := EditMessageText UNKNOWN_COMMAND None.

(** The callback data no branch of [on_button] returns for: an action
    that is none of the seven, or [back] to a destination that is
    neither [sports] nor [dates]. *)
Definition unhandled (data : option string) : bool :=
  let action := callback_action data in
  if (action =? "back")%string then
    match second_part (callback_parts data) with
    | Ok dest => negb ((dest =? "sports")%string || (dest =? "dates")%string)
    | Raise _ => false
    end
  else
    negb (existsb (String.eqb action)
                  ["noop"; "close"; "sport"; "bleague"; "date"; "page"; "match"]).

(** A button of one of the keyboards the program sends. *)
Definition rendered (b : Button) : Prop :=
  In b (List.concat kb_sports)
  \/ In b (List.concat kb_dates)
  \/ In b (List.concat kb_basket_leagues)
  \/ (exists matches page, In b (List.concat (kb_matches matches page)))
  \/ (exists page, In b (List.concat (detail_markup page)))
  \/ In b menu_sports_row.

(** How a schedule event reads up to its [completed] flag, for an event
    that has the shape the provider documents. *)
Definition first_competition (ev : json) : json :=
  match field "competitions" ev with
  | JArr (comp :: _) => comp
  | _ => JNull
  end.

Definition status_of (ev : json) : json :=
  py_or (field "type" (py_or (field "status" (first_competition ev)) empty_dict))
        empty_dict.

(** A well-shaped event whose first competition is not completed. *)
Definition unfinished (ev : json) : bool :=
  is_dict ev
  && is_dict (first_competition ev)
  && is_dict (py_or (field "status" (first_competition ev)) empty_dict)
  && is_dict (status_of ev)
  && negb (truthy (field "completed" (status_of ev))).

(** [url + "|" + str(params or {})], the key of [http_get_json]. *)
Definition cache_key (url : string) (params : list (string * json)) : string :=
  url ++ "|" ++ py_str (JObj params).

(** A landing payload that names both goalies. *)
Definition landing_with (home away : string) : json :=
  JObj [("matchup",
         JObj [("goalies",
                JObj [("home", JObj [("playerName", JStr home)]);
                      ("away", JObj [("playerName", JStr away)])])])].

(** A live-feed payload that names both pitchers. *)
Definition feed_with (home away : string) : json :=
  JObj [("gameData",
         JObj [("probablePitchers",
                JObj [("home", JObj [("fullName", JStr home)]);
                      ("away", JObj [("fullName", JStr away)])])])].

(** The values [<] never accepts, whatever it compares them with. *)
Definition orderable (v : json) : bool :=
  match v with
  | JNull | JObj _ => false
  | _ => true
  end.

(** The context after the [page] action showed [page]. *)
Definition page_shown (page : Z) (c : Ctx) : Ctx :=
  {| user_data := set_page page (user_data c);
     world := world c;
     sent :=
       (sent c
        ++ [Answer;
            EditMessageText
              (list_title (ud_sport (user_data c)) (ud_date_choice (user_data c)))
              (Some (kb_matches (stored_matches (user_data c)) page))])%list |}.

(** The normalizer returns for the event: a match or a skip. *)
Definition parses (sport : string) (code name : string) (ev : json) : Prop :=
  exists r, event_to_match sport ev code name = Ok r.

End Sessions.

(** A user right after [/menu]: nothing chosen yet. *)
Definition fresh (w : World) : Ctx :=
  {| user_data := cleared; world := w; sent := [] |}.

(** Five completed events of team 10, oldest first, and a sixth one. *)
Definition five_events : list json :=
  [schedule_event "2024-01-01T15:00Z" true "1" "0";
   schedule_event "2024-01-02T15:00Z" true "2" "0";
   schedule_event "2024-01-03T15:00Z" true "3" "0";
   schedule_event "2024-01-04T15:00Z" true "4" "0";
   schedule_event "2024-01-05T15:00Z" true "5" "0"].

Definition sixth_event : json := schedule_event "2024-01-06T15:00Z" true "6" "0".

(** A schedule whose second event is a string instead of a dict. *)
Definition damaged_schedule : list (string * json) :=
  [("events",
    JArr [schedule_event "2024-01-01T15:00Z" true "1" "0"; JStr "oops"])].

(** A scoreboard whose second event is a string instead of a dict. *)
Definition damaged_scoreboard : list (string * json) :=
  [("events",
    JArr [scoreboard_event "401" "2024-01-01T18:00Z" "Oilers" "Flames";
          JStr "oops"])].

(** A world whose cache holds the response of ["u"], put at time 0; its
    clock reads 59 s at the first interaction and 61 s at the second. *)
Definition about_to_expire : World :=
  {| tick := 0;
     clock := fun n => inject_Z (59 + 2 * Z.of_nat n);
     utc_day := fun _ => 19723;
     net := fun _ _ _ => Ok JNull;
     cache := cache_setitem 0 "u|{}" (JInt 1) CACHE |}.

(* ================================================================== *)
(** ** Properties *)
(* ================================================================== *)

Section MonadLaws.

Lemma bind_ok {A C} (m : IO A) (k : A -> IO C) w a w' :
  m w = (Ok a, w') -> bind m k w = k a w'.
Proof. intros H. unfold bind. now rewrite H. Qed.

Lemma bind_raise {A C} (m : IO A) (k : A -> IO C) w e w' :
  m w = (Raise e, w') -> bind m k w = (Raise e, w').
Proof. intros H. unfold bind. now rewrite H. Qed.

Lemma try_except_ok {A} (body handler : IO A) w a w' :
  body w = (Ok a, w') -> try_except body handler w = (Ok a, w').
Proof. intros H. unfold try_except. now rewrite H. Qed.

Lemma try_except_raise {A} (body handler : IO A) w e w' :
  body w = (Raise e, w') -> try_except body handler w = handler w'.
Proof. intros H. unfold try_except. now rewrite H. Qed.

(** A [try] whose handler returns a value always returns one. *)
Lemma try_except_total {A} (body : IO A) (fallback : A) w :
  exists a w',
    try_except body (ret fallback) w = (Ok a, w')
    /\ (forall e w1, body w = (Raise e, w1) -> a = fallback /\ w' = w1).
Proof.
  unfold try_except. destruct (body w) as [[a | e] w1] eqn:E.
  - exists a, w1. split; [reflexivity | intros ? ? H; discriminate H].
  - exists fallback, w1. split; [reflexivity|].
    intros e' w2 H. now inversion H.
Qed.

End MonadLaws.

Section Pipelines.
Context {B : Builtins}.

Lemma single_fetch_propagates sport_path sport_key code name dt w e w' :
  league_fails sport_path sport_key code name dt w e w' ->
  bind (espn_scoreboard sport_path code dt)
       (fun sb => pure_result
                    (parse_espn_events_to_matches sport_key sb code name)) w
  = (Raise e, w').
Proof.
  intros [H | [sb [H Hp]]].
  - now apply bind_raise.
  - rewrite (bind_ok _ _ _ _ _ H). unfold pure_result. now rewrite Hp.
Qed.

(** C1 (as the code has it).  When the one league of a single-league
    pipeline fails -- the scoreboard fetch raises, or its payload cannot
    be normalized -- the basketball pipeline returns the empty list and
    raises nothing, whereas the NHL, NFL and MLB pipelines, which have no
    [try], hand the exception to their caller. *)
Theorem single_league_failure (dt : Z) (w : World) (e : exn) (w' : World) :
  (forall code name,
      league_fails "basketball" "basketball" code name dt w e w' ->
      fetch_basket_matches dt code name w = (Ok [], w'))
  /\ (league_fails "hockey" "nhl" "nhl" "NHL" dt w e w' ->
      fetch_nhl_matches_espn dt w = (Raise e, w'))
  /\ (league_fails "football" "nfl" "nfl" "NFL" dt w e w' ->
      fetch_nfl_matches dt w = (Raise e, w'))
  /\ (league_fails "baseball" "mlb" "mlb" "MLB" dt w e w' ->
      fetch_mlb_matches_espn dt w = (Raise e, w')).
Proof.
  repeat split.
  - intros code name H. unfold fetch_basket_matches.
    erewrite try_except_raise by (apply single_fetch_propagates; eassumption).
    reflexivity.
  - intros H. now apply single_fetch_propagates.
  - intros H. now apply single_fetch_propagates.
  - intros H. now apply single_fetch_propagates.
Qed.

Lemma fetch_league_adds sport dt code name out w r w1 :
  espn_scoreboard sport code dt w = (r, w1) ->
  fetch_league sport dt (code, name) out w
  = (Ok (out ++ league_matches sport (code, name) r)%list, w1).
Proof.
  intros H. unfold fetch_league, try_except, bind. rewrite H.
  destruct r as [sb | e]; simpl.
  - unfold pure_result.
    destruct (parse_espn_events_to_matches sport sb code name); simpl.
    + reflexivity.
    + now rewrite app_nil_r.
  - now rewrite app_nil_r.
Qed.

Lemma for_each_league sport dt leagues :
  forall out w,
  exists outcomes w',
    league_fetches sport dt leagues w outcomes w'
    /\ for_each leagues (fetch_league sport dt) out w
       = (Ok (out ++ union_of sport leagues outcomes)%list, w').
Proof.
  induction leagues as [| [code name] rest IH]; intros out w.
  - exists [], w. split; [constructor|]. simpl. now rewrite app_nil_r.
  - destruct (espn_scoreboard sport code dt w) as [r w1] eqn:E.
    destruct (IH (out ++ league_matches sport (code, name) r)%list w1)
      as [outcomes [w' [Hrun Heq]]].
    exists (r :: outcomes), w'. split.
    + econstructor; eassumption.
    + simpl for_each.
      rewrite (bind_ok _ _ _ _ _ (fetch_league_adds sport dt code name out w r w1 E)).
      rewrite Heq. simpl. now rewrite app_assoc.
Qed.

(** C2.  The soccer pipeline (nine leagues) and the tennis pipeline (ATP,
    WTA) never raise: whatever each league's scoreboard fetch gives, the
    result is the concatenation, in league order, of the normalized
    matches of the leagues whose fetch succeeded; a league whose fetch
    failed (or whose payload could not be normalized) adds nothing. *)
Theorem multi_league_degradation (dt : Z) (w : World) :
  (exists outcomes w',
      league_fetches "soccer" dt SOCCER_LEAGUES w outcomes w'
      /\ List.length outcomes = 9%nat
      /\ fetch_soccer_matches dt w
         = (Ok (union_of "soccer" SOCCER_LEAGUES outcomes), w'))
  /\ (exists outcomes w',
         league_fetches "tennis" dt TENNIS_LEAGUES w outcomes w'
         /\ List.length outcomes = 2%nat
         /\ fetch_tennis_matches dt w
            = (Ok (union_of "tennis" TENNIS_LEAGUES outcomes), w')).
Proof.
  assert (Hlen : forall sport leagues w0 outcomes w1,
             league_fetches sport dt leagues w0 outcomes w1 ->
             List.length outcomes = List.length leagues).
  { intros sport leagues w0 outcomes w1 H.
    induction H; simpl; congruence. }
  split.
  - destruct (for_each_league "soccer" dt SOCCER_LEAGUES [] w)
      as [outcomes [w' [Hrun Heq]]].
    exists outcomes, w'. repeat split; try assumption.
    apply (Hlen _ _ _ _ _ Hrun).
  - destruct (for_each_league "tennis" dt TENNIS_LEAGUES [] w)
      as [outcomes [w' [Hrun Heq]]].
    exists outcomes, w'. repeat split; try assumption.
    apply (Hlen _ _ _ _ _ Hrun).
Qed.

End Pipelines.

Section StringOrder.

Lemma compare_le_trans (a b c : string) :
  (a ?= b)%string <> Gt -> (b ?= c)%string <> Gt -> (a ?= c)%string <> Gt.
Proof.
  revert b c.
  induction a as [| x a IH]; intros [| y b] [| z c]; simpl; try congruence.
  unfold Ascii.compare.
  destruct (N.compare_spec (N_of_ascii x) (N_of_ascii y)) as [Exy | Lxy | Gxy];
    destruct (N.compare_spec (N_of_ascii y) (N_of_ascii z)) as [Eyz | Lyz | Gyz];
    try congruence; intros H1 H2.
  - rewrite Exy, Eyz, N.compare_refl. now apply IH with b.
  - rewrite Exy. now rewrite (proj2 (N.compare_lt_iff _ _) Lyz).
  - rewrite <- Eyz. now rewrite (proj2 (N.compare_lt_iff _ _) Lxy).
  - rewrite (proj2 (N.compare_lt_iff _ _) (N.lt_trans _ _ _ Lxy Lyz)).
    discriminate.
Qed.

Lemma leb_trans (a b c : string) :
  String.leb a b = true -> String.leb b c = true -> String.leb a c = true.
Proof.
  unfold String.leb. intros H1 H2.
  assert (Hab : (a ?= b)%string <> Gt) by (destruct (a ?= b)%string; congruence).
  assert (Hbc : (b ?= c)%string <> Gt) by (destruct (b ?= c)%string; congruence).
  pose proof (compare_le_trans a b c Hab Hbc).
  destruct (a ?= c)%string; congruence.
Qed.

Lemma ltb_leb (a b : string) : String.ltb a b = true -> String.leb a b = true.
Proof. unfold String.ltb, String.leb. destruct (a ?= b)%string; congruence. Qed.

Lemma not_ltb_leb (a b : string) :
  String.ltb a b = false -> String.leb b a = true.
Proof.
  unfold String.ltb, String.leb. rewrite (String.compare_antisym a b).
  destruct (b ?= a)%string; simpl; congruence.
Qed.

End StringOrder.

Section Sorting.
Context {B : Builtins}.

Lemma py_lt_str_left a y b :
  py_lt (JStr a) y = Ok b -> exists s, y = JStr s /\ b = String.ltb a s.
Proof. destruct y; simpl; intros H; inversion H. eauto. Qed.

(** Inserting into a sorted list keeps it sorted and adds exactly the new
    match. *)
Lemma insert_by_spec (x : Match) :
  forall l l',
    sorted_by_start_time l ->
    insert_by match_start_time x l = Ok l' ->
    sorted_by_start_time l' /\ Permutation (x :: l) l'.
Proof.
  unfold sorted_by_start_time.
  induction l as [| y ys IH]; intros l' Hs H; simpl in H.
  - inversion H; subst. split; [repeat constructor | apply Permutation_refl].
  - unfold rbind in H.
    destruct (py_lt (match_start_time x) (match_start_time y))
      as [[|] | e] eqn:Hlt; try discriminate.
    + inversion H; subst. split; [| apply Permutation_refl].
      constructor; [assumption|]. constructor.
      * intros a b Ha Hb. rewrite Ha, Hb in Hlt. simpl in Hlt.
        injection Hlt as Hlt'. now apply ltb_leb.
      * apply StronglySorted_inv in Hs. destruct Hs as [_ Hall].
        rewrite Forall_forall in *. intros z Hz a c Ha Hc.
        rewrite Ha in Hlt. apply py_lt_str_left in Hlt.
        destruct Hlt as [s [Hy Hb]].
        apply leb_trans with s; [apply ltb_leb; now symmetry|].
        now apply (Hall z Hz s c).
    + destruct (insert_by match_start_time x ys) as [zs | e] eqn:Hins;
        try discriminate.
      inversion H; subst.
      apply StronglySorted_inv in Hs. destruct Hs as [Hys Hall].
      destruct (IH zs Hys eq_refl) as [Hzs Hperm]. split.
      * constructor; [assumption|]. rewrite Forall_forall in *.
        intros z Hz.
        apply (Permutation_in z (Permutation_sym Hperm)) in Hz.
        destruct Hz as [<- | Hz]; [| now apply Hall].
        intros a b Ha Hb. rewrite Ha, Hb in Hlt. simpl in Hlt.
        injection Hlt as Hlt'. now apply not_ltb_leb.
      * apply perm_trans with (y :: x :: ys); [apply perm_swap|].
        now apply perm_skip.
Qed.

Lemma sort_into_spec :
  forall l acc l',
    sorted_by_start_time acc ->
    sort_into match_start_time l acc = Ok l' ->
    sorted_by_start_time l' /\ Permutation (l ++ acc)%list l'.
Proof.
  induction l as [| x rest IH]; intros acc l' Hs H; simpl in H.
  - inversion H; subst. split; [assumption | apply Permutation_refl].
  - unfold rbind in H.
    destruct (insert_by match_start_time x acc) as [acc' |] eqn:Hins;
      try discriminate.
    destruct (insert_by_spec x acc acc' Hs Hins) as [Hs' Hp].
    destruct (IH acc' l' Hs' H) as [Hsorted Hperm]. split; [assumption|].
    apply perm_trans with (rest ++ acc')%list; [| assumption].
    simpl. apply perm_trans with (rest ++ x :: acc)%list.
    + apply Permutation_middle.
    + now apply Permutation_app_head.
Qed.

(** What [matches.sort(key=lambda x: x.get("start_time", ""))] leaves,
    when it raises nothing: the same matches, sorted. *)
Lemma py_sort_spec (l l' : list Match) :
  py_sort match_start_time l = Ok l' ->
  sorted_by_start_time l' /\ Permutation l l'.
Proof.
  intros H. destruct (sort_into_spec l [] l') as [Hs Hp].
  - constructor.
  - exact H.
  - split; [assumption|]. now rewrite app_nil_r in Hp.
Qed.

(** The sort raises nothing when every time stamp is a string. *)
Lemma insert_by_timestamps (x : Match) :
  forall l,
    Forall (fun m => exists s, match_start_time m = JStr s) (x :: l) ->
    exists l', insert_by match_start_time x l = Ok l'.
Proof.
  induction l as [| y ys IH]; intros H.
  - now exists [x].
  - inversion H as [| ? ? [a Ha] Hrest]; subst.
    inversion Hrest as [| ? ? [b Hb] Hys]; subst.
    simpl. rewrite Ha, Hb. simpl.
    destruct (String.ltb a b); [eauto|].
    destruct IH as [zs Hzs]; [now constructor; eauto|].
    rewrite Hzs. simpl. eauto.
Qed.

Lemma py_sort_timestamps (l : list Match) :
  Forall (fun m => exists s, match_start_time m = JStr s) l ->
  exists l', py_sort match_start_time l = Ok l'.
Proof.
  unfold py_sort.
  assert (G : forall l acc,
             Forall (fun m => exists s, match_start_time m = JStr s) l ->
             Forall (fun m => exists s, match_start_time m = JStr s) acc ->
             exists l', sort_into match_start_time l acc = Ok l').
  { clear l. induction l as [| x rest IH]; intros acc Hl Hacc.
    - now exists acc.
    - inversion Hl; subst. simpl.
      destruct (insert_by_timestamps x acc) as [acc' Hins]; [now constructor|].
      rewrite Hins. simpl. apply IH; [assumption|].
      revert acc' Hins.
      induction acc as [| y ys IHa]; intros acc' Hins; simpl in Hins.
      + inversion Hins; subst. now constructor.
      + inversion Hacc; subst. unfold rbind in Hins.
        destruct (py_lt (match_start_time x) (match_start_time y)) as [[|]|];
          try discriminate.
        * inversion Hins; subst. repeat constructor; assumption.
        * destruct (insert_by match_start_time x ys) eqn:E; try discriminate.
          inversion Hins; subst. constructor; [assumption|].
          now apply IHa. }
  intros H. apply G; [assumption | constructor].
Qed.

End Sorting.

Section DateAction.
Context {B : Builtins}.

Lemma on_button_date (data : option string) (c : Ctx) :
  callback_action data = "date" ->
  on_button data c = on_date (callback_parts data) (answered c).
Proof.
  intros H. unfold on_button, hbind, send. rewrite H. reflexivity.
Qed.

Lemma on_date_sorted (parts : list string) (c : Ctx) (r : result unit) (c' : Ctx) :
  on_date parts c = (r, c') ->
  (stored_sorted (user_data c) -> stored_sorted (user_data c'))
  /\ (r = Ok tt ->
      no_sport (ud_sport (user_data c)) = false ->
      exists matches,
        ud_matches (user_data c') = Some matches
        /\ sorted_by_start_time matches
        /\ (matches = []
            \/ exists title,
                last (sent c') Answer
                = EditMessageText title (Some (kb_matches matches 0)))).
Proof.
  unfold on_date, hbind, read_user_data.
  destruct (no_sport (ud_sport (user_data c))) eqn:Hsport.
  - unfold edit_message_text, send. intros H. inversion H; subst; simpl.
    split; [tauto | discriminate].
  - unfold now_or_raise at 1.
    destruct (second_part parts) as [choice | e].
    2:{ intros H. inversion H; subst. split; [tauto | discriminate]. }
    unfold await at 1, datetime_now_utc, write_user_data, edit_message_text, send.
    cbn [user_data world sent].
    unfold await. cbn [user_data world sent].
    match goal with
    | |- context [fetch_matches ?s ?b ?d ?w] =>
        destruct (fetch_matches s b d w) as [[fetched | e] w1]
    end.
    2:{ intros H. inversion H; subst. split; [| discriminate].
        unfold stored_sorted. simpl. tauto. }
    unfold now_or_raise.
    destruct (py_sort match_start_time fetched) as [matches | e] eqn:Hsort.
    2:{ intros H. inversion H; subst. split; [| discriminate].
        unfold stored_sorted. simpl. tauto. }
    destruct (py_sort_spec fetched matches Hsort) as [Hsorted _].
    destruct matches as [| m ms]; intros H; inversion H; subst;
      cbn [user_data world sent set_matches ud_matches].
    + split; [intros _; exact Hsorted|]. intros _ _. exists []. auto.
    + split; [intros _; exact Hsorted|]. intros _ _. exists (m :: ms).
      repeat split; [exact Hsorted|]. right. eexists. now rewrite last_last.
Qed.

(** C3.  Whatever the sport and the date choice, the [date] action keeps
    the stored match list sorted by start time (when it raises, the list
    stored before is still the one stored); when it completes with a
    sport selected, the list it stored is sorted non-decreasing by the
    start-time strings in lexical order, and a non-empty one is the very
    list handed to [kb_matches]. *)
Theorem date_action_stores_sorted_matches
        (data : option string) (c : Ctx) (r : result unit) (c' : Ctx) :
  callback_action data = "date" ->
  on_button data c = (r, c') ->
  (stored_sorted (user_data c) -> stored_sorted (user_data c'))
  /\ (r = Ok tt ->
      no_sport (ud_sport (user_data c)) = false ->
      exists matches,
        ud_matches (user_data c') = Some matches
        /\ sorted_by_start_time matches
        /\ (matches = []
            \/ exists title,
                last (sent c') Answer
                = EditMessageText title (Some (kb_matches matches 0)))).
Proof.
  intros Hact Hrun. rewrite (on_button_date data c Hact) in Hrun.
  exact (on_date_sorted _ _ _ _ Hrun).
Qed.

(** The [date] action completes whenever its pipeline does and every
    start time it fetched is a string: the list it stores is then a
    rearrangement of the fetched one. *)
Lemma date_action_completes
      (data : option string) (c : Ctx) (sport choice : string)
      (fetched : list Match) (w1 : World) :
  callback_action data = "date" ->
  second_part (callback_parts data) = Ok choice ->
  ud_sport (user_data c) = Some sport ->
  no_sport (Some sport) = false ->
  fetch_matches sport (ud_basket_league (user_data c))
                (utc_day (world c) (tick (world c))
                 + (if (choice =? "tomorrow")%string then 1 else 0))
                (step (world c) (cache (world c)))
  = (Ok fetched, w1) ->
  Forall (fun m => exists s, match_start_time m = JStr s) fetched ->
  exists c' matches,
    on_button data c = (Ok tt, c')
    /\ ud_matches (user_data c') = Some matches
    /\ Permutation fetched matches.
Proof.
  intros Hact Hchoice Hsport Hsel Hfetch Hstamps.
  rewrite (on_button_date data c Hact).
  unfold on_date, hbind, read_user_data, answered.
  cbn [user_data world sent]. rewrite Hsport, Hsel.
  unfold now_or_raise at 1. rewrite Hchoice.
  unfold await at 1, datetime_now_utc, write_user_data, edit_message_text, send.
  cbn [user_data world sent].
  unfold await. cbn [user_data world sent]. rewrite Hfetch.
  destruct (py_sort_timestamps fetched Hstamps) as [matches Hsort].
  unfold now_or_raise. rewrite Hsort.
  destruct (py_sort_spec fetched matches Hsort) as [_ Hperm].
  destruct matches as [| m ms]; do 2 eexists;
    (split; [reflexivity | split; [reflexivity | exact Hperm]]).
Qed.

End DateAction.

Section Normalizer.
Context {B : Builtins}.

Lemma get_field (v : json) (k : string) :
  is_dict v = true -> get v k = Ok (field k v).
Proof. destruct v; simpl; try discriminate. reflexivity. Qed.

Lemma get_default_obj fields k d :
  get_default (JObj fields) k d
  = Ok (match assoc k fields with Some v => v | None => d end).
Proof. reflexivity. Qed.

Lemma dict_shape (v : json) : is_dict v = true -> exists fields, v = JObj fields.
Proof. destruct v; try discriminate. eauto. Qed.

(** On competitor entries the scan of [find_role] raises nothing and
    finds the first tagged competitor. *)
Lemma find_role_entries (role : string) (positional : json) :
  forall comps,
    Forall (fun c => competitor_entry c = true) comps ->
    find_role role comps positional = Ok (by_role role comps positional).
Proof.
  unfold by_role.
  induction comps as [| c rest IH]; intros H; simpl; [reflexivity|].
  inversion H as [| ? ? Hc Hrest]; subst.
  apply andb_true_iff in Hc. destruct Hc as [Hd _].
  rewrite (get_field c "homeAway" Hd). simpl. unfold tagged.
  destruct (py_eq (field "homeAway" c) (JStr role)); [reflexivity|].
  now apply IH.
Qed.

Lemma by_role_entry (role : string) (comps : list json) (positional : json) :
  Forall (fun c => competitor_entry c = true) comps ->
  competitor_entry positional = true ->
  competitor_entry (by_role role comps positional) = true.
Proof.
  intros H Hp. unfold by_role.
  destruct (find (tagged role) comps) as [c |] eqn:E; [| assumption].
  apply find_some in E. rewrite Forall_forall in H. now apply H.
Qed.

Lemma display_name_of_dict (team : json) (placeholder : string) :
  is_dict team = true ->
  display_name team placeholder = Ok (shown_name team placeholder).
Proof.
  intros H. unfold display_name, shown_name.
  rewrite (get_field team "displayName" H). simpl.
  destruct (truthy (field "displayName" team)); [reflexivity|].
  rewrite (get_field team "shortDisplayName" H). simpl. unfold py_or.
  now destruct (truthy (field "shortDisplayName" team)).
Qed.

(** An event the loop skips changes nothing of what the batch gives. *)
Lemma skipped_event_leaves_batch (sport : string) (ev : json) (code name : string) :
  event_to_match sport ev code name = Ok None ->
  forall before after acc,
    parse_events sport (before ++ ev :: after) code name acc
    = parse_events sport (before ++ after) code name acc.
Proof.
  intros Hskip. induction before as [| b before IH]; intros after acc; simpl.
  - now rewrite Hskip.
  - destruct (event_to_match sport b code name) as [[m |] | e]; simpl; auto.
Qed.

Lemma no_competitions_skipped sport ev code name :
  no_competitions ev = true -> event_to_match sport ev code name = Ok None.
Proof.
  unfold no_competitions. intros H.
  apply andb_true_iff in H. destruct H as [Hd Hc].
  destruct ev; try discriminate.
  unfold event_to_match, get_default, field in *.
  simpl. destruct (assoc "competitions" fields) as [v |]; simpl.
  - unfold py_or. apply negb_true_iff in Hc. rewrite Hc. reflexivity.
  - reflexivity.
Qed.

Lemma competitors_shape ev comps :
  competitors_of ev = Some comps ->
  exists fields cfields more,
    ev = JObj fields
    /\ assoc "competitions" fields = Some (JArr (JObj cfields :: more))
    /\ py_or (match assoc "competitors" cfields with
              | Some v => v
              | None => empty_list
              end) empty_list
       = JArr comps.
Proof.
  unfold competitors_of, field. intros H.
  destruct ev as [| | | | | fields]; try discriminate.
  destruct (assoc "competitions" fields)
    as [[| | | | [| [| | | | | cfields] more] |] |] eqn:Ec; try discriminate.
  exists fields, cfields, more. repeat split; try assumption.
  destruct (assoc "competitors" cfields) as [v |]; [| now inversion H].
  destruct v as [| b | z | s | l | l]; simpl in H; unfold py_or; simpl.
  - now inversion H.
  - destruct b; now inversion H.
  - destruct (z =? 0); simpl in *; now inversion H.
  - destruct (s =? "")%string; simpl in *; now inversion H.
  - inversion H; subst. now destruct comps.
  - destruct l; simpl in *; now inversion H.
Qed.

Lemma few_competitors_skipped sport ev code name comps :
  competitors_of ev = Some comps ->
  (List.length comps < 2)%nat ->
  event_to_match sport ev code name = Ok None.
Proof.
  intros Hshape Hlen.
  destruct (competitors_shape ev comps Hshape)
    as [fields [cfields [more [-> [Hc Hcomps]]]]].
  unfold event_to_match. rewrite get_default_obj, Hc. cbn [rbind].
  change (py_or (JArr (JObj cfields :: more)) empty_list)
    with (JArr (JObj cfields :: more)).
  cbn [truthy negb py_index nth_error rbind].
  rewrite get_default_obj. cbn [rbind]. rewrite Hcomps. cbn [py_len rbind].
  destruct (Z.of_nat (List.length comps) <? 2) eqn:E; [reflexivity|].
  apply Z.ltb_ge in E. lia.
Qed.

Lemma two_competitors_normalized sport ev code name comps :
  competitors_of ev = Some comps ->
  (2 <= List.length comps)%nat ->
  Forall (fun c => competitor_entry c = true) comps ->
  exists m,
    event_to_match sport ev code name = Ok (Some m)
    /\ match_home m
       = shown_name (team_of (by_role "home" comps (nth 0 comps JNull))) "HOME"
    /\ match_away m
       = shown_name (team_of (by_role "away" comps (nth 1 comps JNull))) "AWAY"
    /\ match_sport m = sport
    /\ match_league m = code
    /\ match_league_name m = name.
Proof.
  intros Hshape Hlen Hall.
  destruct (competitors_shape ev comps Hshape)
    as [fields [cfields [more [-> [Hc Hcomps]]]]].
  destruct comps as [| c0 [| c1 rest]]; simpl in Hlen; try lia.
  assert (H0 : competitor_entry c0 = true) by now inversion Hall.
  assert (H1 : competitor_entry c1 = true).
  { inversion Hall as [| ? ? _ Hall']; now inversion Hall'. }
  unfold event_to_match. rewrite get_default_obj, Hc. cbn [rbind].
  change (py_or (JArr (JObj cfields :: more)) empty_list)
    with (JArr (JObj cfields :: more)).
  cbn [truthy negb py_index nth_error rbind].
  rewrite get_default_obj. cbn [rbind]. rewrite Hcomps.
  cbn [py_len py_iter py_index nth_error rbind nth].
  destruct (Z.of_nat (List.length (c0 :: c1 :: rest)) <? 2) eqn:E.
  { apply Z.ltb_lt in E. simpl in E. lia. }
  rewrite (find_role_entries "home" c0 _ Hall). cbn [rbind].
  rewrite (find_role_entries "away" c1 _ Hall). cbn [rbind].
  pose proof (by_role_entry "home" _ c0 Hall H0) as Hh.
  pose proof (by_role_entry "away" _ c1 Hall H1) as Ha.
  set (home_obj := by_role "home" (c0 :: c1 :: rest) c0) in *.
  set (away_obj := by_role "away" (c0 :: c1 :: rest) c1) in *.
  apply andb_true_iff in Hh. destruct Hh as [Hhd Hht].
  apply andb_true_iff in Ha. destruct Ha as [Had Hat].
  rewrite (get_field home_obj "team" Hhd). cbn [rbind].
  rewrite (get_field away_obj "team" Had). cbn [rbind].
  fold (team_of home_obj). fold (team_of away_obj).
  rewrite (get_field (JObj fields) "id" eq_refl). cbn [rbind].
  rewrite !get_default_obj. cbn [rbind].
  rewrite (display_name_of_dict _ "HOME" Hht). cbn [rbind].
  rewrite (display_name_of_dict _ "AWAY" Hat). cbn [rbind].
  destruct (dict_shape _ Hht) as [hf Ehf]. destruct (dict_shape _ Hat) as [af Eaf].
  rewrite Ehf, Eaf. rewrite !get_default_obj. cbn [rbind].
  eexists. split; [reflexivity|]. cbn. rewrite <- Ehf, <- Eaf. repeat split.
Qed.

(** What the loop has collected so far only comes first in what it
    returns. *)
Lemma parse_events_from (sport : string) (code name : string) :
  forall events acc,
    parse_events sport events code name acc
    = rbind (parse_events sport events code name [])
            (fun new => Ok (acc ++ new)%list).
Proof.
  induction events as [| ev rest IH]; intros acc; simpl.
  - now rewrite app_nil_r.
  - destruct (event_to_match sport ev code name) as [[m |] | e]; cbn [rbind].
    + rewrite (IH (acc ++ [m])%list), (IH [m]).
      destruct (parse_events sport rest code name []) as [new | e];
        cbn [rbind]; [| reflexivity].
      now rewrite <- app_assoc.
    + apply IH.
    + reflexivity.
Qed.

Lemma parse_events_app (sport : string) (code name : string) :
  forall before after acc,
    parse_events sport (before ++ after) code name acc
    = rbind (parse_events sport before code name acc)
            (fun earlier => parse_events sport after code name earlier).
Proof.
  induction before as [| b before IH]; intros after acc; simpl; [reflexivity|].
  destruct (event_to_match sport b code name) as [[m |] | e]; cbn [rbind];
    auto.
Qed.

(** The match of an event is appended where the event stands in the
    batch. *)
Lemma normalized_event_listed (sport : string) (ev : json) (code name : string)
      (m : Match) :
  event_to_match sport ev code name = Ok (Some m) ->
  forall before after acc,
    parse_events sport (before ++ ev :: after) code name acc
    = rbind (parse_events sport before code name acc)
            (fun earlier =>
               rbind (parse_events sport after code name [])
                     (fun later => Ok (earlier ++ m :: later)%list)).
Proof.
  intros Hm before after acc. rewrite parse_events_app.
  destruct (parse_events sport before code name acc) as [earlier | e];
    cbn [rbind]; [| reflexivity].
  simpl. rewrite Hm. cbn [rbind].
  rewrite (parse_events_from sport code name after (earlier ++ [m])%list).
  destruct (parse_events sport after code name []) as [later | e];
    cbn [rbind]; [| reflexivity].
  now rewrite <- app_assoc.
Qed.

(** The list of events of a scoreboard is the batch the loop walks. *)
Lemma scoreboard_batch (sport : string) (fields : list (string * json))
      (code name : string) (events : list json) :
  assoc "events" fields = Some (JArr events) ->
  parse_espn_events_to_matches sport (JObj fields) code name
  = parse_events sport events code name [].
Proof.
  intros He. unfold parse_espn_events_to_matches.
  rewrite get_default_obj, He. cbn [rbind].
  destruct events as [| ev rest]; reflexivity.
Qed.

(** C4.  For a raw scoreboard event [ev]: when it has no competitions
    entry, or its first competition lists fewer than two competitors, it
    gives no match and the batch reads as if the event were not there;
    when the first competition lists two or more competitor entries, it
    gives a match whose home side is the first competitor tagged "home",
    else the first competitor, whose away side is the first competitor
    tagged "away", else the second competitor, and whose names are the
    long display name, else the short one, else "HOME" / "AWAY"; and
    that match is in the list [parse_espn_events_to_matches] returns,
    after the matches of the events before it and before the matches of
    the events after it. *)
Theorem event_normalization (sport : string) (ev : json) (code name : string) :
  (no_competitions ev = true
   \/ (exists comps,
          competitors_of ev = Some comps /\ (List.length comps < 2)%nat) ->
   event_to_match sport ev code name = Ok None
   /\ forall before after acc,
        parse_events sport (before ++ ev :: after) code name acc
        = parse_events sport (before ++ after) code name acc)
  /\ (forall comps,
         competitors_of ev = Some comps ->
         (2 <= List.length comps)%nat ->
         Forall (fun c => competitor_entry c = true) comps ->
         exists m,
           event_to_match sport ev code name = Ok (Some m)
           /\ match_home m
              = shown_name
                  (team_of (by_role "home" comps (nth 0 comps JNull))) "HOME"
           /\ match_away m
              = shown_name
                  (team_of (by_role "away" comps (nth 1 comps JNull))) "AWAY"
           /\ match_sport m = sport
           /\ match_league m = code
           /\ match_league_name m = name
           /\ (forall before after acc,
                  parse_events sport (before ++ ev :: after) code name acc
                  = rbind (parse_events sport before code name acc)
                          (fun earlier =>
                             rbind (parse_events sport after code name [])
                                   (fun later =>
                                      Ok (earlier ++ m :: later)%list)))
           /\ (forall fields before after,
                  assoc "events" fields = Some (JArr (before ++ ev :: after)) ->
                  parse_espn_events_to_matches sport (JObj fields) code name
                  = rbind (parse_events sport before code name [])
                          (fun earlier =>
                             rbind (parse_events sport after code name [])
                                   (fun later =>
                                      Ok (earlier ++ m :: later)%list)))).
Proof.
  split.
  - intros H.
    assert (Hskip : event_to_match sport ev code name = Ok None).
    { destruct H as [H | [comps [Hc Hlen]]].
      - now apply no_competitions_skipped.
      - now apply few_competitors_skipped with comps. }
    split; [exact Hskip|]. now apply skipped_event_leaves_batch.
  - intros comps Hshape Hlen Hall.
    destruct (two_competitors_normalized sport ev code name comps
                Hshape Hlen Hall)
      as [m [Hm [Hhome [Haway [Hsport [Hcode Hname]]]]]].
    exists m.
    split; [exact Hm |]. split; [exact Hhome |]. split; [exact Haway |].
    split; [exact Hsport |]. split; [exact Hcode |]. split; [exact Hname |].
    split.
    + now apply normalized_event_listed.
    + intros fields before after He.
      rewrite (scoreboard_batch sport fields code name _ He).
      now apply normalized_event_listed.
Qed.

End Normalizer.

Section Cache.
Context {B : Builtins}.

Lemma maxsize_positive : (1 <= maxsize)%nat.
Proof. unfold maxsize. lia. Qed.

Lemma filter_length_le {A} (f : A -> bool) (l : list A) :
  (List.length (filter f l) <= List.length l)%nat.
Proof. induction l as [| x l IH]; simpl; [lia|]. destruct (f x); simpl; lia. Qed.

Lemma in_skipn {A} (x : A) n : forall l, In x (skipn n l) -> In x l.
Proof. induction n as [| n IH]; intros [| y l]; simpl; auto. Qed.

Lemma cache_evict_room (c : TTLCache) :
  (List.length (cache_evict c) + 1 <= maxsize)%nat.
Proof.
  unfold cache_evict. rewrite length_skipn.
  pose proof maxsize_positive. lia.
Qed.

Lemma cache_setitem_bound now k v c :
  (List.length (cache_setitem now k v c) <= maxsize)%nat.
Proof.
  unfold cache_setitem. rewrite length_app. simpl.
  apply cache_evict_room.
Qed.

Lemma cache_remove_found k c e :
  cache_find k c = Some e ->
  (List.length (cache_remove k c) + 1 <= List.length c)%nat.
Proof.
  unfold cache_find, cache_remove.
  induction c as [| x c IH]; simpl; [discriminate|].
  destruct (has_key k x); simpl.
  - intros _.
    pose proof (filter_length_le (fun e0 => negb (has_key k e0)) c). lia.
  - intros H. specialize (IH H). lia.
Qed.

Lemma cache_getitem_bound now k c :
  (List.length (snd (cache_getitem now k c)) <= List.length c)%nat.
Proof.
  unfold cache_getitem.
  destruct (cache_find k c) as [e |] eqn:E; simpl; [| lia].
  destruct (live now e); simpl; [| lia].
  rewrite length_app. simpl. now apply cache_remove_found with e.
Qed.

(** No operation takes the cache over its capacity. *)
Lemma run_ops_bound ops :
  forall c, (List.length c <= maxsize)%nat ->
            (List.length (run_ops ops c) <= maxsize)%nat.
Proof.
  induction ops as [| [now op] rest IH]; intros c H; simpl; [assumption|].
  apply IH. destruct op; simpl.
  - assumption.
  - pose proof (cache_getitem_bound now k c). lia.
  - apply cache_setitem_bound.
Qed.

Lemma expires_at_filter k t f c :
  expires_at k t c -> expires_at k t (filter f c).
Proof.
  unfold expires_at. rewrite !Forall_forall. intros H e He.
  apply filter_In in He. now apply H.
Qed.

Lemma expires_at_skipn k t n c :
  expires_at k t c -> expires_at k t (skipn n c).
Proof.
  unfold expires_at. rewrite !Forall_forall. intros H e He.
  apply H. now apply in_skipn with n.
Qed.

Lemma expires_at_setitem_other k t now k' v c :
  (k' =? k)%string = false ->
  expires_at k t c -> expires_at k t (cache_setitem now k' v c).
Proof.
  intros Hk H. unfold cache_setitem, cache_evict, cache_remove, cache_expire.
  apply Forall_app. split.
  - apply expires_at_skipn. now do 2 apply expires_at_filter.
  - constructor; [| constructor]. unfold has_key. simpl. congruence.
Qed.

(** Right after a put, the one entry of the key expires [ttl] later. *)
Lemma expires_at_setitem k now v c :
  expires_at k (now + ttl)%Q (cache_setitem now k v c).
Proof.
  unfold cache_setitem, cache_evict, cache_remove, cache_expire.
  apply Forall_app. split.
  - unfold expires_at. rewrite Forall_forall. intros e He Hk.
    apply in_skipn in He. apply filter_In in He. destruct He as [_ He].
    rewrite Hk in He. discriminate.
  - constructor; [| constructor]. reflexivity.
Qed.

Lemma expires_at_getitem k t now k' c :
  expires_at k t c -> expires_at k t (snd (cache_getitem now k' c)).
Proof.
  intros H. unfold cache_getitem.
  destruct (cache_find k' c) as [e |] eqn:E; simpl; [| assumption].
  destruct (live now e); simpl; [| assumption].
  apply Forall_app. split.
  - now apply expires_at_filter.
  - constructor; [| constructor].
    unfold expires_at in H. rewrite Forall_forall in H. apply H.
    apply find_some in E. tauto.
Qed.

(** Traffic that never puts [k] leaves the expiry of [k] as it was. *)
Lemma expires_at_run k t ops :
  Forall (fun timed => puts_key k (snd timed) = false) ops ->
  forall c, expires_at k t c -> expires_at k t (run_ops ops c).
Proof.
  induction ops as [| [now op] rest IH]; intros Hops c H; simpl; [assumption|].
  inversion Hops as [| ? ? Hop Hrest]; subst. apply IH; [assumption|].
  destruct op; simpl in *.
  - assumption.
  - now apply expires_at_getitem.
  - now apply expires_at_setitem_other.
Qed.

Lemma expired_miss k t now c :
  expires_at k t c -> (t < now)%Q -> cache_contains now k c = false.
Proof.
  intros H Hlate. unfold cache_contains, cache_find.
  destruct (find (has_key k) c) as [e |] eqn:E; [| reflexivity].
  apply find_some in E. destruct E as [Hin Hk].
  unfold expires_at in H. rewrite Forall_forall in H.
  unfold live. rewrite (H e Hin Hk).
  apply negb_false_iff. apply Qle_bool_iff. now apply Qlt_le_weak.
Qed.

(** A put of a new key into a full cache of live entries drops the least
    recently used entry and nothing else. *)
Lemma lru_evicted now k v c :
  cache_find k c = None ->
  forallb (live now) c = true ->
  List.length c = maxsize ->
  cache_setitem now k v c
  = (tl c ++ [{| entry_key := k; entry_value := v;
                 entry_expires := (now + ttl)%Q |}])%list.
Proof.
  intros Hk Hlive Hfull. unfold cache_setitem. f_equal.
  assert (E1 : cache_expire now c = c).
  { unfold cache_expire. clear Hk Hfull.
    induction c as [| e c IH]; simpl in *; [reflexivity|].
    apply andb_true_iff in Hlive. destruct Hlive as [He Hc].
    rewrite He. f_equal. now apply IH. }
  assert (E2 : cache_remove k c = c).
  { unfold cache_remove, cache_find in *. clear Hlive Hfull E1.
    induction c as [| e c IH]; simpl in *; [reflexivity|].
    destruct (has_key k e); [discriminate|]. simpl. f_equal. now apply IH. }
  rewrite E1, E2. unfold cache_evict. rewrite Hfull.
  replace (maxsize + 1 - maxsize)%nat with 1%nat by lia.
  now destruct c.
Qed.

(** On a miss [http_get_json] asks upstream. *)
Lemma http_get_json_miss url params w :
  cache_contains (clock w (tick w)) (url ++ "|" ++ py_str (JObj params)) (cache w)
  = false ->
  fst (http_get_json url params w) = net w (S (tick w)) url params.
Proof.
  intros Hmiss. unfold http_get_json, bind, cache_has. rewrite Hmiss.
  unfold client_get. cbn [step tick net].
  destruct (net w (S (tick w)) url params); reflexivity.
Qed.

(** What the membership test misses, the read misses too. *)
Lemma miss_raises now k c :
  cache_contains now k c = false ->
  cache_getitem now k c = (Raise KeyError, c).
Proof.
  unfold cache_contains, cache_getitem.
  destruct (cache_find k c) as [e |]; [| reflexivity].
  now intros ->.
Qed.

(** A hit moves the entry behind every other one. *)
Lemma cache_getitem_hit now (e : Entry) (before after : TTLCache) :
  forallb (fun x => negb (has_key (entry_key e) x)) (before ++ after)%list = true ->
  live now e = true ->
  cache_getitem now (entry_key e) (before ++ e :: after)%list
  = (Ok (entry_value e), (before ++ after ++ [e])%list).
Proof.
  intros Hother Hlive. rewrite forallb_app in Hother.
  apply andb_true_iff in Hother. destruct Hother as [Hb Ha].
  assert (Hself : has_key (entry_key e) e = true)
    by (unfold has_key; apply String.eqb_refl).
  assert (Hfind : cache_find (entry_key e) (before ++ e :: after)%list = Some e).
  { unfold cache_find. clear Ha.
    induction before as [| x before IH]; simpl in *; [now rewrite Hself|].
    apply andb_true_iff in Hb. destruct Hb as [Hx Hb].
    apply negb_true_iff in Hx. rewrite Hx. now apply IH. }
  assert (Hkeep : forall l,
             forallb (fun x => negb (has_key (entry_key e) x)) l = true ->
             cache_remove (entry_key e) l = l).
  { unfold cache_remove. induction l as [| x l IH]; simpl; [reflexivity|].
    intros H. apply andb_true_iff in H. destruct H as [Hx Hl].
    rewrite Hx. f_equal. now apply IH. }
  unfold cache_getitem. rewrite Hfind, Hlive. f_equal.
  unfold cache_remove. rewrite filter_app. cbn [filter]. rewrite Hself.
  cbn [negb]. fold (cache_remove (entry_key e) before).
  fold (cache_remove (entry_key e) after).
  rewrite (Hkeep before Hb), (Hkeep after Ha). now rewrite <- app_assoc.
Qed.

(** The entry a hit just read outlives the next put into the full
    cache: the entry evicted is the least recently used of the others. *)
Lemma read_entry_outlives_put now k v (e : Entry) (before after : TTLCache) :
  forallb (live now) (before ++ e :: after)%list = true ->
  cache_find k (before ++ e :: after)%list = None ->
  List.length (before ++ e :: after)%list = maxsize ->
  cache_setitem now k v (before ++ after ++ [e])%list
  = (tl (before ++ after)%list
     ++ [e; {| entry_key := k; entry_value := v;
               entry_expires := (now + ttl)%Q |}])%list.
Proof.
  intros Hlive Hnew Hfull.
  assert (Hsame : forall x, In x (before ++ after ++ [e])%list
                            -> In x (before ++ e :: after)%list).
  { intros x Hx. rewrite !in_app_iff in Hx. rewrite in_app_iff. simpl in *.
    tauto. }
  rewrite lru_evicted.
  - rewrite app_assoc.
    assert (Hrest : (before ++ after)%list <> []).
    { intros E. rewrite length_app in Hfull. simpl in Hfull.
      apply (f_equal (@List.length Entry)) in E. rewrite length_app in E.
      simpl in E. unfold maxsize in Hfull. lia. }
    destruct (before ++ after)%list as [| x rest]; [congruence|].
    simpl. now rewrite <- app_assoc.
  - unfold cache_find in *.
    destruct (find (has_key k) (before ++ after ++ [e])%list) as [x |] eqn:E;
      [| reflexivity].
    apply find_some in E. destruct E as [Hin Hk].
    pose proof (find_none _ _ Hnew x (Hsame x Hin)) as Hno. congruence.
  - apply forallb_forall. intros x Hx.
    rewrite forallb_forall in Hlive. now apply Hlive, Hsame.
  - rewrite <- Hfull. rewrite !length_app. simpl. lia.
Qed.

(** C5.  With the cache of line 18 ([ttl] 60 seconds, [maxsize] 2048):
    a membership test made more than 60 seconds after the put of a key,
    with no put of that key in between, is a miss (and on a miss
    [http_get_json] goes upstream); from the empty cache no traffic ever
    makes the cache hold more than 2048 entries; a put of a new key
    into a full cache evicts the least recently used entry; and use is
    what a read counts as: a hit makes its entry the most recently used
    one, so that the next put into the full cache keeps it and evicts
    the least recently used of the other entries. *)
Theorem cache_ttl_and_capacity :
  (forall c t0 k v ops t,
      Forall (fun timed => puts_key k (snd timed) = false) ops ->
      (t0 + 60 < t)%Q ->
      cache_contains t k (run_ops ops (cache_setitem t0 k v c)) = false)
  /\ (forall url params w,
         cache_contains (clock w (tick w))
                        (url ++ "|" ++ py_str (JObj params)) (cache w) = false ->
         fst (http_get_json url params w) = net w (S (tick w)) url params)
  /\ (forall ops, (List.length (run_ops ops CACHE) <= 2048)%nat)
  /\ (forall now k v c,
         cache_find k c = None ->
         forallb (live now) c = true ->
         List.length c = 2048%nat ->
         cache_setitem now k v c
         = (tl c ++ [{| entry_key := k; entry_value := v;
                        entry_expires := (now + 60)%Q |}])%list)
  /\ (forall now later k v e before after,
         forallb (fun x => negb (has_key (entry_key e) x)) (before ++ after)%list
         = true ->
         live now e = true ->
         forallb (live later) (before ++ e :: after)%list = true ->
         cache_find k (before ++ e :: after)%list = None ->
         List.length (before ++ e :: after)%list = 2048%nat ->
         cache_getitem now (entry_key e) (before ++ e :: after)%list
         = (Ok (entry_value e), (before ++ after ++ [e])%list)
         /\ cache_setitem later k v
              (snd (cache_getitem now (entry_key e) (before ++ e :: after)%list))
            = (tl (before ++ after)%list
               ++ [e; {| entry_key := k; entry_value := v;
                         entry_expires := (later + 60)%Q |}])%list)
  /\ (forall c t0 k v ops t,
         Forall (fun timed => puts_key k (snd timed) = false) ops ->
         (t0 + 60 < t)%Q ->
         cache_getitem t k (run_ops ops (cache_setitem t0 k v c))
         = (Raise KeyError, run_ops ops (cache_setitem t0 k v c))).
Proof.
  assert (Hexpired : forall c t0 k v ops t,
             Forall (fun timed => puts_key k (snd timed) = false) ops ->
             (t0 + 60 < t)%Q ->
             cache_contains t k (run_ops ops (cache_setitem t0 k v c)) = false).
  { intros c t0 k v ops t Hops Hlate.
    apply expired_miss with (t0 + ttl)%Q; [| exact Hlate].
    apply expires_at_run; [assumption|]. apply expires_at_setitem. }
  split; [| split; [| split; [| split; [| split]]]];
    [| | | | | intros c t0 k v ops t Hops Hlate;
               apply miss_raises; now apply Hexpired].
  - intros c t0 k v ops t Hops Hlate.
    apply expired_miss with (t0 + ttl)%Q; [| exact Hlate].
    apply expires_at_run; [assumption|]. apply expires_at_setitem.
  - apply http_get_json_miss.
  - intros ops. apply (run_ops_bound ops CACHE). simpl. lia.
  - intros now k v c. apply lru_evicted.
  - intros now later k v e before after Hother Hlive Hlater Hnew Hfull.
    rewrite (cache_getitem_hit now e before after Hother Hlive).
    split; [reflexivity|]. cbn [snd].
    now apply read_entry_outlives_put.
Qed.

End Cache.

Section MatchAction.
Context {B : Builtins}.

Lemma on_button_match (data : option string) (c : Ctx) :
  callback_action data = "match" ->
  on_button data c = on_match (callback_parts data) (answered c).
Proof.
  intros H. unfold on_button, hbind, send. rewrite H. reflexivity.
Qed.

(** Every sport of the menu has its button in [kb_sports], and pressing
    it selects that sport. *)
Lemma sports_menu_works (c : Ctx) (k label : string) :
  In (k, label) SPORT_LABELS ->
  In (InlineKeyboardButton label ("sport|" ++ k)) (List.concat kb_sports)
  /\ exists c',
      on_button (Some ("sport|" ++ k)) c = (Ok tt, c')
      /\ ud_sport (user_data c') = Some k.
Proof.
  intros H. simpl in H.
  repeat (destruct H as [H | H];
          [inversion H; subst; split;
           [simpl; tauto
           | eexists; split; [lazy; reflexivity | reflexivity]] |]).
  contradiction.
Qed.

(** C6.  A [match] action whose id is not in the stored list -- or that
    arrives while no sport is selected -- is answered with the one
    message "match introuvable ... Reviens au menu" carrying the sports
    menu: the handler raises nothing, leaves the user's state and the
    world as they were (no fetch is issued, no detail page is rendered),
    and each button of that menu leads on. *)
Theorem stale_match_not_found (data : option string) (c : Ctx) (wanted : string) :
  callback_action data = "match" ->
  second_part (callback_parts data) = Ok wanted ->
  no_sport (ud_sport (user_data c)) = true
  \/ pick (stored_matches (user_data c)) wanted = None ->
  on_button data c
  = (Ok tt, replied c [Answer; EditMessageText NOT_FOUND (Some kb_sports)])
  /\ forall k label,
       In (k, label) SPORT_LABELS ->
       In (InlineKeyboardButton label ("sport|" ++ k)) (List.concat kb_sports)
       /\ exists c',
           on_button (Some ("sport|" ++ k))
                     (replied c [Answer; EditMessageText NOT_FOUND (Some kb_sports)])
           = (Ok tt, c')
           /\ ud_sport (user_data c') = Some k.
Proof.
  intros Hact Hid Hstale. split.
  - rewrite (on_button_match data c Hact).
    unfold on_match, hbind, read_user_data, now_or_raise. rewrite Hid.
    cbn [answered user_data].
    assert (E : forall (k : string -> Match -> Handler unit),
               match no_sport (ud_sport (user_data c)), ud_sport (user_data c),
                     pick (stored_matches (user_data c)) wanted with
               | false, Some sport, Some picked => k sport picked
               | _, _, _ => edit_message_text NOT_FOUND (Some kb_sports)
               end = edit_message_text NOT_FOUND (Some kb_sports)).
    { intros k. destruct Hstale as [-> | ->].
      - now destruct (ud_sport (user_data c)).
      - destruct (no_sport (ud_sport (user_data c))); [reflexivity|].
        now destruct (ud_sport (user_data c)). }
    rewrite E. unfold edit_message_text, send, replied, answered. simpl.
    now rewrite <- app_assoc.
  - intros k label Hin. now apply sports_menu_works.
Qed.

(** C10.  For a tennis match found in the stored list the detail page is
    rendered without any interaction with the world -- no schedule call,
    no call at all -- and both form lines it shows are the placeholder. *)
Theorem tennis_detail_without_form_fetch
        (data : option string) (c : Ctx) (wanted : string) (picked : Match) :
  callback_action data = "match" ->
  second_part (callback_parts data) = Ok wanted ->
  ud_sport (user_data c) = Some "tennis" ->
  pick (stored_matches (user_data c)) wanted = Some picked ->
  on_button data c
  = (Ok tt,
     replied c
       [Answer;
        EditMessageText "📄 Je prépare la fiche…" None;
        EditMessageText
          (String.concat nl
             (detail_lines "tennis" picked FORM_UNAVAILABLE FORM_UNAVAILABLE []))
          (Some (detail_markup (ud_page (user_data c))))])
  /\ In ("🏠 " ++ py_str (match_home picked) ++ nl ++ FORM_UNAVAILABLE)
        (detail_lines "tennis" picked FORM_UNAVAILABLE FORM_UNAVAILABLE [])
  /\ In ("🚌 " ++ py_str (match_away picked) ++ nl ++ FORM_UNAVAILABLE)
        (detail_lines "tennis" picked FORM_UNAVAILABLE FORM_UNAVAILABLE []).
Proof.
  intros Hact Hid Hsport Hpick. split; [| split].
  - rewrite (on_button_match data c Hact).
    unfold on_match, hbind, read_user_data, now_or_raise. rewrite Hid.
    cbn [answered user_data]. rewrite Hsport, Hpick.
    cbn [no_sport String.eqb Ascii.eqb Bool.eqb].
    unfold edit_message_text, send, await, detail_forms, detail_extras, bind, ret.
    cbn. unfold replied. now rewrite <- !app_assoc.
  - unfold detail_lines. rewrite !in_app_iff. right. right. left.
    simpl. tauto.
  - unfold detail_lines. rewrite !in_app_iff. right. right. left.
    simpl. tauto.
Qed.

End MatchAction.

Section Enrichment.
Context {B : Builtins}.

Lemma team_form_total sport_path league team_id w :
  exists s w',
    team_form_espn sport_path league team_id w = (Ok s, w')
    /\ (forall e w1,
           team_form_attempt sport_path league team_id w = (Raise e, w1) ->
           s = FORM_UNAVAILABLE /\ w' = w1).
Proof. apply try_except_total. Qed.

Lemma nhl_goalies_total game_id w :
  exists s w',
    nhl_goalies game_id w = (Ok s, w')
    /\ (forall e w1,
           nhl_goalies_attempt game_id w = (Raise e, w1) ->
           s = GOALIES_UNAVAILABLE /\ w' = w1).
Proof. apply try_except_total. Qed.

Lemma mlb_pitchers_total game_pk w :
  exists s w',
    mlb_pitchers game_pk w = (Ok s, w')
    /\ (forall e w1,
           mlb_pitchers_attempt game_pk w = (Raise e, w1) ->
           s = PITCHERS_UNAVAILABLE /\ w' = w1).
Proof. apply try_except_total. Qed.

(** When the home fetch fails the away fetch still runs, from the world
    the failed fetch left, and its line is the one shown. *)
Lemma failed_home_form_spares_away sport_path league picked w e w1 :
  team_form_attempt sport_path league (match_home_id picked) w = (Raise e, w1) ->
  exists s2 w2,
    team_form_espn sport_path league (match_away_id picked) w1 = (Ok s2, w2)
    /\ both_forms sport_path league picked w = (Ok (FORM_UNAVAILABLE, s2), w2).
Proof.
  intros Hfail.
  destruct (team_form_total sport_path league (match_away_id picked) w1)
    as [s2 [w2 [Haway _]]].
  exists s2, w2. split; [assumption|].
  unfold both_forms.
  assert (Hhome : team_form_espn sport_path league (match_home_id picked) w
                  = (Ok FORM_UNAVAILABLE, w1)).
  { unfold team_form_espn. now rewrite (try_except_raise _ _ _ _ _ Hfail). }
  rewrite (bind_ok _ _ _ _ _ Hhome). now rewrite (bind_ok _ _ _ _ _ Haway).
Qed.

Lemma both_forms_total sport_path league picked w :
  exists forms w', both_forms sport_path league picked w = (Ok forms, w').
Proof.
  destruct (team_form_total sport_path league (match_home_id picked) w)
    as [s1 [w1 [H1 _]]].
  destruct (team_form_total sport_path league (match_away_id picked) w1)
    as [s2 [w2 [H2 _]]].
  exists (s1, s2), w2. unfold both_forms.
  rewrite (bind_ok _ _ _ _ _ H1). now rewrite (bind_ok _ _ _ _ _ H2).
Qed.

Lemma detail_forms_total sport picked w :
  exists forms w', detail_forms sport picked w = (Ok forms, w').
Proof.
  unfold detail_forms.
  repeat match goal with
         | |- context [if ?b then _ else _] =>
             destruct b; [apply both_forms_total|]
         end.
  now eexists _, _.
Qed.

Lemma detail_extras_total sport game_id w :
  exists extra w', detail_extras sport game_id w = (Ok extra, w').
Proof.
  unfold detail_extras.
  assert (G : exists goalies w1,
             (if (sport =? "nhl")%string
              then bind (nhl_goalies game_id) (fun g => ret [g])
              else ret []) w = (Ok goalies, w1)).
  { destruct (sport =? "nhl")%string; [| now eexists _, _].
    destruct (nhl_goalies_total game_id w) as [s [w1 [H _]]].
    exists [s], w1. now rewrite (bind_ok _ _ _ _ _ H). }
  destruct G as [goalies [w1 Hg]]. rewrite (bind_ok _ _ _ _ _ Hg).
  assert (P : exists pitchers w2,
             (if (sport =? "mlb")%string
              then bind (mlb_pitchers game_id) (fun p => ret [MLB_CAVEAT; p])
              else ret []) w1 = (Ok pitchers, w2)).
  { destruct (sport =? "mlb")%string; [| now eexists _, _].
    destruct (mlb_pitchers_total game_id w1) as [s [w2 [H _]]].
    exists [MLB_CAVEAT; s], w2. now rewrite (bind_ok _ _ _ _ _ H). }
  destruct P as [pitchers [w2 Hp]]. rewrite (bind_ok _ _ _ _ _ Hp).
  now eexists _, _.
Qed.

(** C8.  Each of the three enrichment fetchers returns a string for every
    input and every world, never an exception, and the string is the
    fetcher's "indisponible" line whenever its attempt raised; a failed
    home-form fetch leaves the away-form fetch to run as it would on its
    own; and the detail page of a match found in the stored list is
    always assembled and sent. *)
Theorem enrichment_fetchers_total :
  (forall sport_path league team_id w,
      exists s w',
        team_form_espn sport_path league team_id w = (Ok s, w')
        /\ (forall e w1,
               team_form_attempt sport_path league team_id w = (Raise e, w1) ->
               s = FORM_UNAVAILABLE /\ w' = w1))
  /\ (forall game_id w,
         exists s w',
           nhl_goalies game_id w = (Ok s, w')
           /\ (forall e w1,
                  nhl_goalies_attempt game_id w = (Raise e, w1) ->
                  s = GOALIES_UNAVAILABLE /\ w' = w1))
  /\ (forall game_pk w,
         exists s w',
           mlb_pitchers game_pk w = (Ok s, w')
           /\ (forall e w1,
                  mlb_pitchers_attempt game_pk w = (Raise e, w1) ->
                  s = PITCHERS_UNAVAILABLE /\ w' = w1))
  /\ (forall sport_path league picked w e w1,
         team_form_attempt sport_path league (match_home_id picked) w
         = (Raise e, w1) ->
         exists s2 w2,
           team_form_espn sport_path league (match_away_id picked) w1
           = (Ok s2, w2)
           /\ both_forms sport_path league picked w
              = (Ok (FORM_UNAVAILABLE, s2), w2))
  /\ (forall data c wanted sport picked,
         callback_action data = "match" ->
         second_part (callback_parts data) = Ok wanted ->
         ud_sport (user_data c) = Some sport ->
         no_sport (Some sport) = false ->
         pick (stored_matches (user_data c)) wanted = Some picked ->
         exists forms extra w',
           on_button data c
           = (Ok tt,
              {| user_data := user_data c;
                 world := w';
                 sent :=
                   (sent c
                    ++ [Answer;
                        EditMessageText "📄 Je prépare la fiche…" None;
                        EditMessageText
                          (String.concat nl
                             (detail_lines sport picked (fst forms) (snd forms)
                                           extra))
                          (Some (detail_markup (ud_page (user_data c))))])%list
              |})).
Proof.
  split; [exact team_form_total|].
  split; [exact nhl_goalies_total|].
  split; [exact mlb_pitchers_total|].
  split; [exact failed_home_form_spares_away|].
  intros data c wanted sport picked Hact Hid Hsport Hsel Hpick.
  rewrite (on_button_match data c Hact).
  unfold on_match, hbind, read_user_data, now_or_raise. rewrite Hid.
  cbn [answered user_data]. rewrite Hsport, Hsel, Hpick.
  unfold edit_message_text, send, await, answered. cbn [user_data world sent].
  destruct (detail_forms_total sport picked (world c)) as [forms [w1 Hf]].
  rewrite Hf. cbn [user_data world sent].
  destruct (detail_extras_total sport wanted w1) as [extra [w2 He]].
  rewrite He. cbn [user_data world sent].
  exists forms, extra, w2. now rewrite <- !app_assoc.
Qed.

End Enrichment.

Section Pages.
Context {B : Builtins}.

(** For a page index that is not negative the slice of [kb_matches] is
    the plain window of ten. *)
Lemma page_chunk_window (matches : list Match) (page : Z) :
  0 <= page ->
  page_chunk matches page 10
  = firstn 10 (skipn (Z.to_nat (page * 10)) matches).
Proof.
  intros Hpage. unfold page_chunk, py_slice, slice_bound.
  set (len := Z.of_nat (List.length matches)).
  destruct (page * 10 <? 0) eqn:E1; [apply Z.ltb_lt in E1; lia|].
  destruct (page * 10 + 10 <? 0) eqn:E2; [apply Z.ltb_lt in E2; lia|].
  destruct (Z_lt_le_dec (page * 10) len) as [Hin | Hout].
  - rewrite (Z.min_l (page * 10) len) by lia.
    destruct (Z_le_gt_dec (page * 10 + 10) len) as [Hfull | Hshort].
    + rewrite Z.min_l by lia. f_equal. lia.
    + rewrite Z.min_r by lia.
      assert (Hl : List.length (skipn (Z.to_nat (page * 10)) matches)
                   = Z.to_nat (len - page * 10)).
      { rewrite length_skipn. unfold len. lia. }
      rewrite firstn_all2 by lia. rewrite firstn_all2 by lia. reflexivity.
  - rewrite !Z.min_r by lia. rewrite Z.sub_diag. simpl.
    rewrite skipn_all2 by (unfold len in Hout; lia). reflexivity.
Qed.

(** The buttons of a page, row after row. *)
Lemma kb_matches_buttons (matches : list Match) (page : Z) :
  List.concat (kb_matches matches page)
  = (List.concat (flat_map match_rows (page_chunk matches page 10))
     ++ nav_row (Z.of_nat (List.length matches)) page 10
     ++ List.concat fixed_rows)%list.
Proof.
  unfold kb_matches, kb_matches_sized. rewrite !concat_app. f_equal.
  destruct (nav_row (Z.of_nat (List.length matches)) page 10); simpl;
    [reflexivity|]. now rewrite app_nil_r.
Qed.

Lemma match_rows_data (b : Button) (ms : list Match) :
  In b (List.concat (flat_map match_rows ms)) ->
  (exists m, button_data b = "match|" ++ match_id m) \/ button_data b = "noop|x".
Proof.
  induction ms as [| m ms IH]; simpl; [tauto|].
  intros [H | [H | H]]; subst; simpl; eauto.
Qed.

Lemma prev_iff (matches : list Match) (page : Z) :
  In (prev_button page) (List.concat (kb_matches matches page)) <-> 0 < page.
Proof.
  rewrite kb_matches_buttons. rewrite !in_app_iff. unfold nav_row. split.
  - intros [H | [H | H]].
    + apply match_rows_data in H. simpl in H.
      destruct H as [[m H] | H]; discriminate H.
    + destruct (0 <? page) eqn:E; [now apply Z.ltb_lt|].
      simpl in H. destruct (page * 10 + 10 <? _); simpl in H; [| tauto].
      destruct H as [H | []]. discriminate H.
    + simpl in H. repeat (destruct H as [H | H]; [discriminate H|]). tauto.
  - intros H. right; left. apply Z.ltb_lt in H. rewrite H. simpl. auto.
Qed.

Lemma next_iff (matches : list Match) (page : Z) :
  In (next_button page) (List.concat (kb_matches matches page))
  <-> (page + 1) * 10 < Z.of_nat (List.length matches).
Proof.
  rewrite kb_matches_buttons. rewrite !in_app_iff. unfold nav_row. split.
  - intros [H | [H | H]].
    + apply match_rows_data in H. simpl in H.
      destruct H as [[m H] | H]; discriminate H.
    + destruct (page * 10 + 10 <? Z.of_nat (List.length matches)) eqn:E;
        [apply Z.ltb_lt in E; lia|].
      destruct (0 <? page); simpl in H; [| tauto].
      destruct H as [H | []]. discriminate H.
    + simpl in H. repeat (destruct H as [H | H]; [discriminate H|]). tauto.
  - intros H. right; left.
    assert (E : (page * 10 + 10 <? Z.of_nat (List.length matches)) = true)
      by (apply Z.ltb_lt; lia).
    rewrite E. apply in_or_app. right. simpl. auto.
Qed.

Lemma stale_page (matches : list Match) (page : Z) :
  0 <= page ->
  Z.of_nat (List.length matches) <= page * 10 ->
  kb_matches matches page
  = ((if 0 <? page then [[prev_button page]] else []) ++ fixed_rows)%list.
Proof.
  intros Hpage Hstale. unfold kb_matches, kb_matches_sized.
  rewrite (page_chunk_window matches page Hpage).
  rewrite skipn_all2 by lia. unfold nav_row.
  destruct (page * 10 + 10 <? Z.of_nat (List.length matches)) eqn:E;
    [apply Z.ltb_lt in E; lia|].
  now destruct (0 <? page).
Qed.

(** C9.  For every match list and every page index that is not negative:
    the page shows the matches of the window of ten that starts at
    [page * 10], each with a button that carries its start, its sides
    and its id, followed by a row naming its league, then the navigation
    row when there is one and the three closing rows; the "previous"
    button is there exactly when [page > 0] and the "next" button
    exactly when [(page + 1) * 10] is less than the number of matches;
    and a page past the end of the list is the keyboard with no match,
    the "previous" button (for a page after the first) and the three
    closing rows. *)
Theorem page_window_and_navigation (matches : list Match) (page : Z) :
  0 <= page ->
  page_chunk matches page 10
  = firstn 10 (skipn (Z.to_nat (page * 10)) matches)
  /\ List.concat (kb_matches matches page)
     = (List.concat
          (flat_map match_rows
                    (firstn 10 (skipn (Z.to_nat (page * 10)) matches)))
        ++ nav_row (Z.of_nat (List.length matches)) page 10
        ++ List.concat fixed_rows)%list
  /\ (In (prev_button page) (List.concat (kb_matches matches page))
      <-> 0 < page)
  /\ (In (next_button page) (List.concat (kb_matches matches page))
      <-> (page + 1) * 10 < Z.of_nat (List.length matches))
  /\ (Z.of_nat (List.length matches) <= page * 10 ->
      kb_matches matches page
      = ((if 0 <? page then [[prev_button page]] else []) ++ fixed_rows)%list)
  /\ kb_matches matches page
     = (flat_map
          (fun m =>
             [[InlineKeyboardButton
                 (py_str (fmt_dt (match_start_time m)) ++ " — "
                  ++ py_str (match_away m) ++ " @ " ++ py_str (match_home m))
                 ("match|" ++ match_id m)];
              [InlineKeyboardButton
                 ("🏆 " ++ (if (match_league_name m =? "")%string
                            then match_league m else match_league_name m))
                 "noop|x"]])
          (firstn 10 (skipn (Z.to_nat (page * 10)) matches))
        ++ (if (0 <? page)
               || ((page + 1) * 10 <? Z.of_nat (List.length matches))
            then [((if 0 <? page
                    then [InlineKeyboardButton
                            "⬅️ Précédent" ("page|" ++ string_of_Z (page - 1))]
                    else [])
                   ++ (if (page + 1) * 10 <? Z.of_nat (List.length matches)
                       then [InlineKeyboardButton
                               "➡️ Suivant" ("page|" ++ string_of_Z (page + 1))]
                       else []))%list]
            else [])
        ++ [[InlineKeyboardButton "⬅️ Retour" "back|dates"];
            [InlineKeyboardButton "🏠 Menu sports" "back|sports"];
            [InlineKeyboardButton "❌ Fermer" "close|x"]])%list
  /\ List.length (kb_matches matches page)
     = (2 * List.length (firstn 10 (skipn (Z.to_nat (page * 10)) matches))
        + (if ((0 <? page)
               || ((page + 1) * 10 <? Z.of_nat (List.length matches)))%Z
           then 1 else 0)
        + 3)%nat.
Proof.
  intros Hpage.
  assert (Hrows :
            kb_matches matches page
            = (flat_map
                 (fun m =>
                    [[InlineKeyboardButton
                        (py_str (fmt_dt (match_start_time m)) ++ " — "
                         ++ py_str (match_away m) ++ " @ "
                         ++ py_str (match_home m))
                        ("match|" ++ match_id m)];
                     [InlineKeyboardButton
                        ("🏆 " ++ (if (match_league_name m =? "")%string
                                   then match_league m
                                   else match_league_name m))
                        "noop|x"]])
                 (firstn 10 (skipn (Z.to_nat (page * 10)) matches))
               ++ (if (0 <? page)
                      || ((page + 1) * 10 <? Z.of_nat (List.length matches))
                   then [((if 0 <? page
                           then [InlineKeyboardButton
                                   "⬅️ Précédent"
                                   ("page|" ++ string_of_Z (page - 1))]
                           else [])
                          ++ (if (page + 1) * 10
                                 <? Z.of_nat (List.length matches)
                              then [InlineKeyboardButton
                                      "➡️ Suivant"
                                      ("page|" ++ string_of_Z (page + 1))]
                              else []))%list]
                   else [])
               ++ [[InlineKeyboardButton "⬅️ Retour" "back|dates"];
                   [InlineKeyboardButton "🏠 Menu sports" "back|sports"];
                   [InlineKeyboardButton "❌ Fermer" "close|x"]])%list).
  { unfold kb_matches, kb_matches_sized.
    rewrite (page_chunk_window matches page Hpage).
    f_equal.
    - apply flat_map_ext. intros m. unfold match_rows.
      now destruct (match_league_name m =? "")%string.
    - f_equal. unfold nav_row.
      replace (page * 10 + 10) with ((page + 1) * 10) by lia.
      destruct (0 <? page);
        destruct ((page + 1) * 10 <? Z.of_nat (List.length matches));
        reflexivity. }
  split; [now apply page_chunk_window |].
  split; [rewrite kb_matches_buttons;
          now rewrite (page_chunk_window matches page Hpage) |].
  split; [apply prev_iff |].
  split; [apply next_iff |].
  split; [now apply stale_page |].
  split; [exact Hrows |].
  rewrite Hrows. rewrite !length_app.
  assert (Hflat : forall (f : Match -> list (list Button)) l,
             (forall m, List.length (f m) = 2%nat) ->
             List.length (flat_map f l) = (2 * List.length l)%nat).
  { intros f l Hf. induction l as [| m l IH]; simpl; [reflexivity|].
    rewrite length_app, Hf, IH. lia. }
  rewrite Hflat by reflexivity.
  destruct ((0 <? page) || ((page + 1) * 10 <? Z.of_nat (List.length matches)));
    simpl; lia.
Qed.

End Pages.

(* ================================================================== *)
(** ** Runs on the UTC host *)
(* ================================================================== *)

(** C7 (as the code has it).  Given a schedule of six completed events
    listed oldest first, the recent-form fetcher returns the first five
    in the order of the payload: the most recent result (6-0 on 06/01)
    is the one left out, and the oldest comes first. *)
Theorem recent_form_keeps_payload_order :
  fst (team_form_espn (B := utc_host) "soccer" "eng.1" "10"
                      (answering six_results))
  = Ok (String.concat nl
          ["📈 Forme (5 derniers):";
           "- W ARS 1-0 CHE (01/01 15:00)";
           "- W ARS 2-0 CHE (02/01 15:00)";
           "- W ARS 3-0 CHE (03/01 15:00)";
           "- W ARS 4-0 CHE (04/01 15:00)";
           "- W ARS 5-0 CHE (05/01 15:00)"]).
Proof.
  unfold team_form_espn, team_form_attempt.
  vm_compute. reflexivity.
Qed.

(** With every request failing, basketball lists no match while the NHL,
    NFL and MLB pipelines raise the request's error. *)
Lemma single_league_failure_offline :
  fetch_basket_matches (B := utc_host) 19723 "nba" "NBA" offline
  = (Ok [], offline_after_request)
  /\ fetch_nhl_matches_espn (B := utc_host) 19723 offline
     = (Raise service_unavailable, offline_after_request)
  /\ fetch_nfl_matches (B := utc_host) 19723 offline
     = (Raise service_unavailable, offline_after_request)
  /\ fetch_mlb_matches_espn (B := utc_host) 19723 offline
     = (Raise service_unavailable, offline_after_request).
Proof.
  destruct (single_league_failure (B := utc_host) 19723 offline
              service_unavailable offline_after_request)
    as [Hbasket [Hnhl [Hnfl Hmlb]]].
  split; [| split; [| split]].
  - apply Hbasket. left. reflexivity.
  - apply Hnhl. left. reflexivity.
  - apply Hnfl. left. reflexivity.
  - apply Hmlb. left. reflexivity.
Defined.

(** An NHL day whose scoreboard lists the later game first: the stored
    list has the earlier game first. *)
Lemma date_action_run :
  exists matches,
    ud_matches
      (user_data
         (snd (on_button (B := utc_host) (Some "date|today")
                         (session "nhl" None (answering two_games)))))
    = Some matches
    /\ sorted_by_start_time matches
    /\ map match_id matches = ["401"; "402"].
Proof.
  destruct (date_action_stores_sorted_matches
              (B := utc_host) (Some "date|today")
              (session "nhl" None (answering two_games))
              _ _ eq_refl (surjective_pairing _))
    as [_ Hstored].
  destruct (Hstored eq_refl eq_refl) as [matches [Hm [Hsorted _]]].
  exists matches. split; [exact Hm | split; [exact Hsorted |]].
  vm_compute in Hm. injection Hm as <-. reflexivity.
Defined.

(** A lone competitor gives no match; two competitors without tag or
    name give a match between "HOME" and "AWAY", and a scoreboard of
    these two events lists that match alone. *)
Lemma event_normalization_run :
  event_to_match (B := utc_host) "nhl" lone_competitor "nhl" "NHL" = Ok None
  /\ exists m,
      event_to_match (B := utc_host) "nhl" nameless_pair "nhl" "NHL"
      = Ok (Some m)
      /\ match_home m = JStr "HOME"
      /\ match_away m = JStr "AWAY"
      /\ parse_espn_events_to_matches
           (B := utc_host) "nhl"
           (JObj [("events", JArr [lone_competitor; nameless_pair])])
           "nhl" "NHL"
         = Ok [m].
Proof.
  split.
  - apply (event_normalization (B := utc_host) "nhl" lone_competitor "nhl" "NHL").
    right. eexists. split; [reflexivity | simpl; lia].
  - destruct (proj2 (event_normalization (B := utc_host) "nhl" nameless_pair
                                         "nhl" "NHL")
                    [JObj [("team", JObj [("id", JStr "1")])]; JObj []]
                    eq_refl (le_n 2))
      as [m [Hm [Hhome [Haway [_ [_ [_ [_ Hlisted]]]]]]]].
    + repeat constructor.
    + exists m. split; [exact Hm | split; [exact Hhome | split; [exact Haway |]]].
      rewrite (Hlisted [("events", JArr [lone_competitor; nameless_pair])]
                       [lone_competitor] [] eq_refl).
      reflexivity.
Defined.

(** A key put at time 0 is missed at time 61, by the membership test
    and by the read; a put into the full cache drops its first entry;
    after a read of that first entry the put keeps it and drops the
    second one. *)
Lemma cache_run :
  cache_contains 61 "k" (run_ops later_traffic (cache_setitem 0 "k" JNull CACHE))
  = false
  /\ (List.length (run_ops later_traffic CACHE) <= 2048)%nat
  /\ cache_setitem 0 "new" JNull full_cache
     = (tl full_cache
        ++ [{| entry_key := "new"; entry_value := JNull;
               entry_expires := (0 + 60)%Q |}])%list
  /\ cache_setitem 1 "new" JNull (snd (cache_getitem 0 "0" full_cache))
     = (tl (tl full_cache)
        ++ [oldest_entry;
            {| entry_key := "new"; entry_value := JNull;
               entry_expires := (1 + 60)%Q |}])%list
  /\ fst (cache_getitem 61 "k"
            (run_ops later_traffic (cache_setitem 0 "k" JNull CACHE)))
     = Raise KeyError.
Proof.
  destruct (cache_ttl_and_capacity (B := utc_host))
    as [Httl [_ [Hbound [Hlru [Hrecent Hread]]]]].
  split; [| split; [| split; [| split]]].
  - apply Httl; [repeat constructor | reflexivity].
  - apply Hbound.
  - apply Hlru; vm_compute; reflexivity.
  - change full_cache with ([] ++ oldest_entry :: tl full_cache)%list at 1.
    apply (Hrecent 0%Q 1%Q "new" JNull oldest_entry [] (tl full_cache));
      vm_compute; reflexivity.
  - rewrite Hread; [reflexivity | repeat constructor | reflexivity].
Defined.

(** A stale id on a tennis list of one match. *)
Lemma stale_match_run :
  on_button (B := utc_host) (Some "match|999")
            (session "tennis" (Some [sample_match "401"]) offline)
  = (Ok tt,
     replied (session "tennis" (Some [sample_match "401"]) offline)
             [Answer; EditMessageText NOT_FOUND (Some kb_sports)]).
Proof.
  apply (stale_match_not_found (B := utc_host) (Some "match|999")
           (session "tennis" (Some [sample_match "401"]) offline) "999"
           eq_refl eq_refl (or_intror eq_refl)).
Defined.

(** The detail page of an NHL match is sent even with every request
    failing. *)
Lemma detail_page_run :
  exists forms extra w',
    on_button (B := utc_host) (Some "match|401")
              (session "nhl" (Some [sample_match "401"]) offline)
    = (Ok tt,
       {| user_data := user_data (session "nhl" (Some [sample_match "401"]) offline);
          world := w';
          sent :=
            [Answer;
             EditMessageText "📄 Je prépare la fiche…" None;
             EditMessageText
               (String.concat nl
                  (detail_lines (B := utc_host) "nhl" (sample_match "401")
                                (fst forms) (snd forms) extra))
               (Some (detail_markup (Some 0)))] |}).
Proof.
  exact (proj2 (proj2 (proj2 (proj2 (enrichment_fetchers_total (B := utc_host)))))
               (Some "match|401")
               (session "nhl" (Some [sample_match "401"]) offline)
               "401" "nhl" (sample_match "401")
               eq_refl eq_refl eq_refl eq_refl eq_refl).
Defined.

(** Twenty-three matches: page 2 shows the last three, with a way back
    and no way forward; its keyboard has the rows of the matches 20, 21
    and 22, the navigation row and the three closing rows. *)
Lemma page_run :
  List.length (page_chunk twenty_three 2 10) = 3%nat
  /\ In (prev_button 2) (List.concat (kb_matches (B := utc_host) twenty_three 2))
  /\ ~ In (next_button 2) (List.concat (kb_matches (B := utc_host) twenty_three 2))
  /\ map (map button_data) (kb_matches (B := utc_host) twenty_three 2)
     = [["match|20"]; ["noop|x"]; ["match|21"]; ["noop|x"];
        ["match|22"]; ["noop|x"];
        ["page|1"]; ["back|dates"]; ["back|sports"]; ["close|x"]]
  /\ List.length (kb_matches (B := utc_host) twenty_three 2) = 10%nat.
Proof.
  destruct (page_window_and_navigation (B := utc_host) twenty_three 2
              (Z.le_0_2 : 0 <= 2))
    as [Hwindow [_ [Hprev [Hnext [_ [Hrows Hcount]]]]]].
  split; [| split; [| split; [| split]]].
  - rewrite Hwindow. reflexivity.
  - apply Hprev. reflexivity.
  - intros H. apply Hnext in H. vm_compute in H. discriminate H.
  - rewrite Hrows. vm_compute. reflexivity.
  - rewrite Hcount. reflexivity.
Defined.

(** The detail page of a tennis match, with the world untouched. *)
Lemma tennis_detail_run :
  on_button (B := utc_host) (Some "match|401")
            (session "tennis" (Some [sample_match "401"]) offline)
  = (Ok tt,
     replied (session "tennis" (Some [sample_match "401"]) offline)
       [Answer;
        EditMessageText "📄 Je prépare la fiche…" None;
        EditMessageText
          (String.concat nl
             (detail_lines (B := utc_host) "tennis" (sample_match "401")
                           FORM_UNAVAILABLE FORM_UNAVAILABLE []))
          (Some (detail_markup (Some 0)))]).
Proof.
  exact (proj1 (tennis_detail_without_form_fetch
                  (B := utc_host) (Some "match|401")
                  (session "tennis" (Some [sample_match "401"]) offline)
                  "401" (sample_match "401")
                  eq_refl eq_refl eq_refl eq_refl)).
Defined.

(* ================================================================== *)
(** ** Further properties of the fetchers and handlers *)
(* ================================================================== *)

Ltac unbind H :=
  repeat match type of H with
         | rbind ?r _ = _ =>
             let E := fresh "E" in
             destruct r eqn:E; cbn [rbind] in H; [| discriminate H]
         | (if ?b then _ else _) = _ =>
             let E := fresh "E" in
             destruct b eqn:E; [try discriminate H |]
         end.

(** *** What a fetch returns *)

Section Tagging.
Context {B : Builtins}.

Lemma event_to_match_tagged sport ev code name m :
  event_to_match sport ev code name = Ok (Some m) ->
  tagged_with sport code name m.
Proof.
  unfold event_to_match. intros H. unbind H.
  injection H as <-. repeat split.
Qed.

Lemma parse_events_spec sport code name :
  forall events acc ms,
    parse_events sport events code name acc = Ok ms ->
    exists new,
      ms = (acc ++ new)%list
      /\ (List.length new <= List.length events)%nat
      /\ Forall (tagged_with sport code name) new.
Proof.
  induction events as [| ev rest IH]; intros acc ms H; simpl in H.
  - injection H as <-. exists []. rewrite app_nil_r. repeat split; auto.
  - destruct (event_to_match sport ev code name) as [[m |] | e] eqn:E;
      cbn [rbind] in H; [| | discriminate H].
    + destruct (IH _ _ H) as [new [-> [Hlen Hall]]].
      exists (m :: new). rewrite <- app_assoc. repeat split; simpl; [lia|].
      constructor; [| assumption]. now apply event_to_match_tagged with ev.
    + destruct (IH _ _ H) as [new [-> [Hlen Hall]]].
      exists new. repeat split; simpl; auto.
Qed.

Lemma parse_of_sport sport sb code name ms leagues :
  parse_espn_events_to_matches sport sb code name = Ok ms ->
  In (code, name) leagues ->
  Forall (of_sport sport leagues) ms.
Proof.
  unfold parse_espn_events_to_matches. intros H Hin.
  destruct (get_default sb "events" empty_list) as [evs |]; [| discriminate H].
  cbn [rbind] in H.
  destruct (py_iter (py_or evs empty_list)) as [events |]; [| discriminate H].
  cbn [rbind] in H.
  destruct (parse_events_spec _ _ _ _ _ _ H) as [new [-> [_ Hall]]].
  simpl. revert Hall. apply Forall_impl.
  intros m [Hs [Hc Hn]]. split; [assumption|]. now rewrite Hc, Hn.
Qed.

Lemma league_matches_of_sport sport code name outcome leagues :
  In (code, name) leagues ->
  Forall (of_sport sport leagues) (league_matches sport (code, name) outcome).
Proof.
  intros Hin. unfold league_matches. destruct outcome as [sb |]; [| constructor].
  simpl. destruct (parse_espn_events_to_matches sport sb code name) eqn:E;
    [| constructor].
  now apply parse_of_sport with sb code name.
Qed.

Lemma union_of_sport sport all :
  forall leagues outcomes,
    incl leagues all ->
    Forall (of_sport sport all) (union_of sport leagues outcomes).
Proof.
  induction leagues as [| [code name] rest IH]; intros outcomes Hincl;
    [constructor|].
  destruct outcomes as [| outcome outcomes]; [constructor|].
  simpl. apply Forall_app. split.
  - apply league_matches_of_sport. apply Hincl. now left.
  - apply IH. intros x Hx. apply Hincl. now right.
Qed.

Lemma multi_league_of_sport sport leagues dt w ms w' :
  for_each leagues (fetch_league sport dt) [] w = (Ok ms, w') ->
  Forall (of_sport sport leagues) ms.
Proof.
  intros H.
  destruct (for_each_league sport dt leagues [] w) as [outcomes [w1 [_ Heq]]].
  rewrite Heq in H. injection H as <- _. simpl.
  apply union_of_sport. apply incl_refl.
Qed.

Lemma single_league_of_sport sport_path sport code name dt w ms w' :
  bind (espn_scoreboard sport_path code dt)
       (fun sb => pure_result (parse_espn_events_to_matches sport sb code name)) w
  = (Ok ms, w') ->
  Forall (of_sport sport [(code, name)]) ms.
Proof.
  unfold bind, pure_result.
  destruct (espn_scoreboard sport_path code dt w) as [[sb |] w1];
    [| discriminate].
  intros H. injection H as H _.
  apply parse_of_sport with sb code name; [assumption | now left].
Qed.

Lemma fetch_matches_of_sport sport basket_league dt w ms w' :
  fetch_matches sport basket_league dt w = (Ok ms, w') ->
  Forall (of_sport sport (leagues_of sport basket_league)) ms.
Proof.
  unfold fetch_matches, leagues_of.
  destruct (sport =? "soccer")%string eqn:E1.
  { apply String.eqb_eq in E1. subst. apply multi_league_of_sport. }
  destruct (sport =? "basketball")%string eqn:E2.
  { apply String.eqb_eq in E2. subst.
    destruct (match basket_league with Some cn => cn | None => ("nba", "NBA") end)
      as [code name].
    unfold fetch_basket_matches, try_except. intros H.
    match type of H with
    | (match ?body w with _ => _ end) = _ =>
        destruct (body w) as [[ms0 |] w1] eqn:Hb
    end.
    - injection H as <- _. now apply single_league_of_sport in Hb.
    - unfold ret in H. injection H as <- _. constructor. }
  destruct (sport =? "tennis")%string eqn:E3.
  { apply String.eqb_eq in E3. subst. apply multi_league_of_sport. }
  destruct (sport =? "nhl")%string eqn:E4.
  { apply String.eqb_eq in E4. subst. apply single_league_of_sport. }
  destruct (sport =? "nfl")%string eqn:E5.
  { apply String.eqb_eq in E5. subst. apply single_league_of_sport. }
  destruct (sport =? "mlb")%string eqn:E6.
  { apply String.eqb_eq in E6. subst. apply single_league_of_sport. }
  unfold ret. intros H. injection H as <- _. constructor.
Qed.

(** X1. Every match the [date] action fetches for a sport carries that
    sport's key, and the code and name of one of the leagues the sport's
    pipeline queries (for basketball the chosen league, the NBA when none
    was chosen). *)
Theorem fetched_matches_belong_to_sport
        (sport : string) (basket_league : option (string * string)) (dt : Z)
        (w w' : World) (ms : list Match) :
  fetch_matches sport basket_league dt w = (Ok ms, w') ->
  Forall (fun m =>
            match_sport m = sport
            /\ In (match_league m, match_league_name m)
                  (leagues_of sport basket_league))
         ms.
Proof. apply fetch_matches_of_sport. Qed.

End Tagging.

(** *** What a session keeps *)

Section SessionInvariant.
Context {B : Builtins}.

Lemma on_date_user_data parts c r c' :
  on_date parts c = (r, c') ->
  ud_sport (user_data c') = ud_sport (user_data c)
  /\ (ud_matches (user_data c') = ud_matches (user_data c)
      \/ exists s dt w fetched w1 matches,
           ud_sport (user_data c) = Some s
           /\ fetch_matches s (ud_basket_league (user_data c)) dt w
              = (Ok fetched, w1)
           /\ Permutation fetched matches
           /\ ud_matches (user_data c') = Some matches).
Proof.
  unfold on_date, hbind, read_user_data.
  destruct (no_sport (ud_sport (user_data c))) eqn:Hsport.
  - unfold edit_message_text, send. intros H. inversion H; subst; simpl. auto.
  - unfold now_or_raise at 1.
    destruct (second_part parts) as [choice | e].
    2:{ intros H. inversion H; subst. auto. }
    unfold await at 1, datetime_now_utc, write_user_data, edit_message_text, send.
    cbn [user_data world sent].
    unfold await. cbn [user_data world sent].
    destruct (ud_sport (user_data c)) as [s |] eqn:Hs; [| discriminate Hsport].
    match goal with
    | |- context [fetch_matches ?s ?b ?d ?w] =>
        destruct (fetch_matches s b d w) as [[fetched | e] w1] eqn:Hf
    end.
    2:{ intros H. inversion H; subst. simpl. auto. }
    unfold now_or_raise.
    destruct (py_sort match_start_time fetched) as [matches | e] eqn:Hsort.
    2:{ intros H. inversion H; subst. simpl. auto. }
    destruct (py_sort_spec fetched matches Hsort) as [_ Hperm].
    destruct matches as [| m ms]; intros H; inversion H; subst;
      cbn [user_data world sent set_matches set_page set_date_choice
           ud_matches ud_sport];
      (split; [assumption |]); right; repeat eexists; eassumption.
Qed.

Lemma on_date_invariant parts c r c' :
  on_date parts c = (r, c') ->
  session_invariant (user_data c) -> session_invariant (user_data c').
Proof.
  intros Hrun [Hsorted Htagged]. split.
  - now apply (proj1 (on_date_sorted _ _ _ _ Hrun)).
  - destruct (on_date_user_data _ _ _ _ Hrun) as [Hs [Hm | Hm]].
    + unfold stored_of_sport in *. now rewrite Hm, Hs.
    + destruct Hm as [s [dt [w [fetched [w1 [matches [Hsp [Hf [Hp Hm]]]]]]]]].
      unfold stored_of_sport. rewrite Hm, Hs. exists s. split; [assumption|].
      apply (Permutation_Forall Hp).
      apply fetch_matches_of_sport in Hf.
      revert Hf. apply Forall_impl. now intros m [H _].
Qed.

Lemma invariant_cleared : session_invariant cleared.
Proof. split; exact I. Qed.

Lemma invariant_without_matches u :
  ud_matches u = None -> session_invariant u.
Proof. intros H. unfold session_invariant, stored_sorted, stored_of_sport. now rewrite H. Qed.

Lemma invariant_same u u' :
  ud_matches u' = ud_matches u -> ud_sport u' = ud_sport u ->
  session_invariant u -> session_invariant u'.
Proof.
  unfold session_invariant, stored_sorted, stored_of_sport.
  now intros -> ->.
Qed.

Lemma on_button_keeps_invariant data c :
  session_invariant (user_data c) ->
  session_invariant (user_data (snd (on_button data c))).
Proof.
  intros Hinv. unfold on_button, hbind, send.
  set (c0 := {| user_data := user_data c; world := world c;
                sent := (sent c ++ [Answer])%list |}).
  assert (H0 : session_invariant (user_data c0)) by exact Hinv.
  clearbody c0. clear Hinv c.
  destruct (callback_action data =? "noop")%string; [exact H0|].
  destruct (callback_action data =? "close")%string; [exact H0|].
  destruct (callback_action data =? "back")%string.
  { unfold on_back, hbind, now_or_raise.
    destruct (second_part (callback_parts data)) as [dest |]; [| exact H0].
    destruct (dest =? "sports")%string; [apply invariant_cleared|].
    destruct (dest =? "dates")%string; exact H0. }
  destruct (callback_action data =? "sport")%string.
  { unfold on_sport, hbind, now_or_raise.
    destruct (second_part (callback_parts data)) as [sport |]; [| exact H0].
    cbn. destruct (sport =? "basketball")%string;
      now apply invariant_without_matches. }
  destruct (callback_action data =? "bleague")%string.
  { unfold on_bleague, hbind, now_or_raise.
    destruct (second_part (callback_parts data)) as [code |]; [| exact H0].
    cbn. now apply (invariant_same (user_data c0)). }
  destruct (callback_action data =? "date")%string.
  { destruct (on_date (callback_parts data) c0) as [r c'] eqn:E.
    now apply (on_date_invariant _ _ _ _ E). }
  destruct (callback_action data =? "page")%string.
  { unfold on_page, hbind, now_or_raise.
    destruct (second_part (callback_parts data)) as [p |]; [| exact H0].
    destruct (py_int (JStr p)) as [page |]; [| exact H0].
    cbn. now apply (invariant_same (user_data c0)). }
  destruct (callback_action data =? "match")%string; [| exact H0].
  unfold on_match, hbind, read_user_data, now_or_raise.
  destruct (second_part (callback_parts data)) as [wanted |]; [| exact H0].
  cbn [user_data].
  destruct (no_sport (ud_sport (user_data c0))); [exact H0|].
  destruct (ud_sport (user_data c0)) as [sport |]; [| exact H0].
  destruct (pick (stored_matches (user_data c0)) wanted) as [picked |];
    [| exact H0].
  unfold edit_message_text, send, await. cbn [user_data world sent].
  destruct (detail_forms sport picked (world c0)) as [[forms |] w1];
    cbn [user_data world sent]; [| exact H0].
  destruct (detail_extras sport wanted w1) as [[extra |] w2]; exact H0.
Qed.

Lemma handle_keeps_invariant up state :
  session_invariant (user_data (fst state)) ->
  session_invariant (user_data (fst (handle up state))).
Proof.
  destruct state as [c replies]. destruct up; simpl.
  - auto.
  - intros _. apply invariant_cleared.
  - apply on_button_keeps_invariant.
Qed.

Lemma run_session_keeps_invariant ups :
  forall state,
    session_invariant (user_data (fst state)) ->
    session_invariant (user_data (fst (run_session ups state))).
Proof.
  induction ups as [| up rest IH]; intros state H; simpl; [assumption|].
  apply IH. now apply handle_keeps_invariant.
Qed.

Lemma run_session_app ups1 ups2 state :
  run_session (ups1 ++ ups2) state = run_session ups2 (run_session ups1 state).
Proof.
  revert state. induction ups1 as [| up rest IH]; intros state; simpl; auto.
Qed.

(** X2. Once [/menu] was handled, whatever updates came before and come
    after it ([/start], [/menu], any callback data, handled to their end
    or left by an exception), the stored list, when there is one, is
    sorted by start time and holds matches of the stored sport only. *)
Theorem lists_stay_sorted_and_of_sport (before after : list Update)
        (state : Ctx * list Reply) :
  session_invariant
    (user_data (fst (run_session (before ++ MenuCommand :: after) state))).
Proof.
  rewrite run_session_app. simpl run_session.
  apply run_session_keeps_invariant.
  destruct (run_session before state) as [c replies]. simpl.
  apply invariant_cleared.
Qed.

End SessionInvariant.

Ltac no_unknown :=
  let H := fresh "H" in
  intros H; unfold unknown_reply, UNKNOWN_COMMAND in H; simpl in H;
  repeat (destruct H as [H | H]; [discriminate H |]); exact H.

(** *** Callback data and the buttons that carry it *)

Section Callbacks.
Context {B : Builtins}.

Lemma on_date_messages parts c :
  exists rest,
    sent (snd (on_date parts c)) = (sent c ++ rest)%list
    /\ ~ In unknown_reply rest.
Proof.
  unfold on_date, hbind, read_user_data.
  destruct (no_sport (ud_sport (user_data c))) eqn:Hsport.
  - simpl. eexists. split; [reflexivity | no_unknown].
  - unfold now_or_raise at 1.
    destruct (second_part parts) as [choice | e].
    2:{ exists []. simpl. rewrite app_nil_r. auto. }
    unfold await at 1, datetime_now_utc, write_user_data, edit_message_text, send.
    cbn [user_data world sent].
    unfold await. cbn [user_data world sent].
    match goal with
    | |- context [fetch_matches ?s ?b ?d ?w] =>
        destruct (fetch_matches s b d w) as [[fetched | e] w1]
    end.
    2:{ simpl. eexists. split; [reflexivity | no_unknown]. }
    unfold now_or_raise.
    destruct (py_sort match_start_time fetched) as [[| m ms] | e];
      cbn [snd sent]; rewrite <- ?app_assoc; eexists;
      (split; [reflexivity | no_unknown]).
Qed.

Lemma on_match_messages parts c :
  exists rest,
    sent (snd (on_match parts c)) = (sent c ++ rest)%list
    /\ ~ In unknown_reply rest.
Proof.
  unfold on_match, hbind, read_user_data, now_or_raise.
  destruct (second_part parts) as [wanted |].
  2:{ exists []. simpl. rewrite app_nil_r. auto. }
  cbn [user_data].
  assert (G : exists rest,
             sent (snd (edit_message_text NOT_FOUND (Some kb_sports) c))
             = (sent c ++ rest)%list /\ ~ In unknown_reply rest).
  { simpl. eexists. split; [reflexivity | no_unknown]. }
  destruct (no_sport (ud_sport (user_data c))); [exact G|].
  destruct (ud_sport (user_data c)) as [sport |]; [| exact G].
  destruct (pick (stored_matches (user_data c)) wanted) as [picked |];
    [| exact G].
  unfold edit_message_text, send, await. cbn [user_data world sent].
  destruct (detail_forms sport picked (world c)) as [[forms |] w1];
    cbn [user_data world sent snd].
  2:{ eexists. split; [reflexivity | no_unknown]. }
  destruct (detail_extras sport wanted w1) as [[extra |] w2];
    cbn [user_data world sent snd]; rewrite <- ?app_assoc; eexists;
    (split; [reflexivity | no_unknown]).
Qed.

Lemma on_button_messages data c :
  exists rest,
    sent (snd (on_button data c)) = (sent c ++ Answer :: rest)%list
    /\ (In unknown_reply rest -> unhandled data = true).
Proof.
  unfold on_button, hbind, send, unhandled.
  set (c0 := {| user_data := user_data c; world := world c;
                sent := (sent c ++ [Answer])%list |}).
  assert (G : forall c' P,
             (exists rest, sent c' = (sent c0 ++ rest)%list
                           /\ ~ In unknown_reply rest) ->
             exists rest, sent c' = (sent c ++ Answer :: rest)%list
                          /\ (In unknown_reply rest -> P)).
  { intros c' P [rest [H Hn]]. exists rest. rewrite H. unfold c0. simpl.
    rewrite <- app_assoc. split; [reflexivity | tauto]. }
  assert (G0 : exists rest, sent c0 = (sent c0 ++ rest)%list
                            /\ ~ In unknown_reply rest)
    by (exists []; rewrite app_nil_r; auto).
  assert (Hc0 : sent c0 = (sent c ++ [Answer])%list) by reflexivity.
  clearbody c0.
  assert (G1 : forall u w text markup,
             exists rest,
               sent {| user_data := u; world := w;
                       sent := (sent c0 ++ [EditMessageText text (Some markup)])%list |}
               = (sent c0 ++ rest)%list /\ ~ In unknown_reply rest).
  { intros. eexists. split; [reflexivity | no_unknown]. }
  simpl existsb.
  destruct (callback_action data =? "noop")%string; [apply G, G0|].
  destruct (callback_action data =? "close")%string.
  { apply G. simpl. eexists. split; [reflexivity | no_unknown]. }
  destruct (callback_action data =? "back")%string.
  { unfold on_back, hbind, now_or_raise.
    destruct (second_part (callback_parts data)) as [dest |]; [| apply G, G0].
    destruct (dest =? "sports")%string; [apply G, G1|].
    destruct (dest =? "dates")%string; [apply G, G1|].
    simpl. rewrite Hc0, <- app_assoc. eexists. split; [reflexivity | auto]. }
  destruct (callback_action data =? "sport")%string.
  { unfold on_sport, hbind, now_or_raise.
    destruct (second_part (callback_parts data)) as [sport |]; [| apply G, G0].
    cbn. destruct (sport =? "basketball")%string; apply G, G1. }
  destruct (callback_action data =? "bleague")%string.
  { unfold on_bleague, hbind, now_or_raise.
    destruct (second_part (callback_parts data)) as [code |]; [| apply G, G0].
    apply G, G1. }
  destruct (callback_action data =? "date")%string;
    [apply G, on_date_messages|].
  destruct (callback_action data =? "page")%string.
  { unfold on_page, hbind, now_or_raise.
    destruct (second_part (callback_parts data)) as [p |]; [| apply G, G0].
    destruct (py_int (JStr p)) as [page |]; [| apply G, G0].
    apply G, G1. }
  destruct (callback_action data =? "match")%string;
    [apply G, on_match_messages|].
  simpl. rewrite Hc0, <- app_assoc. eexists. split; [reflexivity | auto].
Qed.

(** X3. Whatever the callback data, and whether [on_button] returns or
    raises, the first thing it sends is the answer to the callback query;
    what was sent before is kept. *)
Theorem callback_always_answered data c :
  exists rest, sent (snd (on_button data c)) = (sent c ++ Answer :: rest)%list.
Proof.
  destruct (on_button_messages data c) as [rest [H _]]. now exists rest.
Qed.

(** X4. Only the [date] and [match] actions touch the world: any other
    callback leaves the cache, the clock and the network as they were. *)
Theorem navigation_makes_no_request data c :
  (callback_action data =? "date")%string = false ->
  (callback_action data =? "match")%string = false ->
  world (snd (on_button data c)) = world c.
Proof.
  intros Hd Hm. unfold on_button, hbind, send. rewrite Hd, Hm.
  cbn [user_data world sent].
  destruct (callback_action data =? "noop")%string; [reflexivity|].
  destruct (callback_action data =? "close")%string; [reflexivity|].
  destruct (callback_action data =? "back")%string.
  { unfold on_back, hbind, now_or_raise.
    destruct (second_part (callback_parts data)) as [dest |]; [| reflexivity].
    destruct (dest =? "sports")%string; [reflexivity|].
    destruct (dest =? "dates")%string; reflexivity. }
  destruct (callback_action data =? "sport")%string.
  { unfold on_sport, hbind, now_or_raise.
    destruct (second_part (callback_parts data)) as [sport |]; [| reflexivity].
    cbn. destruct (sport =? "basketball")%string; reflexivity. }
  destruct (callback_action data =? "bleague")%string.
  { unfold on_bleague, hbind, now_or_raise.
    destruct (second_part (callback_parts data)) as [code |]; reflexivity. }
  destruct (callback_action data =? "page")%string; [| reflexivity].
  unfold on_page, hbind, now_or_raise.
  destruct (second_part (callback_parts data)) as [p |]; [| reflexivity].
  destruct (py_int (JStr p)) as [page |]; reflexivity.
Qed.

Lemma split_on_cons sep s : exists p ps, split_on sep s = p :: ps.
Proof.
  induction s as [| c rest [p [ps IH]]]; simpl; [now eexists _, _|].
  destruct (Ascii.eqb c sep); [now eexists _, _|].
  rewrite IH. now eexists _, _.
Qed.

Lemma split_on_no_sep sep s : has_sep sep s = false -> split_on sep s = [s].
Proof.
  induction s as [| c rest IH]; simpl; [reflexivity|].
  intros H. apply orb_false_iff in H. destruct H as [Hc Hrest].
  rewrite Hc, (IH Hrest). reflexivity.
Qed.

Lemma first_segment_whole sep s :
  hd "" (split_on sep s) = s <-> has_sep sep s = false.
Proof.
  split; [| intros H; now rewrite (split_on_no_sep sep s H)].
  induction s as [| c rest IH]; simpl; [reflexivity|].
  destruct (Ascii.eqb c sep); simpl; [discriminate|].
  destruct (split_on_cons sep rest) as [p [ps E]]. rewrite E in *. simpl in *.
  intros H. injection H as H. now apply IH.
Qed.

Lemma match_callback_decodes (id : string) :
  callback_action (Some ("match|" ++ id)) = "match"
  /\ second_part (callback_parts (Some ("match|" ++ id)))
     = Ok (hd "" (split_on "|" id)).
Proof.
  unfold callback_action, callback_parts, second_part. simpl.
  destruct (split_on_cons "|" id) as [p [ps E]]. rewrite E. simpl. auto.
Qed.

Lemma pick_listed (l : list Match) (m : Match) :
  In m l ->
  exists picked, pick l (match_id m) = Some picked
                 /\ match_id picked = match_id m.
Proof.
  intros Hin. unfold pick.
  destruct (find (fun m0 => (match_id m0 =? match_id m)%string) l) as [p |] eqn:E.
  - exists p. split; [reflexivity|]. apply find_some in E.
    now apply String.eqb_eq.
  - apply (find_none _ _ E) in Hin. simpl in Hin.
    now rewrite String.eqb_refl in Hin.
Qed.

Lemma detail_page_sent data c wanted sport picked :
  callback_action data = "match" ->
  second_part (callback_parts data) = Ok wanted ->
  ud_sport (user_data c) = Some sport ->
  no_sport (Some sport) = false ->
  pick (stored_matches (user_data c)) wanted = Some picked ->
  exists forms extra w',
    on_button data c
    = (Ok tt,
       {| user_data := user_data c;
          world := w';
          sent :=
            (sent c
             ++ [Answer;
                 EditMessageText "📄 Je prépare la fiche…" None;
                 EditMessageText
                   (String.concat nl
                      (detail_lines sport picked (fst forms) (snd forms) extra))
                   (Some (detail_markup (ud_page (user_data c))))])%list |}).
Proof.
  intros Hact Hid Hsport Hsel Hpick.
  rewrite (on_button_match data c Hact).
  unfold on_match, hbind, read_user_data, now_or_raise. rewrite Hid.
  cbn [answered user_data]. rewrite Hsport, Hsel, Hpick.
  unfold edit_message_text, send, await, answered. cbn [user_data world sent].
  destruct (detail_forms_total sport picked (world c)) as [forms [w1 Hf]].
  rewrite Hf. cbn [user_data world sent].
  destruct (detail_extras_total sport wanted w1) as [extra [w2 He]].
  rewrite He. cbn [user_data world sent].
  exists forms, extra, w2. now rewrite <- !app_assoc.
Qed.

Lemma chunk_button_rendered (ms : list Match) (m : Match) :
  In m ms ->
  exists label,
    In (InlineKeyboardButton label ("match|" ++ match_id m))
       (List.concat (flat_map match_rows ms)).
Proof.
  induction ms as [| x ms IH]; intros H; [contradiction|].
  destruct H as [-> | H].
  - eexists. simpl. left. reflexivity.
  - destruct (IH H) as [label Hl]. exists label. simpl. right. right. exact Hl.
Qed.

(** X5. A match of the stored list that falls in the window of a page
    has a button on that page whose data is the word match, a bar and
    its id; the data reads back as the id exactly when the id holds no
    bar; and for such an id pressing the button sends the detail page of
    a stored match with that id. *)
Theorem match_button_opens_its_match (c : Ctx) (sport : string) (m : Match) :
  ud_sport (user_data c) = Some sport ->
  no_sport (Some sport) = false ->
  In m (stored_matches (user_data c)) ->
  (forall page,
      In m (page_chunk (stored_matches (user_data c)) page 10) ->
      exists label,
        In (InlineKeyboardButton label ("match|" ++ match_id m))
           (List.concat (kb_matches (stored_matches (user_data c)) page)))
  /\ (second_part (callback_parts (Some ("match|" ++ match_id m)))
      = Ok (match_id m)
      <-> has_sep "|" (match_id m) = false)
  /\ (has_sep "|" (match_id m) = false ->
      exists picked forms extra w',
        pick (stored_matches (user_data c)) (match_id m) = Some picked
        /\ match_id picked = match_id m
        /\ on_button (Some ("match|" ++ match_id m)) c
           = (Ok tt,
              {| user_data := user_data c;
                 world := w';
                 sent :=
                   (sent c
                    ++ [Answer;
                        EditMessageText "📄 Je prépare la fiche…" None;
                        EditMessageText
                          (String.concat nl
                             (detail_lines sport picked (fst forms) (snd forms)
                                           extra))
                          (Some (detail_markup (ud_page (user_data c))))])%list
              |})).
Proof.
  intros Hsport Hsel Hin.
  destruct (match_callback_decodes (match_id m)) as [Hact Hid].
  split; [| split].
  - intros page Hpage.
    destruct (chunk_button_rendered _ m Hpage) as [label Hl].
    exists label. rewrite kb_matches_buttons. apply in_or_app. now left.
  - rewrite Hid. split.
    + intros H. injection H as H. now apply first_segment_whole in H.
    + intros H. f_equal. now apply first_segment_whole.
  - intros Hno.
    destruct (pick_listed _ m Hin) as [picked [Hpick Hsame]].
    assert (Hid' : second_part (callback_parts (Some ("match|" ++ match_id m)))
                   = Ok (match_id m)).
    { rewrite Hid. f_equal. now apply first_segment_whole. }
    destruct (detail_page_sent _ c _ sport picked Hact Hid' Hsport Hsel Hpick)
      as [forms [extra [w' H]]].
    now exists picked, forms, extra, w'.
Qed.

Lemma prefixed_callback_action (action rest : string) :
  has_sep "|" action = false ->
  callback_action (Some (action ++ "|" ++ rest)) = action.
Proof.
  intros H. unfold callback_action, callback_parts.
  induction action as [| c a IH]; simpl in *.
  - reflexivity.
  - apply orb_false_iff in H. destruct H as [Hc Ha]. rewrite Hc.
    specialize (IH Ha).
    destruct (split_on_cons "|" (a ++ String "|" rest)) as [p [ps E]].
    rewrite E in *. simpl in *. now rewrite IH.
Qed.

Lemma match_data_handled id : unhandled (Some ("match|" ++ id)) = false.
Proof.
  unfold unhandled. change ("match|" ++ id) with ("match" ++ "|" ++ id).
  rewrite (prefixed_callback_action "match" id eq_refl). reflexivity.
Qed.

Lemma page_data_handled s : unhandled (Some ("page|" ++ s)) = false.
Proof.
  unfold unhandled. change ("page|" ++ s) with ("page" ++ "|" ++ s).
  rewrite (prefixed_callback_action "page" s eq_refl). reflexivity.
Qed.

Lemma rendered_handled b : rendered b -> unhandled (Some (button_data b)) = false.
Proof.
  intros [H | [H | [H | [[ms [page H]] | [[page H] | H]]]]].
  - simpl in H. repeat (destruct H as [H | H]; [subst b; reflexivity |]).
    contradiction.
  - simpl in H. repeat (destruct H as [H | H]; [subst b; reflexivity |]).
    contradiction.
  - simpl in H. repeat (destruct H as [H | H]; [subst b; reflexivity |]).
    contradiction.
  - rewrite kb_matches_buttons in H. rewrite !in_app_iff in H.
    destruct H as [H | [H | H]].
    + apply match_rows_data in H. destruct H as [[m H] | H]; rewrite H.
      * apply match_data_handled.
      * reflexivity.
    + unfold nav_row in H. apply in_app_or in H.
      destruct H as [H | H].
      * destruct (0 <? page); simpl in H; [| contradiction].
        destruct H as [<- | []]. apply page_data_handled.
      * destruct (page * 10 + 10 <? _); simpl in H; [| contradiction].
        destruct H as [<- | []]. apply page_data_handled.
    + simpl in H. repeat (destruct H as [H | H]; [subst b; reflexivity |]).
      contradiction.
  - simpl in H. destruct H as [<- | [<- | []]].
    + apply page_data_handled.
    + reflexivity.
  - simpl in H. destruct H as [<- | []]. reflexivity.
Qed.

(** X6. No keyboard the program sends holds a dead button: pressing any
    button of the sports, dates, basketball, match-list or detail
    keyboards is answered and never replied to with the
    unknown-command message. *)
Theorem rendered_buttons_are_handled (b : Button) (c : Ctx) :
  rendered b ->
  exists rest,
    sent (snd (on_button (Some (button_data b)) c))
    = (sent c ++ Answer :: rest)%list
    /\ ~ In unknown_reply rest.
Proof.
  intros H. destruct (on_button_messages (Some (button_data b)) c)
    as [rest [Hs Hu]].
  exists rest. split; [assumption|]. intros Hin.
  rewrite (rendered_handled b H) in Hu. now discriminate Hu.
Qed.

(** X7. The unknown-command message is the reply exactly to the data no
    branch handles: an action outside the seven known ones, or [back] to
    a destination other than [sports] and [dates]; for these the handler
    returns and changes nothing else.  For any other data the message is
    never sent. *)
Theorem unknown_command_exactly_when_unhandled (data : option string) (c : Ctx) :
  (unhandled data = true ->
   on_button data c = (Ok tt, replied c [Answer; unknown_reply]))
  /\ (unhandled data = false ->
      exists rest,
        sent (snd (on_button data c)) = (sent c ++ Answer :: rest)%list
        /\ ~ In unknown_reply rest).
Proof.
  split.
  - unfold unhandled. intros H. unfold on_button, hbind, send.
    destruct (callback_action data =? "back")%string eqn:Eb.
    + apply String.eqb_eq in Eb. rewrite Eb. cbn [String.eqb Ascii.eqb Bool.eqb].
      unfold on_back, hbind, now_or_raise.
      destruct (second_part (callback_parts data)) as [dest |];
        [| discriminate H].
      apply negb_true_iff in H. apply orb_false_iff in H.
      destruct H as [Hs Hd]. rewrite Hs, Hd.
      unfold edit_message_text, send, replied. simpl.
      now rewrite <- app_assoc.
    + simpl in H. apply negb_true_iff in H.
      repeat (apply orb_false_iff in H;
              let E := fresh "E" in destruct H as [E H]; rewrite ?E).
      unfold edit_message_text, send, replied. simpl.
      now rewrite <- app_assoc.
  - intros H. destruct (on_button_messages data c) as [rest [Hs Hu]].
    exists rest. split; [assumption|]. intros Hin.
    rewrite H in Hu. now discriminate Hu.
Qed.

End Callbacks.

(** *** Pages of any number *)

Section Paging.
Context {B : Builtins}.

(** X8. Whatever the page number, negative ones included, a page lists
    at most ten matches and its keyboard has at most twenty-four rows. *)
Theorem page_never_exceeds_ten (matches : list Match) (page : Z) :
  (List.length (page_chunk matches page 10) <= 10)%nat
  /\ (List.length (kb_matches matches page) <= 24)%nat.
Proof.
  assert (Hchunk : (List.length (page_chunk matches page 10) <= 10)%nat).
  { unfold page_chunk, py_slice, slice_bound.
    set (len := Z.of_nat (List.length matches)).
    rewrite length_firstn.
    destruct (page * 10 <? 0) eqn:E1; destruct (page * 10 + 10 <? 0) eqn:E2;
      try apply Z.ltb_lt in E1; try apply Z.ltb_ge in E1;
      try apply Z.ltb_lt in E2; try apply Z.ltb_ge in E2; lia. }
  split; [exact Hchunk|].
  unfold kb_matches, kb_matches_sized. rewrite !length_app.
  assert (Hrows : forall ms,
             List.length (flat_map match_rows ms) = (2 * List.length ms)%nat).
  { induction ms as [| m ms IH]; simpl; [reflexivity | lia]. }
  rewrite Hrows.
  destruct (nav_row (Z.of_nat (List.length matches)) page 10); simpl; lia.
Qed.

Lemma firstn_plus {A} (a b : nat) :
  forall l : list A, firstn (a + b) l = (firstn a l ++ firstn b (skipn a l))%list.
Proof.
  induction a as [| a IH]; intros l; simpl; [reflexivity|].
  destruct l as [| x l]; simpl.
  - now rewrite firstn_nil.
  - now rewrite IH.
Qed.

Lemma pages_up_to (matches : list Match) (n : nat) :
  flat_map (fun p => page_chunk matches (Z.of_nat p) 10) (seq 0 n)
  = firstn (10 * n) matches.
Proof.
  induction n as [| n IH]; [reflexivity|].
  rewrite seq_S, flat_map_app, IH. simpl flat_map. rewrite app_nil_r.
  rewrite page_chunk_window by lia.
  replace (10 * S n)%nat with (10 * n + 10)%nat by lia.
  rewrite firstn_plus. do 3 f_equal. lia.
Qed.

(** X9. The pages 0, 1, ..., n-1 put end to end are the stored list,
    each match once and in order, as soon as 10 n reaches its length. *)
Theorem pages_cover_the_list (matches : list Match) (n : nat) :
  (List.length matches <= 10 * n)%nat ->
  flat_map (fun p => page_chunk matches (Z.of_nat p) 10) (seq 0 n) = matches.
Proof.
  intros H. rewrite pages_up_to. now apply firstn_all2.
Qed.

(** X10. A negative page number is not refused: page -1 is empty, a
    page p <= -2 within the list shows the ten matches starting
    10 |p| before the end, and no previous button is shown. *)
Theorem negative_pages_count_from_the_end (matches : list Match) (page : Z) :
  page < 0 ->
  (page = -1 \/ Z.of_nat (List.length matches) <= - (page * 10 + 10) ->
   page_chunk matches page 10 = [])
  /\ (- (page * 10) <= Z.of_nat (List.length matches) ->
      page <= -2 ->
      page_chunk matches page 10
      = firstn 10
               (skipn (Z.to_nat (Z.of_nat (List.length matches) + page * 10))
                      matches))
  /\ ~ In (prev_button page) (List.concat (kb_matches matches page)).
Proof.
  intros Hneg. set (len := Z.of_nat (List.length matches)). split; [| split].
  - intros H. unfold page_chunk, py_slice, slice_bound. fold len.
    destruct (page * 10 <? 0) eqn:E1; [| apply Z.ltb_ge in E1; lia].
    destruct (page * 10 + 10 <? 0) eqn:E2;
      [apply Z.ltb_lt in E2 | apply Z.ltb_ge in E2].
    + match goal with
      | |- firstn ?n _ = _ => replace n with 0%nat by lia
      end. reflexivity.
    + match goal with
      | |- firstn ?n _ = _ => replace n with 0%nat by lia
      end. reflexivity.
  - intros Hlen Hp. unfold page_chunk, py_slice, slice_bound. fold len.
    destruct (page * 10 <? 0) eqn:E1; [| apply Z.ltb_ge in E1; lia].
    destruct (page * 10 + 10 <? 0) eqn:E2; [| apply Z.ltb_ge in E2; lia].
    rewrite !Z.max_r by lia. f_equal; [lia | f_equal; lia].
  - rewrite prev_iff. lia.
Qed.

End Paging.

(** *** The loop of the recent form *)

Section FormLoop.
Context {B : Builtins}.

Lemma form_results_cons ev rest team acc :
  form_results (ev :: rest) team acc
  = rbind (form_line ev team)
          (fun r =>
             match r with
             | None => form_results rest team acc
             | Some line =>
                 if (5 <=? List.length (acc ++ [line]))%nat
                 then Ok (acc ++ [line])%list
                 else form_results rest team (acc ++ [line])%list
             end).
Proof. reflexivity. Qed.

Lemma form_results_grows team :
  forall events acc rs,
    form_results events team acc = Ok rs ->
    (List.length acc <= List.length rs)%nat
    /\ (List.length rs <= Nat.max 5 (S (List.length acc)))%nat.
Proof.
  induction events as [| ev rest IH]; intros acc rs H.
  - injection H as <-. lia.
  - rewrite form_results_cons in H.
    destruct (form_line ev team) as [[line |] |]; cbn [rbind] in H;
      [| now apply IH | discriminate H].
    destruct (5 <=? List.length (acc ++ [line]))%nat eqn:E.
    + injection H as <-. apply Nat.leb_le in E.
      rewrite length_app in *. change (List.length [line]) with 1%nat in *. lia.
    + apply Nat.leb_gt in E. apply IH in H.
      rewrite length_app in *. change (List.length [line]) with 1%nat in *. lia.
Qed.

Lemma form_results_full team :
  forall events acc rs more,
    form_results events team acc = Ok rs ->
    (List.length acc < 5)%nat ->
    (5 <= List.length rs)%nat ->
    form_results (events ++ more) team acc = Ok rs.
Proof.
  induction events as [| ev rest IH]; intros acc rs more H Hacc Hfull.
  - injection H as <-. lia.
  - rewrite <- app_comm_cons. rewrite form_results_cons in *.
    destruct (form_line ev team) as [[line |] |]; cbn [rbind] in *;
      [| now apply IH | discriminate H].
    destruct (5 <=? List.length (acc ++ [line]))%nat eqn:E; [assumption|].
    apply IH; [assumption | | assumption].
    now apply Nat.leb_gt in E.
Qed.

Lemma form_results_continues team :
  forall events acc rs more,
    form_results events team acc = Ok rs ->
    (List.length rs < 5)%nat ->
    form_results (events ++ more) team acc = form_results more team rs.
Proof.
  induction events as [| ev rest IH]; intros acc rs more H Hlen.
  - now injection H as <-.
  - rewrite <- app_comm_cons. rewrite form_results_cons in *.
    destruct (form_line ev team) as [[line |] |]; cbn [rbind] in *;
      [| now apply IH | discriminate H].
    destruct (5 <=? List.length (acc ++ [line]))%nat eqn:E.
    + injection H as <-. apply Nat.leb_le in E. lia.
    + now apply IH.
Qed.

(** X11. The form loop collects at most five results, and once it has
    five it reads no further: events after them, malformed ones
    included, change nothing. *)
Theorem recent_form_stops_at_five (events : list json) (team_id : string)
        (results : list string) :
  form_results events team_id [] = Ok results ->
  (List.length results <= 5)%nat
  /\ (List.length results = 5%nat ->
      forall more, form_results (events ++ more) team_id [] = Ok results).
Proof.
  intros H. destruct (form_results_grows _ _ _ _ H) as [_ Hle].
  simpl in Hle. split; [lia|].
  intros Hfull more. apply form_results_full; simpl; try assumption; lia.
Qed.

(** X12. An event the loop cannot read, met before five results were
    collected, costs the results already collected: the line returned is
    the unavailable one. *)
Theorem malformed_event_discards_partial_form
        (sport_path league team_id : string) (w w1 : World)
        (fields : list (string * json)) (before after : list json) (ev : json)
        (results : list string) (e : exn) :
  http_get_json (ESPN_BASE ++ "/sports/" ++ sport_path ++ "/" ++ league
                 ++ "/teams/" ++ team_id ++ "/schedule")
                [("limit", JInt 25)] w
  = (Ok (JObj fields), w1) ->
  assoc "events" fields = Some (JArr (before ++ ev :: after)) ->
  form_results before team_id [] = Ok results ->
  (List.length results < 5)%nat ->
  form_line ev team_id = Raise e ->
  team_form_espn sport_path league team_id w = (Ok FORM_UNAVAILABLE, w1).
Proof.
  intros Hget Hevents Hbefore Hlen Hbad.
  unfold team_form_espn, try_except, team_form_attempt, bind. rewrite Hget.
  unfold pure_result, form_text. rewrite get_default_obj, Hevents.
  cbn [rbind].
  replace (py_or (JArr (before ++ ev :: after)) empty_list)
    with (JArr (before ++ ev :: after))
    by (unfold py_or; simpl; now destruct before).
  cbn [py_iter rbind].
  rewrite (form_results_continues _ _ _ _ _ Hbefore Hlen).
  rewrite form_results_cons, Hbad. reflexivity.
Qed.

Lemma unfinished_skipped ev team_id :
  unfinished ev = true -> form_line ev team_id = Ok None.
Proof.
  unfold unfinished, status_of, first_competition. intros H.
  repeat (apply andb_true_iff in H; destruct H as [H ?]).
  destruct ev as [| | | | | fields]; try discriminate.
  unfold form_line. rewrite get_default_obj. cbn [rbind].
  unfold field in *.
  destruct (assoc "competitions" fields) as [[| | | | [| comp more] |] |];
    try discriminate.
  change (py_or (JArr (comp :: more)) empty_list) with (JArr (comp :: more)).
  cbn [truthy negb py_index nth_error rbind].
  destruct comp as [| | | | | cfields]; try discriminate.
  rewrite get_default_obj. cbn [rbind].
  assert (Est : py_or (match assoc "status" cfields with
                       | Some v => v | None => empty_dict end) empty_dict
                = py_or (match assoc "status" cfields with
                         | Some x => x | None => JNull end) empty_dict).
  { destruct (assoc "status" cfields); reflexivity. }
  rewrite Est.
  destruct (py_or (match assoc "status" cfields with
                   | Some x => x | None => JNull end) empty_dict)
    as [| | | | | sfields]; try discriminate.
  rewrite get_default_obj. cbn [rbind].
  assert (Ety : py_or (match assoc "type" sfields with
                       | Some v => v | None => empty_dict end) empty_dict
                = py_or (match assoc "type" sfields with
                         | Some x => x | None => JNull end) empty_dict).
  { destruct (assoc "type" sfields); reflexivity. }
  rewrite Ety.
  destruct (py_or (match assoc "type" sfields with
                   | Some x => x | None => JNull end) empty_dict)
    as [| | | | | tfields]; try discriminate.
  unfold get. rewrite get_default_obj. cbn [rbind].
  match goal with
  | Hc : negb (truthy ?v) = true |- context [truthy ?v'] =>
      change v' with v; rewrite Hc
  end.
  reflexivity.
Qed.

(** X13. An event whose first competition is not completed gives no
    line, and the schedule reads the same with or without it. *)
Theorem unfinished_events_leave_form_unchanged (ev : json) (team_id : string) :
  unfinished ev = true ->
  form_line ev team_id = Ok None
  /\ forall before after acc,
       form_results (before ++ ev :: after) team_id acc
       = form_results (before ++ after) team_id acc.
Proof.
  intros H. pose proof (unfinished_skipped ev team_id H) as Hskip.
  split; [assumption|].
  induction before as [| b before IH]; intros after acc.
  - simpl app. now rewrite form_results_cons, Hskip.
  - rewrite <- !app_comm_cons, !form_results_cons.
    destruct (form_line b team_id) as [[line |] |]; cbn [rbind]; auto.
    destruct (5 <=? List.length (acc ++ [line]))%nat; auto.
Qed.

End FormLoop.

(** *** Requests and their cache *)

Section Requests.
Context {B : Builtins}.

Lemma find_app_none {A} (f : A -> bool) (l l' : list A) :
  find f l = None -> find f (l ++ l') = find f l'.
Proof.
  induction l as [| x l IH]; simpl; [reflexivity|].
  destruct (f x); [discriminate | assumption].
Qed.

Lemma cache_find_setitem now k v c :
  cache_find k (cache_setitem now k v c)
  = Some {| entry_key := k; entry_value := v; entry_expires := (now + ttl)%Q |}.
Proof.
  unfold cache_find, cache_setitem. rewrite find_app_none.
  - simpl. unfold has_key. simpl. now rewrite String.eqb_refl.
  - destruct (find (has_key k) (cache_evict (cache_remove k (cache_expire now c))))
      as [e |] eqn:E; [| reflexivity].
    apply find_some in E. destruct E as [Hin Hk].
    unfold cache_evict in Hin. apply in_skipn in Hin.
    unfold cache_remove in Hin. apply filter_In in Hin.
    destruct Hin as [_ Hn]. rewrite Hk in Hn. discriminate Hn.
Qed.

(** X14. A request that fails on a cache miss raises the request's
    error and puts nothing in the cache. *)
Theorem failed_request_is_not_cached (url : string) (params : list (string * json))
        (w : World) (e : exn) :
  cache_contains (clock w (tick w)) (cache_key url params) (cache w) = false ->
  net w (S (tick w)) url params = Raise e ->
  fst (http_get_json url params w) = Raise e
  /\ cache (snd (http_get_json url params w)) = cache w
  /\ tick (snd (http_get_json url params w)) = S (S (tick w)).
Proof.
  intros Hmiss Hnet. unfold http_get_json, bind, cache_has.
  fold (cache_key url params). rewrite Hmiss.
  unfold client_get. cbn [step tick net cache]. rewrite Hnet. simpl. auto.
Qed.

(** X15. After a miss answered by the network, the same request made
    again within the 60 s is answered with the same data in two
    interactions, the test and the read of the cache: no request is
    sent. *)
Theorem fetched_response_is_served_from_cache
        (url : string) (params : list (string * json)) (w : World) (data : json) :
  cache_contains (clock w (tick w)) (cache_key url params) (cache w) = false ->
  net w (S (tick w)) url params = Ok data ->
  (clock w (S (S (S (tick w)))) < clock w (S (S (tick w))) + 60)%Q ->
  (clock w (S (S (S (S (tick w))))) < clock w (S (S (tick w))) + 60)%Q ->
  exists w1 w2,
    http_get_json url params w = (Ok data, w1)
    /\ http_get_json url params w1 = (Ok data, w2)
    /\ tick w1 = S (S (S (tick w)))
    /\ tick w2 = S (S (S (S (S (tick w))))).
Proof.
  intros Hmiss Hnet H3 H4.
  assert (Hlive : forall now,
             (now < clock w (S (S (tick w))) + 60)%Q ->
             live now {| entry_key := cache_key url params; entry_value := data;
                         entry_expires := (clock w (S (S (tick w))) + ttl)%Q |}
             = true).
  { intros now Hnow. unfold live. cbn [entry_expires]. apply negb_true_iff.
    destruct (Qle_bool (clock w (S (S (tick w))) + ttl) now) eqn:E;
      [| reflexivity].
    apply Qle_bool_iff in E. unfold ttl in E.
    exfalso. apply (Qlt_not_le _ _ Hnow E). }
  eexists _, _. split; [| split; [| split]].
  - unfold http_get_json, bind, cache_has. fold (cache_key url params).
    rewrite Hmiss. unfold client_get. cbn [step tick net cache clock].
    rewrite Hnet. unfold cache_put, ret. cbn [step tick net cache clock].
    reflexivity.
  - unfold http_get_json, bind, cache_has. fold (cache_key url params).
    cbn [step tick net cache clock].
    unfold cache_contains. rewrite cache_find_setitem.
    rewrite (Hlive _ H3).
    unfold cache_get. cbn [step tick net cache clock].
    unfold cache_getitem. rewrite cache_find_setitem.
    rewrite (Hlive _ H4). reflexivity.
  - reflexivity.
  - reflexivity.
Qed.

(** X16. [if key in CACHE: return CACHE[key]] reads the clock twice: an
    entry live at the test and expired at the read makes [http_get_json]
    raise [KeyError] instead of fetching. *)
Theorem entry_expiring_between_test_and_read_raises
        (url : string) (params : list (string * json)) (w : World) :
  cache_contains (clock w (tick w)) (cache_key url params) (cache w) = true ->
  cache_contains (clock w (S (tick w))) (cache_key url params) (cache w) = false ->
  fst (http_get_json url params w) = Raise KeyError
  /\ cache (snd (http_get_json url params w)) = cache w.
Proof.
  intros Hhit Hgone. unfold http_get_json, bind, cache_has.
  fold (cache_key url params). rewrite Hhit.
  unfold cache_get. cbn [step tick net cache clock].
  unfold cache_getitem. unfold cache_contains in *.
  destruct (cache_find (cache_key url params) (cache w)) as [e |];
    [| discriminate Hhit].
  rewrite Hgone. simpl. auto.
Qed.

End Requests.

(** *** Probable starters *)

Section Starters.
Context {B : Builtins}.

(** X17. Probable starters, for [nhl_goalies] and [mlb_pitchers] alike:
    a payload without the [matchup] (resp. [gameData]) entry gives the
    unavailable line; a payload that is not a dict raises
    [AttributeError] inside the [try]; with names, the away side is
    listed before the home side and a side without a name is left out;
    and what the fetcher returns for a payload that names the sides is
    that text. *)
Theorem probable_starters_listing :
  (forall landing,
      is_dict landing = true ->
      truthy (field "matchup" landing) = false ->
      goalies_text landing = Ok GOALIES_UNAVAILABLE)
  /\ (forall data,
         is_dict data = true ->
         truthy (field "gameData" data) = false ->
         pitchers_text data = Ok PITCHERS_UNAVAILABLE)
  /\ (forall payload,
         is_dict payload = false ->
         goalies_text payload = Raise AttributeError
         /\ pitchers_text payload = Raise AttributeError)
  /\ (forall home away,
         goalies_text (landing_with home away)
         = Ok (if (home =? "")%string && (away =? "")%string
               then GOALIES_UNAVAILABLE
               else
                 String.concat nl
                   (["🧤 Gardiens probables (si dispo):"]
                    ++ (if (away =? "")%string then []
                        else [("- Extérieur: " ++ away)%string])
                    ++ (if (home =? "")%string then []
                        else [("- Domicile: " ++ home)%string]))%list))
  /\ (forall home away,
         pitchers_text (feed_with home away)
         = Ok (if (home =? "")%string && (away =? "")%string
               then PITCHERS_UNAVAILABLE
               else
                 String.concat nl
                   (["⚾ Lanceurs probables (si dispo):"]
                    ++ (if (away =? "")%string then []
                        else [("- Extérieur: " ++ away)%string])
                    ++ (if (home =? "")%string then []
                        else [("- Domicile: " ++ home)%string]))%list))
  /\ (forall game_id home away w w1,
         http_get_json ("https://api-web.nhle.com/v1/gamecenter/" ++ game_id
                        ++ "/landing") [] w
         = (Ok (landing_with home away), w1) ->
         nhl_goalies game_id w
         = (Ok (if (home =? "")%string && (away =? "")%string
                then GOALIES_UNAVAILABLE
                else
                  String.concat nl
                    (["🧤 Gardiens probables (si dispo):"]
                     ++ (if (away =? "")%string then []
                         else [("- Extérieur: " ++ away)%string])
                     ++ (if (home =? "")%string then []
                         else [("- Domicile: " ++ home)%string]))%list),
            w1))
  /\ (forall game_pk home away w w1,
         http_get_json ("https://statsapi.mlb.com/api/v1.1/game/" ++ game_pk
                        ++ "/feed/live") [] w
         = (Ok (feed_with home away), w1) ->
         mlb_pitchers game_pk w
         = (Ok (if (home =? "")%string && (away =? "")%string
                then PITCHERS_UNAVAILABLE
                else
                  String.concat nl
                    (["⚾ Lanceurs probables (si dispo):"]
                     ++ (if (away =? "")%string then []
                         else [("- Extérieur: " ++ away)%string])
                     ++ (if (home =? "")%string then []
                         else [("- Domicile: " ++ home)%string]))%list),
            w1)).
Proof.
  assert (Hgoalies : forall home away,
             goalies_text (landing_with home away)
             = Ok (if (home =? "")%string && (away =? "")%string
                   then GOALIES_UNAVAILABLE
                   else
                     String.concat nl
                       (["🧤 Gardiens probables (si dispo):"]
                        ++ (if (away =? "")%string then []
                            else [("- Extérieur: " ++ away)%string])
                        ++ (if (home =? "")%string then []
                            else [("- Domicile: " ++ home)%string]))%list))
    by (intros home away; destruct home, away; reflexivity).
  assert (Hpitchers : forall home away,
             pitchers_text (feed_with home away)
             = Ok (if (home =? "")%string && (away =? "")%string
                   then PITCHERS_UNAVAILABLE
                   else
                     String.concat nl
                       (["⚾ Lanceurs probables (si dispo):"]
                        ++ (if (away =? "")%string then []
                            else [("- Extérieur: " ++ away)%string])
                        ++ (if (home =? "")%string then []
                            else [("- Domicile: " ++ home)%string]))%list))
    by (intros home away; destruct home, away; reflexivity).
  split; [| split; [| split; [| split; [| split; [| split]]]]].
  - intros landing Hd Hm. destruct landing as [| | | | | fields];
      try discriminate.
    unfold goalies_text, field in *. rewrite get_default_obj. cbn [rbind].
    assert (E : py_or (match assoc "matchup" fields with
                       | Some v => v | None => empty_dict end) empty_dict
                = empty_dict).
    { unfold py_or. destruct (assoc "matchup" fields) as [v |];
        [now rewrite Hm | reflexivity]. }
    rewrite E. reflexivity.
  - intros data Hd Hm. destruct data as [| | | | | fields]; try discriminate.
    unfold pitchers_text, field in *. rewrite get_default_obj. cbn [rbind].
    assert (E : py_or (match assoc "gameData" fields with
                       | Some v => v | None => empty_dict end) empty_dict
                = empty_dict).
    { unfold py_or. destruct (assoc "gameData" fields) as [v |];
        [now rewrite Hm | reflexivity]. }
    rewrite E. reflexivity.
  - intros payload Hd. destruct payload; try discriminate; split; reflexivity.
  - exact Hgoalies.
  - exact Hpitchers.
  - intros game_id home away w w1 Hget.
    unfold nhl_goalies, nhl_goalies_attempt, try_except, bind.
    rewrite Hget. unfold pure_result. rewrite Hgoalies. reflexivity.
  - intros game_pk home away w w1 Hget.
    unfold mlb_pitchers, mlb_pitchers_attempt, try_except, bind.
    rewrite Hget. unfold pure_result. rewrite Hpitchers. reflexivity.
Qed.

End Starters.

(** *** Stale buttons, failed fetches and malformed data *)

Section EdgeCases.
Context {B : Builtins}.

(** X18. Buttons of an old message pressed after the session was
    cleared: a date button shows the sports menu; a page button shows an
    empty list under a title that reads [Matchs None]. *)
Theorem buttons_pressed_after_a_reset (data : option string) (c : Ctx) :
  user_data c = cleared ->
  (callback_action data = "date" ->
   on_button data c
   = (Ok tt, replied c [Answer; EditMessageText SPORTS_PROMPT (Some kb_sports)]))
  /\ (forall p page,
         callback_action data = "page" ->
         second_part (callback_parts data) = Ok p ->
         py_int (JStr p) = Ok page ->
         on_button data c
         = (Ok tt,
            {| user_data := set_page page cleared;
               world := world c;
               sent :=
                 (sent c
                  ++ [Answer;
                      EditMessageText "Matchs None — Aujourd’hui"
                                      (Some (kb_matches [] page))])%list |})).
Proof.
  intros Hclear. split.
  - intros Hact. rewrite (on_button_date data c Hact).
    unfold on_date, hbind, read_user_data, answered. cbn [user_data].
    unfold edit_message_text, send, replied. cbn [user_data world sent].
    rewrite Hclear. change (no_sport (ud_sport cleared)) with true. cbv iota.
    cbn [user_data world sent]. rewrite <- Hclear. now rewrite <- app_assoc.
  - intros p page Hact Hp Hint. unfold on_button, hbind, send.
    rewrite Hact. cbn [String.eqb Ascii.eqb Bool.eqb].
    unfold on_page, hbind, now_or_raise. rewrite Hp, Hint.
    unfold read_user_data, write_user_data, edit_message_text, send.
    cbn [user_data world sent]. rewrite Hclear.
    cbn. now rewrite <- app_assoc.
Qed.

(** X19. When the pipeline of the [date] action raises, the exception
    leaves [on_button]: the last message the user sees is the one sent
    before fetching, the date choice and page 0 are already stored, and
    the stored list is the one from before. *)
Theorem failed_fetch_leaves_user_waiting
        (data : option string) (c : Ctx) (sport choice : string)
        (e : exn) (w1 : World) :
  callback_action data = "date" ->
  second_part (callback_parts data) = Ok choice ->
  ud_sport (user_data c) = Some sport ->
  no_sport (Some sport) = false ->
  fetch_matches sport (ud_basket_league (user_data c))
                (utc_day (world c) (tick (world c))
                 + (if (choice =? "tomorrow")%string then 1 else 0))
                (step (world c) (cache (world c)))
  = (Raise e, w1) ->
  on_button data c
  = (Raise e,
     {| user_data := set_page 0 (set_date_choice choice (user_data c));
        world := w1;
        sent :=
          (sent c
           ++ [Answer; EditMessageText "🔎 Je récupère les matchs…" None])%list |}).
Proof.
  intros Hact Hchoice Hsport Hsel Hfetch.
  rewrite (on_button_date data c Hact).
  unfold on_date, hbind, read_user_data, answered.
  cbn [user_data world sent]. rewrite Hsport, Hsel.
  unfold now_or_raise at 1. rewrite Hchoice.
  unfold await at 1, datetime_now_utc, write_user_data, edit_message_text, send.
  cbn [user_data world sent].
  unfold await. cbn [user_data world sent]. rewrite Hfetch.
  now rewrite <- app_assoc.
Qed.

Lemma py_lt_orderable a b r :
  py_lt a b = Ok r -> orderable a = true /\ orderable b = true.
Proof. destruct a, b; simpl; intros H; try discriminate H; auto. Qed.

Lemma insert_by_orderable (x : Match) :
  forall acc acc',
    acc <> [] ->
    insert_by match_start_time x acc = Ok acc' ->
    (List.length acc = 1%nat
     \/ Forall (fun m => orderable (match_start_time m) = true) acc) ->
    Forall (fun m => orderable (match_start_time m) = true) acc'
    /\ List.length acc' = S (List.length acc).
Proof.
  induction acc as [| y ys IH]; intros acc' Hne H Hacc; [congruence|].
  simpl in H. unfold rbind in H.
  destruct (py_lt (match_start_time x) (match_start_time y)) as [b |] eqn:Hlt;
    [| discriminate H].
  destruct (py_lt_orderable _ _ _ Hlt) as [Hx Hy].
  assert (Hall : Forall (fun m => orderable (match_start_time m) = true) (y :: ys)).
  { destruct Hacc as [Hone | Hall]; [| assumption].
    destruct ys; [| discriminate Hone]. now constructor. }
  destruct b.
  - injection H as <-. split; [now constructor | reflexivity].
  - destruct (insert_by match_start_time x ys) as [zs |] eqn:Hins;
      [| discriminate H].
    injection H as <-. inversion Hall as [| ? ? _ Hys]; subst.
    destruct ys as [| z ys'].
    + simpl in Hins. injection Hins as <-. split; [| reflexivity].
      repeat constructor; assumption.
    + destruct (IH zs ltac:(discriminate) eq_refl (or_intror Hys)) as [Hzs Hlen].
      split; [now constructor | simpl in *; lia].
Qed.

Lemma sort_into_orderable :
  forall l acc l',
    sort_into match_start_time l acc = Ok l' ->
    (List.length acc <= 1)%nat
    \/ Forall (fun m => orderable (match_start_time m) = true) acc ->
    (2 <= List.length l + List.length acc)%nat ->
    Forall (fun m => orderable (match_start_time m) = true) l'.
Proof.
  induction l as [| x rest IH]; intros acc l' H Hacc Hlen; simpl in H.
  - injection H as <-. destruct Hacc as [Hacc | Hacc]; [simpl in Hlen; lia|].
    assumption.
  - unfold rbind in H.
    destruct (insert_by match_start_time x acc) as [acc' |] eqn:Hins;
      [| discriminate H].
    destruct acc as [| y ys].
    + simpl in Hins. injection Hins as <-.
      apply (IH [x] l' H); [left; simpl; lia | simpl in *; lia].
    + assert (Hpre : List.length (y :: ys) = 1%nat
                     \/ Forall (fun m => orderable (match_start_time m) = true)
                               (y :: ys)).
      { destruct Hacc as [Hacc | Hacc]; [left; simpl in *; lia | now right]. }
      destruct (insert_by_orderable x (y :: ys) acc' ltac:(discriminate) Hins Hpre)
        as [Hall Hl].
      apply (IH acc' l' H); [now right | simpl in *; lia].
Qed.

(** X20. [matches.sort] on two or more matches returns only if no start
    time is [None] or a dict: one such start time makes the [date]
    action raise. *)
Theorem sort_needs_orderable_start_times (l l' : list Match) :
  py_sort match_start_time l = Ok l' ->
  (2 <= List.length l)%nat ->
  Forall (fun m => orderable (match_start_time m) = true) l.
Proof.
  intros H Hlen.
  destruct (py_sort_spec l l' H) as [_ Hperm].
  apply (Permutation_Forall (Permutation_sym Hperm)).
  apply (sort_into_orderable l [] l' H); [left; simpl; lia | simpl; lia].
Qed.

Lemma digits_have_no_sep (u : Decimal.uint) :
  has_sep "|" (NilEmpty.string_of_uint u) = false.
Proof. induction u; simpl; auto. Qed.

Lemma number_has_no_sep (u : Decimal.uint) :
  has_sep "|" (NilZero.string_of_uint u) = false.
Proof.
  destruct u; [reflexivity | ..]; apply digits_have_no_sep.
Qed.

Lemma string_of_Z_no_sep (z : Z) : has_sep "|" (string_of_Z z) = false.
Proof.
  unfold string_of_Z. destruct (Z.to_int z); cbn [NilZero.string_of_int];
    [| cbn [has_sep]; simpl (Ascii.eqb _ _); cbn [orb]];
    apply number_has_no_sep.
Qed.

Lemma page_callback_shows_page (page : Z) (c : Ctx) :
  int_of_str (string_of_Z page) = Some page ->
  on_button (Some ("page|" ++ string_of_Z page)) c = (Ok tt, page_shown page c).
Proof.
  intros Hint.
  assert (Hparts : callback_parts (Some ("page|" ++ string_of_Z page))
                   = ["page"; string_of_Z page]).
  { unfold callback_parts. simpl.
    now rewrite (split_on_no_sep "|" _ (string_of_Z_no_sep page)). }
  unfold on_button, callback_action. rewrite Hparts.
  unfold hbind, send. cbn [hd String.eqb Ascii.eqb Bool.eqb].
  unfold on_page, hbind, now_or_raise, second_part. cbn [nth_error].
  cbn [py_int]. rewrite Hint.
  unfold read_user_data, write_user_data, edit_message_text, send, page_shown.
  cbn [user_data world sent]. now rewrite <- app_assoc.
Qed.

(** X21. The page number written in a button reads back as itself: the
    previous button of page p+1, the next button of page p-1 and the
    back-to-list button of a detail page opened from page p all show
    page p of the stored list. *)
Theorem page_buttons_open_their_page (page : Z) (c : Ctx) :
  int_of_str (string_of_Z page) = Some page ->
  on_button (Some (button_data (prev_button (page + 1)))) c
  = (Ok tt, page_shown page c)
  /\ on_button (Some (button_data (next_button (page - 1)))) c
     = (Ok tt, page_shown page c)
  /\ (forall b, In b (hd [] (detail_markup (Some page))) ->
                on_button (Some (button_data b)) c = (Ok tt, page_shown page c)).
Proof.
  intros Hint. split; [| split].
  - unfold prev_button. cbn [button_data].
    replace (page + 1 - 1) with page by lia.
    now apply page_callback_shows_page.
  - unfold next_button. cbn [button_data].
    replace (page - 1 + 1) with page by lia.
    now apply page_callback_shows_page.
  - intros b [<- | []]. cbn [button_data].
    now apply page_callback_shows_page.
Qed.

(** X22. The sports of the menu are exactly the sports with betting
    markets; each has five markets and at least one league to query;
    for any other sport key the [date] action fetches nothing and sends
    no request. *)
Theorem menu_sports_are_the_served_ones (sport : string) :
  (lookup sport SPORT_LABELS <> None <-> markets_for sport <> [])
  /\ (lookup sport SPORT_LABELS <> None ->
      List.length (markets_for sport) = 5%nat
      /\ leagues_of sport None <> [])
  /\ (lookup sport SPORT_LABELS = None ->
      forall basket_league dt w,
        fetch_matches sport basket_league dt w = (Ok [], w)).
Proof.
  unfold lookup, SPORT_LABELS, markets_for, leagues_of, fetch_matches.
  rewrite (String.eqb_sym "soccer"), (String.eqb_sym "basketball"),
    (String.eqb_sym "tennis"), (String.eqb_sym "nhl"),
    (String.eqb_sym "nfl"), (String.eqb_sym "mlb").
  destruct (sport =? "soccer")%string;
    [repeat split; intros; try discriminate; try congruence |].
  destruct (sport =? "basketball")%string;
    [repeat split; intros; try discriminate; try congruence |].
  destruct (sport =? "tennis")%string;
    [repeat split; intros; try discriminate; try congruence |].
  destruct (sport =? "nhl")%string;
    [repeat split; intros; try discriminate; try congruence |].
  destruct (sport =? "nfl")%string;
    [repeat split; intros; try discriminate; try congruence |].
  destruct (sport =? "mlb")%string;
    [repeat split; intros; try discriminate; try congruence |].
  repeat split; intros; try congruence.
Qed.

(** X23. A scoreboard dict whose [events] entry is missing, null or
    empty gives no match; a scoreboard that is not a dict raises
    [AttributeError]; a list of events gives at most one match per
    event, each tagged with the sport and league of the call. *)
Theorem scoreboard_without_events (sport : string) (sb : json)
        (code name : string) :
  (is_dict sb = true ->
   truthy (field "events" sb) = false ->
   parse_espn_events_to_matches sport sb code name = Ok [])
  /\ (is_dict sb = false ->
      parse_espn_events_to_matches sport sb code name = Raise AttributeError)
  /\ (forall events ms,
         field "events" sb = JArr events ->
         parse_espn_events_to_matches sport sb code name = Ok ms ->
         (List.length ms <= List.length events)%nat
         /\ Forall (tagged_with sport code name) ms).
Proof.
  split; [| split].
  - intros Hd He. destruct sb as [| | | | | fields]; try discriminate.
    unfold parse_espn_events_to_matches, field in *.
    rewrite get_default_obj. cbn [rbind].
    assert (E : py_or (match assoc "events" fields with
                       | Some v => v | None => empty_list end) empty_list
                = empty_list).
    { unfold py_or. destruct (assoc "events" fields) as [v |];
        [now rewrite He | reflexivity]. }
    rewrite E. reflexivity.
  - intros Hd. destruct sb; try discriminate; reflexivity.
  - intros events ms He H. destruct sb as [| | | | | fields]; try discriminate.
    unfold parse_espn_events_to_matches, field in *.
    rewrite get_default_obj in H. cbn [rbind] in H.
    destruct (assoc "events" fields) as [v |]; [| discriminate He].
    subst v. destruct events as [| ev rest].
    + simpl in H. injection H as <-. split; [simpl; lia | constructor].
    + unfold py_or in H. cbn [truthy py_iter rbind] in H.
      destruct (parse_events_spec _ _ _ _ _ _ H) as [new [-> [Hlen Hall]]].
      now split.
Qed.

Lemma parse_events_stops sport code name e ev after :
  forall before acc,
    Forall (parses sport code name) before ->
    event_to_match sport ev code name = Raise e ->
    parse_events sport (before ++ ev :: after) code name acc = Raise e.
Proof.
  induction before as [| x rest IH]; intros acc Hb Hev; simpl.
  - now rewrite Hev.
  - inversion Hb as [| ? ? [r Hx] Hrest]; subst. rewrite Hx. cbn [rbind].
    destruct r; now apply IH.
Qed.

(** X24. One event the normalizer cannot read discards the whole
    league: the normalizer raises, whatever the events before it gave,
    and the soccer or tennis loop goes on with the matches it had. *)
Theorem malformed_event_discards_the_league
        (sport code name : string) (fields : list (string * json))
        (before after : list json) (ev : json) (e : exn) :
  assoc "events" fields = Some (JArr (before ++ ev :: after)) ->
  Forall (parses sport code name) before ->
  event_to_match sport ev code name = Raise e ->
  parse_espn_events_to_matches sport (JObj fields) code name = Raise e
  /\ (forall dt w w1 acc,
         espn_scoreboard sport code dt w = (Ok (JObj fields), w1) ->
         fetch_league sport dt (code, name) acc w = (Ok acc, w1)).
Proof.
  intros He Hb Hev.
  assert (Hparse : parse_espn_events_to_matches sport (JObj fields) code name
                   = Raise e).
  { unfold parse_espn_events_to_matches. rewrite get_default_obj, He.
    cbn [rbind]. unfold py_or.
    assert (Ht : truthy (JArr (before ++ ev :: after)) = true)
      by (destruct before; reflexivity).
    rewrite Ht. cbn [py_iter rbind]. now apply parse_events_stops. }
  split; [assumption|].
  intros dt w w1 acc Hsb.
  unfold fetch_league, try_except, bind. cbn [fst snd].
  unfold bind. rewrite Hsb. unfold pure_result. rewrite Hparse. reflexivity.
Qed.

(** X25. Callback data without its argument ([back], [sport],
    [bleague], [page], [match] alone) raises [IndexError], and a page
    argument that is not a number raises [ValueError]; in both cases
    the query was answered and nothing else was sent or stored. *)
Theorem malformed_callback_raises_after_answer (data : option string) (c : Ctx) :
  (forall e,
      second_part (callback_parts data) = Raise e ->
      In (callback_action data) ["back"; "sport"; "bleague"; "page"; "match"] ->
      on_button data c = (Raise e, answered c))
  /\ (forall p e,
         callback_action data = "page" ->
         second_part (callback_parts data) = Ok p ->
         py_int (JStr p) = Raise e ->
         on_button data c = (Raise e, answered c)).
Proof.
  split.
  - intros e Hp Hin. unfold on_button, hbind, send.
    simpl in Hin.
    destruct Hin as [H | [H | [H | [H | [H | []]]]]]; rewrite <- H;
      cbn [String.eqb Ascii.eqb Bool.eqb];
      unfold on_back, on_sport, on_bleague, on_page, on_match, hbind,
        now_or_raise, read_user_data; rewrite ?Hp; reflexivity.
  - intros p e Hact Hp Hint. unfold on_button, hbind, send. rewrite Hact.
    cbn [String.eqb Ascii.eqb Bool.eqb].
    unfold on_page, hbind, now_or_raise. rewrite Hp, Hint. reflexivity.
Qed.

End EdgeCases.

(** *** Runs of the further properties on the UTC host *)

(** An NHL day: both listed games are NHL games of the NHL league. *)
Lemma fetched_matches_run :
  exists ms w',
    fetch_matches (B := utc_host) "nhl" None 19723 (answering two_games)
    = (Ok ms, w')
    /\ map match_id ms = ["402"; "401"]
    /\ Forall (fun m => match_sport m = "nhl"
                        /\ In (match_league m, match_league_name m)
                              [("nhl", "NHL")])
              ms.
Proof.
  destruct (fetch_matches (B := utc_host) "nhl" None 19723 (answering two_games))
    as [[ms | e] w'] eqn:E.
  - exists ms, w'. split; [reflexivity | split].
    + vm_compute in E. injection E as <- _. reflexivity.
    + exact (fetched_matches_belong_to_sport (B := utc_host)
               "nhl" None 19723 (answering two_games) w' ms E).
  - vm_compute in E. discriminate E.
Defined.

(** Choosing a sport with every request failing: the world is not
    touched. *)
Lemma navigation_run :
  world (snd (on_button (B := utc_host) (Some "sport|nhl") (fresh offline)))
  = offline.
Proof.
  exact (navigation_makes_no_request (B := utc_host) (Some "sport|nhl")
           (fresh offline) eq_refl eq_refl).
Defined.

(** The second match of a list of two has its button on page 0, and the
    button's data reads back as its id. *)
Lemma match_button_run :
  (exists label,
      In (InlineKeyboardButton label "match|402")
         (List.concat
            (kb_matches (B := utc_host) [sample_match "401"; sample_match "402"] 0)))
  /\ second_part (callback_parts (Some "match|402")) = Ok "402".
Proof.
  destruct (match_button_opens_its_match (B := utc_host)
              (session "tennis" (Some [sample_match "401"; sample_match "402"])
                       offline)
              "tennis" (sample_match "402") eq_refl eq_refl
              (or_intror (or_introl eq_refl)))
    as [Hbutton [Hdecode _]].
  split.
  - apply (Hbutton 0). right. left. reflexivity.
  - apply Hdecode. reflexivity.
Defined.

(** The "tomorrow" button of the date keyboard is handled. *)
Lemma rendered_button_run :
  exists rest,
    sent (snd (on_button (B := utc_host) (Some "date|tomorrow")
                         (session "nhl" None offline)))
    = Answer :: rest
    /\ ~ In unknown_reply rest.
Proof.
  exact (rendered_buttons_are_handled (B := utc_host)
           (InlineKeyboardButton "📅 Demain" "date|tomorrow")
           (session "nhl" None offline)
           (or_intror (or_introl (or_intror (or_introl eq_refl))))).
Defined.

(** An action the handler does not know. *)
Lemma unknown_command_run :
  on_button (B := utc_host) (Some "help") (fresh offline)
  = (Ok tt, replied (fresh offline) [Answer; unknown_reply]).
Proof.
  exact (proj1 (unknown_command_exactly_when_unhandled (B := utc_host)
                  (Some "help") (fresh offline))
               eq_refl).
Defined.

(** Twenty-three matches are the pages 0, 1 and 2 put end to end. *)
Lemma pages_run :
  flat_map (fun p => page_chunk twenty_three (Z.of_nat p) 10) (seq 0 3)
  = twenty_three.
Proof.
  apply (pages_cover_the_list twenty_three 3). vm_compute. lia.
Defined.

(** Page -2 of twenty-three matches shows the matches 3 to 12. *)
Lemma negative_page_run :
  page_chunk twenty_three (-2) 10 = firstn 10 (skipn 3 twenty_three).
Proof.
  destruct (negative_pages_count_from_the_end (B := utc_host) twenty_three (-2)
              eq_refl)
    as [_ [Hwindow _]].
  apply Hwindow; vm_compute; discriminate.
Defined.

(** Five results are reached: a sixth event is never read. *)
Lemma recent_form_run :
  exists results,
    form_results (B := utc_host) five_events "10" [] = Ok results
    /\ List.length results = 5%nat
    /\ form_results (B := utc_host) (five_events ++ [sixth_event]) "10" []
       = Ok results.
Proof.
  destruct (form_results (B := utc_host) five_events "10" [])
    as [results | e] eqn:E.
  - destruct (recent_form_stops_at_five (B := utc_host) five_events "10"
                results E)
      as [_ Hstop].
    assert (Hlen : List.length results = 5%nat)
      by (vm_compute in E; injection E as <-; reflexivity).
    exists results. split; [reflexivity | split; [exact Hlen |]].
    apply Hstop. exact Hlen.
  - vm_compute in E. discriminate E.
Defined.

(** One result was collected when the malformed event is met: the line
    returned is the unavailable one. *)
Lemma damaged_schedule_run :
  fst (team_form_espn (B := utc_host) "soccer" "eng.1" "10"
                      (answering (JObj damaged_schedule)))
  = Ok FORM_UNAVAILABLE.
Proof.
  destruct (http_get_json (B := utc_host)
              (ESPN_BASE ++ "/sports/" ++ "soccer" ++ "/" ++ "eng.1"
               ++ "/teams/" ++ "10" ++ "/schedule")
              [("limit", JInt 25)] (answering (JObj damaged_schedule)))
    as [r w1] eqn:E.
  assert (Hr : r = Ok (JObj damaged_schedule))
    by (apply (f_equal fst) in E; vm_compute in E; now subst r).
  subst r.
  erewrite (malformed_event_discards_partial_form (B := utc_host)
              "soccer" "eng.1" "10" (answering (JObj damaged_schedule)) w1
              damaged_schedule
              [schedule_event "2024-01-01T15:00Z" true "1" "0"] []
              (JStr "oops") _ AttributeError E eq_refl);
    [reflexivity | vm_compute; reflexivity | vm_compute; lia | reflexivity].
Defined.

(** An event that is not completed gives no line. *)
Lemma unfinished_event_run :
  form_line (B := utc_host) (schedule_event "2024-01-07T15:00Z" false "0" "0")
            "10"
  = Ok None.
Proof.
  exact (proj1 (unfinished_events_leave_form_unchanged (B := utc_host)
                  (schedule_event "2024-01-07T15:00Z" false "0" "0") "10"
                  eq_refl)).
Defined.

(** A failed request leaves the cache empty. *)
Lemma failed_request_run :
  fst (http_get_json (B := utc_host) "u" [] offline) = Raise service_unavailable
  /\ cache (snd (http_get_json (B := utc_host) "u" [] offline)) = CACHE
  /\ tick (snd (http_get_json (B := utc_host) "u" [] offline)) = 2%nat.
Proof.
  exact (failed_request_is_not_cached (B := utc_host) "u" [] offline
           service_unavailable eq_refl eq_refl).
Defined.

(** Two requests of the same URL one after the other: the second one is
    answered after two interactions, the test and the read of the
    cache. *)
Lemma cached_response_run :
  exists w1 w2,
    http_get_json (B := utc_host) "u" [] (answering (JInt 7)) = (Ok (JInt 7), w1)
    /\ http_get_json (B := utc_host) "u" [] w1 = (Ok (JInt 7), w2)
    /\ tick w1 = 3%nat /\ tick w2 = 5%nat.
Proof.
  apply (fetched_response_is_served_from_cache (B := utc_host) "u" []
           (answering (JInt 7)) (JInt 7));
    vm_compute; reflexivity.
Defined.

(** The entry is live at the test and expired at the read. *)
Lemma expiring_entry_run :
  fst (http_get_json (B := utc_host) "u" [] about_to_expire) = Raise KeyError
  /\ cache (snd (http_get_json (B := utc_host) "u" [] about_to_expire))
     = cache about_to_expire.
Proof.
  apply (entry_expiring_between_test_and_read_raises (B := utc_host) "u" []
           about_to_expire);
    vm_compute; reflexivity.
Defined.

(** A payload without goalies, one that is not a dict, and a feed that
    names both pitchers. *)
Lemma probable_starters_run :
  goalies_text (B := utc_host) (JObj [("matchup", JNull)])
  = Ok GOALIES_UNAVAILABLE
  /\ pitchers_text (B := utc_host) (JArr []) = Raise AttributeError
  /\ fst (mlb_pitchers (B := utc_host) "745"
                       (answering (feed_with "Cole" "Sale")))
     = Ok ("⚾ Lanceurs probables (si dispo):" ++ nl
           ++ "- Extérieur: Sale" ++ nl ++ "- Domicile: Cole").
Proof.
  destruct (probable_starters_listing (B := utc_host))
    as [Hgoalies [_ [Hshape [_ [_ [_ Hfeed]]]]]].
  split; [| split].
  - apply Hgoalies; reflexivity.
  - apply (Hshape (JArr [])). reflexivity.
  - rewrite (Hfeed "745" "Cole" "Sale" (answering (feed_with "Cole" "Sale"))
                   _ (surjective_pairing _)).
    reflexivity.
Defined.

(** A date button pressed with nothing chosen. *)
Lemma reset_run :
  on_button (B := utc_host) (Some "date|today") (fresh offline)
  = (Ok tt,
     replied (fresh offline)
             [Answer; EditMessageText SPORTS_PROMPT (Some kb_sports)]).
Proof.
  exact (proj1 (buttons_pressed_after_a_reset (B := utc_host)
                  (Some "date|today") (fresh offline) eq_refl)
               eq_refl).
Defined.

(** An NHL day with every request failing. *)
Lemma failed_fetch_run :
  exists u w1,
    on_button (B := utc_host) (Some "date|today") (session "nhl" None offline)
    = (Raise service_unavailable,
       {| user_data := u; world := w1;
          sent := [Answer; EditMessageText "🔎 Je récupère les matchs…" None] |})
    /\ ud_date_choice u = Some "today"
    /\ ud_matches u = None.
Proof.
  eexists _, _. split.
  - apply (failed_fetch_leaves_user_waiting (B := utc_host)
             (Some "date|today") (session "nhl" None offline) "nhl" "today"
             service_unavailable _ eq_refl eq_refl eq_refl eq_refl).
    lazy. reflexivity.
  - split; reflexivity.
Defined.

(** Two matches whose start times are strings. *)
Lemma orderable_run :
  Forall (fun m => orderable (match_start_time m) = true)
         [sample_match "1"; sample_match "2"].
Proof.
  exact (sort_needs_orderable_start_times
           [sample_match "1"; sample_match "2"] _ eq_refl (le_n 2)).
Defined.

(** The previous button of page 2 shows page 1. *)
Lemma page_button_run :
  on_button (B := utc_host) (Some (button_data (prev_button 2)))
            (session "tennis" (Some twenty_three) offline)
  = (Ok tt, page_shown (B := utc_host) 1
                       (session "tennis" (Some twenty_three) offline)).
Proof.
  exact (proj1 (page_buttons_open_their_page (B := utc_host) 1
                  (session "tennis" (Some twenty_three) offline) eq_refl)).
Defined.

(** A scoreboard with a null list of events, and one that is a list. *)
Lemma scoreboard_run :
  parse_espn_events_to_matches (B := utc_host) "nhl"
                               (JObj [("events", JNull)]) "nhl" "NHL"
  = Ok []
  /\ parse_espn_events_to_matches (B := utc_host) "nhl" (JArr []) "nhl" "NHL"
     = Raise AttributeError.
Proof.
  split.
  - apply (scoreboard_without_events (B := utc_host) "nhl"
             (JObj [("events", JNull)]) "nhl" "NHL"); reflexivity.
  - apply (scoreboard_without_events (B := utc_host) "nhl" (JArr [])
             "nhl" "NHL"). reflexivity.
Defined.

(** The well-formed first event is lost with the malformed second one. *)
Lemma damaged_scoreboard_run :
  parse_espn_events_to_matches (B := utc_host) "nhl" (JObj damaged_scoreboard)
                               "nhl" "NHL"
  = Raise AttributeError.
Proof.
  apply (malformed_event_discards_the_league (B := utc_host) "nhl" "nhl" "NHL"
           damaged_scoreboard
           [scoreboard_event "401" "2024-01-01T18:00Z" "Oilers" "Flames"] []
           (JStr "oops") AttributeError eq_refl).
  - constructor; [| constructor]. eexists. reflexivity.
  - reflexivity.
Defined.

(** A page button without a number, and one with a word. *)
Lemma malformed_callback_run :
  on_button (B := utc_host) (Some "page") (fresh offline)
  = (Raise IndexError, answered (fresh offline))
  /\ on_button (B := utc_host) (Some "page|two") (fresh offline)
     = (Raise ValueError, answered (fresh offline)).
Proof.
  destruct (malformed_callback_raises_after_answer (B := utc_host)
              (Some "page") (fresh offline))
    as [Hmissing _].
  destruct (malformed_callback_raises_after_answer (B := utc_host)
              (Some "page|two") (fresh offline))
    as [_ Hword].
  split.
  - apply Hmissing; [reflexivity |]. right. right. right. left. reflexivity.
  - apply (Hword "two"); reflexivity.
Defined.
